(** * DGUS dashboard asset generators: a shallow embedding

    The repository holds two Pillow scripts that draw gauge frames and icons
    and write them as PNG files: the flat script [real2.py] (speed, RPM,
    temperature, state of charge, voltage/current, charging, indicators,
    warnings) and the class based [try.py] (background, labels, arrows,
    bars).  This file embeds both: Python numbers, exceptions and the
    process state come first, then the two scripts statement by statement,
    then the properties of the embedding. *)

From Stdlib Require Import ZArith List String Ascii Bool Lia DecimalString.
Import ListNotations.
Local Open Scope string_scope.
Local Open Scope Z_scope.

(** ** Python floats

    A Python [float] is an IEEE-754 binary64 number.  Every finite binary64
    value is an integer multiple of the quantum 2^-1074, so a finite float is
    held here as that (signed) integer; [-0.0] and [0.0], which compare equal
    and which the scripts never tell apart, are both [0].  Infinities and
    NaN are not represented: integer division reports overflow by raising,
    and every product and sum of the scripts stays far below 2^1024. *)
Module F64.

Definition t := Z.

(** 1.0, and 2^1024 (the first magnitude that is no longer finite). *)
Definition one : t := 2 ^ 1074.
Definition out_of_range : Z := 2 ^ 2098.
(** The largest finite float, (2^53 - 1) * 2^971. *)
Definition max_float : t := (2 ^ 53 - 1) * 2 ^ 2045.

(** [rne p q]: the integer nearest to p/q, ties to the even one (q > 0). *)
Definition rne (p q : Z) : Z :=
  let d := p / q in
  let r2 := 2 * (p mod q) in
  if r2 <? q then d
  else if q <? r2 then d + 1
  else if Z.even d then d else d + 1.

(** [round_pos p q]: the float nearest to the non-negative rational p/q
    (counted in quanta).  Below 2^53 quanta the floats are one quantum apart
    (subnormals and the first normal binades); from 2^(52+k) to 2^(53+k)
    they are 2^k apart. *)
Definition round_pos (p q : Z) : Z :=
  let k := Z.max 0 (Z.log2 (p / q) - 52) in
  rne p (q * 2 ^ k) * 2 ^ k.

(** Rounding of a signed rational p/q, q > 0: symmetric around zero. *)
Definition round (p q : Z) : t :=
  Z.sgn p * round_pos (Z.abs p) q.

(** A decimal literal such as [0.3] (here 3/10): correctly rounded. *)
Definition literal (p q : Z) : t := round (p * one) q.

(** [float(n)] for an int of magnitude below 2^1024. *)
Definition of_int (n : Z) : t := round (n * one) 1.

(** [x * y] and [x + y] on floats. *)
Definition mul (x y : t) : t := round (x * y) one.
Definition add (x y : t) : t := round (x + y) 1.

(** [x < y]. *)
Definition ltb (x y : t) : bool := x <? y.

(** [int(x)]: truncation towards zero. *)
Definition to_int (x : t) : Z := Z.quot x one.

End F64.

(** ** Python run-time: exceptions, results, numbers, text *)

(** The exception classes the scripts can meet.  [OSError] also stands for
    its alias [IOError]; [OtherException] is any further class derived from
    [Exception] (ImportError, ValueError, IndexError, ...);
    [KeyboardInterrupt] and [OtherBaseException] (SystemExit, GeneratorExit)
    derive from [BaseException] only. *)
Inductive exn : Type :=
| ZeroDivisionError (msg : string)
| OverflowError (msg : string)
| OSError (msg : string)
| OtherException (cls msg : string)
| KeyboardInterrupt
| OtherBaseException (cls : string).

(** [isinstance(e, Exception)] and [isinstance(e, OSError)]. *)
Definition is_Exception (e : exn) : bool :=
  match e with
  | KeyboardInterrupt | OtherBaseException _ => false
  | _ => true
  end.

Definition is_OSError (e : exn) : bool :=
  match e with OSError _ => true | _ => false end.

Definition is_KeyboardInterrupt (e : exn) : bool :=
  match e with KeyboardInterrupt => true | _ => false end.

(** [str(e)], as interpolated by the f-strings of the handlers. *)
Definition exn_str (e : exn) : string :=
  match e with
  | ZeroDivisionError m | OverflowError m | OSError m | OtherException _ m => m
  | KeyboardInterrupt => ""
  | OtherBaseException _ => ""
  end.

Inductive result (A : Type) : Type :=
| Ok (a : A)
| Raise (e : exn).
Arguments Ok {A} a.
Arguments Raise {A} e.

Definition rbind {A B} (c : result A) (k : A -> result B) : result B :=
  match c with Ok a => k a | Raise e => Raise e end.

Notation "'let*' x ':=' c 'in' k" := (rbind c (fun x => k))
  (at level 10, x name, c at level 100, k at level 200).

(** [for x in l: acc = body(acc, x)] where the body may raise. *)
Fixpoint foldR {A S} (body : S -> A -> result S) (l : list A) (s : S) : result S :=
  match l with
  | [] => Ok s
  | x :: l' => let* s' := body s x in foldR body l' s'
  end.

(** A list built by [append] in a loop whose body may raise. *)
Fixpoint mapR {A B} (f : A -> result B) (l : list A) : result (list B) :=
  match l with
  | [] => Ok []
  | x :: l' => let* y := f x in let* ys := mapR f l' in Ok (y :: ys)
  end.

(** [a / b] on ints: true division, correctly rounded; it raises on a zero
    divisor and when the quotient is too large for a float. *)
Definition truediv (a b : Z) : result F64.t :=
  if b =? 0 then Raise (ZeroDivisionError "division by zero")
  else
    let m := F64.round_pos (Z.abs a * F64.one) (Z.abs b) in
    if F64.out_of_range <=? m
    then Raise (OverflowError "integer division result too large for a float")
    else Ok (Z.sgn a * Z.sgn b * m).

(** [range(n)]. *)
Definition range (n : Z) : list Z := map Z.of_nat (seq 0 (Z.to_nat n)).

(** [enumerate(l)]. *)
Definition enumerate {A} (l : list A) : list (Z * A) :=
  combine (range (Z.of_nat (List.length l))) l.

(** [str(n)] for an int. *)
Definition str (n : Z) : string := NilZero.string_of_int (Z.to_int n).

Fixpoint zeros (n : nat) : string :=
  match n with O => "" | S n' => String "0" (zeros n') end.

(** The format spec [{n:0w}]: sign-aware zero padding to [w] characters. *)
Definition format0 (w : nat) (n : Z) : string :=
  let digits := str (Z.abs n) in
  let sign := if n <? 0 then "-" else "" in
  (sign ++ zeros (w - String.length sign - String.length digits) ++ digits)%string.

Definition nl : string := String (ascii_of_nat 10) "".

(** ** Pillow: colours, fonts, images and drawing calls *)

Inductive color : Type :=
| RGB (r g b : Z)
| RGBA (r g b a : Z).

(** A coordinate is a Python int or float. *)
Inductive num : Type :=
| Int (z : Z)
| Float (x : F64.t).

Inductive font : Type :=
| FreeTypeFont (name : string) (size : Z)
| DefaultFont.

Definition box : Type := Z * Z * Z * Z.

(** One call on an [ImageDraw.Draw] object, with the keyword defaults of
    Pillow filled in ([fill=None], [outline=None], [width=1]). *)
Inductive draw_op : Type :=
| Ellipse (xy : box) (fill outline : option color) (width : Z)
| Arc (xy : box) (start stop : Z) (fill : color) (width : Z)
| Line (pts : list (num * num)) (fill : color) (width : Z)
| Rectangle (xy : box) (fill outline : option color) (width : Z)
| RoundedRectangle (xy : box) (radius : Z) (fill outline : option color) (width : Z)
| Polygon (pts : list (Z * Z)) (fill outline : option color) (width : Z)
| Text (xy : Z * Z) (text : string) (fill : color) (fnt : font).

(** An image: what [Image.new] fixed, and the drawing calls made on it
    since, oldest first. *)
Record image : Type := mkImage {
  mode : string;
  size : Z * Z;
  background : color;
  ops : list draw_op }.

Definition Image_new (m : string) (sz : Z * Z) (c : color) : image :=
  {| mode := m; size := sz; background := c; ops := [] |}.

Definition draw (img : image) (op : draw_op) : image :=
  {| mode := mode img; size := size img; background := background img;
     ops := ops img ++ [op] |}.

(** ** The process: output streams and the directory tree

    [files] lists the images written by [save], oldest first. *)
Record proc : Type := mkProc {
  dirs : list string;
  files : list (string * image);
  stdout : list string;
  stderr : list string }.

Definition boot : proc := {| dirs := []; files := []; stdout := []; stderr := [] |}.

(** What the machine answers to the scripts.  [argv], [environ] and [stdin]
    are there to be ignored, [cwd] is the working directory, and the three
    outcome functions say whether a font file loads, a directory can be made
    and a PNG can be written ([None] is success, [Some e] the exception
    raised).  [stdout_rejects] is the encoding of the standard output:
    [Some msg] for a text it cannot encode, [msg] being what the codec
    says; it is consulted for texts that are not pure ASCII only. *)
Record world : Type := mkWorld {
  argv : list string;
  environ : list (string * string);
  stdin : list string;
  cwd : string;
  truetype_outcome : string -> Z -> option exn;
  mkdir_outcome : string -> option exn;
  save_outcome : string -> option exn;
  stdout_rejects : string -> option string }.

(** Statements: they change the process and return or raise. *)
Definition M (A : Type) : Type := proc -> result A * proc.

Definition ret {A} (a : A) : M A := fun p => (Ok a, p).

Definition bind {A B} (c : M A) (k : A -> M B) : M B :=
  fun p => match c p with
           | (Ok a, p') => k a p'
           | (Raise e, p') => (Raise e, p')
           end.

Definition lift {A} (r : result A) : M A := fun p => (r, p).

Notation "x <- c ;; k" := (bind c (fun x => k))
  (at level 100, c at next level, right associativity).
Notation "c ;; k" := (bind c (fun _ => k))
  (at level 100, right associativity).

(** [try: c  except <classes>: h]. *)
Definition try_except {A} (c : M A) (classes : exn -> bool) (h : exn -> M A) : M A :=
  fun p => match c p with
           | (Raise e, p') => if classes e then h e p' else (Raise e, p')
           | r => r
           end.

(** [try: c  except <classes1>: h1  except <classes2>: h2]: the first
    clause that matches runs, and what it raises is not caught here. *)
Definition try_except2 {A} (c : M A) (classes1 : exn -> bool) (h1 : exn -> M A)
    (classes2 : exn -> bool) (h2 : exn -> M A) : M A :=
  fun p => match c p with
           | (Raise e, p') =>
               if classes1 e then h1 e p'
               else if classes2 e then h2 e p'
               else (Raise e, p')
           | r => r
           end.

Fixpoint forM_ {A} (l : list A) (body : A -> M unit) : M unit :=
  match l with
  | [] => ret tt
  | x :: l' => body x ;; forM_ l' body
  end.

(** A text all of whose bytes are below 128. *)
Fixpoint is_ascii (s : string) : bool :=
  match s with
  | EmptyString => true
  | String c s' => (nat_of_ascii c <? 128)%nat && is_ascii s'
  end.

(** [print(s)] on the standard output, whose error handler is [strict]:
    a text that the encoding of the stream cannot encode raises
    UnicodeEncodeError, a subclass of ValueError, and nothing is written.
    Every encoding Python gives a console encodes ASCII. *)
Definition print (w : world) (s : string) : M unit :=
  fun p => match (if is_ascii s then None else stdout_rejects w s) with
           | Some msg => (Raise (OtherException "UnicodeEncodeError" msg), p)
           | None => (Ok tt, {| dirs := dirs p; files := files p;
                                stdout := stdout p ++ [s]; stderr := stderr p |})
           end.

(** [print(s, file=sys.stderr)]: the error handler of the standard error
    is [backslashreplace], so that every text can be written. *)
Definition print_stderr (s : string) : M unit :=
  fun p => (Ok tt, {| dirs := dirs p; files := files p;
                      stdout := stdout p; stderr := stderr p ++ [s] |}).

(** [os.makedirs(path, exist_ok=True)] and [Path.mkdir(parents=True, exist_ok=True)]. *)
Definition makedirs (w : world) (path : string) : M unit :=
  fun p => match mkdir_outcome w path with
           | Some e => (Raise e, p)
           | None => (Ok tt, {| dirs := dirs p ++ [path]; files := files p;
                                stdout := stdout p; stderr := stderr p |})
           end.

(** [img.save(path)]. *)
Definition save (w : world) (path : string) (img : image) : M unit :=
  fun p => match save_outcome w path with
           | Some e => (Raise e, p)
           | None => (Ok tt, {| dirs := dirs p; files := files p ++ [(path, img)];
                                stdout := stdout p; stderr := stderr p |})
           end.

(** [ImageFont.truetype(name, size)] and [ImageFont.load_default()]. *)
Definition truetype (w : world) (name : string) (sz : Z) : M font :=
  fun p => match truetype_outcome w name sz with
           | Some e => (Raise e, p)
           | None => (Ok (FreeTypeFont name sz), p)
           end.

Definition load_default : M font := ret DefaultFont.

(** What the scripts take from Pillow and [math] as given: the bounding box
    of a text in a font ([ImageDraw.textbbox((0, 0), text, font=f)], integer
    pixels) and the three [math] functions used for the dial markers. *)
Record library : Type := mkLibrary {
  textbbox : font -> string -> box;
  math_radians : F64.t -> F64.t;
  math_cos : F64.t -> F64.t;
  math_sin : F64.t -> F64.t }.

(** [bbox[2] - bbox[0]]. *)
Definition bbox_width (b : box) : Z :=
  let '(x0, _, x1, _) := b in x1 - x0.

(** ** real2.py *)
Module Real2.

Definition WIDTH : Z := 200.
Definition HEIGHT : Z := 200.
Definition BASE_DIR : string := "dgus_assets".
Definition SPEED_MAX : Z := 80.

Definition folders : list string :=
  ["speed"; "rpm"; "temp_motor"; "temp_controller"; "temp_battery";
   "soc"; "battery_vi"; "motor_vi"; "charging"; "indicators"; "warnings"].

Definition BG : color := RGB 0 0 0.
Definition BLACK : color := RGB 0 0 0.
Definition WHITE : color := RGB 255 255 255.
Definition GREEN : color := RGB 0 220 120.
Definition YELLOW : color := RGB 255 200 0.
Definition ORANGE : color := RGB 255 140 0.
Definition RED : color := RGB 220 50 50.
Definition GRAY : color := RGB 120 120 120.
Definition BLUE : color := RGB 0 150 255.
Definition CYAN : color := RGB 0 200 200.

Record fonts : Type := mkFonts {
  font_big : font;
  font_med : font;
  font_small : font }.

(** Lines 41-46: the three [truetype] calls under a bare [except:]. *)
Definition load_fonts (w : world) : M fonts :=
  try_except
    (big <- truetype w "DejaVuSans-Bold.ttf" 48 ;;
     med <- truetype w "DejaVuSans-Bold.ttf" 36 ;;
     small <- truetype w "DejaVuSans-Bold.ttf" 24 ;;
     ret {| font_big := big; font_med := med; font_small := small |})
    (fun _ => true)
    (fun _ => d <- load_default ;;
              ret {| font_big := d; font_med := d; font_small := d |}).

(** Lines 49-57.  The default of [max_temp] is 80. *)
Definition get_temp_color (temp max_temp : Z) : result color :=
  let* ratio := truediv temp max_temp in
  if F64.ltb ratio (F64.literal 5 10) then Ok GREEN
  else if F64.ltb ratio (F64.literal 75 100) then Ok YELLOW
  else Ok RED.

Definition draw_arc_gauge (img : image) (bounds : box) (start_angle end_angle : Z)
    (c : color) (width : Z) : image :=
  draw img (Arc bounds start_angle end_angle c width).

Section Frames.
Variable L : library.
Variable F : fonts.

(** The body of both marker loops, from [rad = ...] to [d.line(...)]. *)
Definition marker_line (img : image) (marker_angle : F64.t) : image :=
  let rad := math_radians L marker_angle in
  let x1 := F64.add (F64.of_int 100) (F64.mul (F64.of_int 75) (math_cos L rad)) in
  let y1 := F64.add (F64.of_int 100) (F64.mul (F64.of_int 75) (math_sin L rad)) in
  let x2 := F64.add (F64.of_int 100) (F64.mul (F64.of_int 85) (math_cos L rad)) in
  let y2 := F64.add (F64.of_int 100) (F64.mul (F64.of_int 85) (math_sin L rad)) in
  draw img (Line [(Float x1, Float y1); (Float x2, Float y2)] WHITE 2).

(** Line 81: [int(270 * v / SPEED_MAX)]. *)
Definition speed_angle (v : Z) : result Z :=
  let* q := truediv (270 * v) SPEED_MAX in Ok (F64.to_int q).

(** Lines 66-103: one speed frame, up to the [save]. *)
Definition speed_frame (v : Z) : result image :=
  let img := Image_new "RGB" (WIDTH, HEIGHT) BG in
  let img := draw img (Ellipse (10, 10, 190, 190) None (Some GRAY) 3) in
  let c := if v <? 40 then GREEN else if v <? 60 then YELLOW else RED in
  let* angle := speed_angle v in
  let img := draw_arc_gauge img (20, 20, 180, 180) 135 (135 + angle) c 12 in
  let* img := foldR (fun img marker =>
                       let* q := truediv (270 * marker) SPEED_MAX in
                       Ok (marker_line img (F64.add (F64.of_int 135) q)))
                    [0; 20; 40; 60; SPEED_MAX] img in
  let text := str v in
  let text_w := bbox_width (textbbox L (font_big F) text) in
  let img := draw img (Text (100 - text_w / 2, 65) text WHITE (font_big F)) in
  let unit_w := bbox_width (textbbox L (font_small F) "km/h") in
  let img := draw img (Text (100 - unit_w / 2, 125) "km/h" GRAY (font_small F)) in
  Ok img.

(** Lines 110-146: one RPM frame. *)
Definition rpm_frame (i : Z) : result image :=
  let img := Image_new "RGB" (WIDTH, HEIGHT) BG in
  let rpm_val := i * 500 in
  let img := draw img (Ellipse (10, 10, 190, 190) None (Some GRAY) 3) in
  let c := if rpm_val <? 4000 then GREEN else if rpm_val <? 6000 then YELLOW else RED in
  let* q := truediv (270 * i) 16 in
  let angle := F64.to_int q in
  let img := draw_arc_gauge img (20, 20, 180, 180) 135 (135 + angle) c 12 in
  let* img := foldR (fun img marker =>
                       let* q := truediv (270 * marker) 16 in
                       Ok (marker_line img (F64.add (F64.of_int 135) q)))
                    (range 9) img in
  let text := str rpm_val in
  let text_w := bbox_width (textbbox L (font_big F) text) in
  let img := draw img (Text (100 - text_w / 2, 65) text WHITE (font_big F)) in
  let img := draw img (Text (75, 125) "RPM" GRAY (font_small F)) in
  Ok img.

(** Line 162: [int((t/100) * 175)]. *)
Definition temp_fill_h (t : Z) : result Z :=
  let* q := truediv t 100 in Ok (F64.to_int (F64.mul q (F64.of_int 175))).

(** Lines 154-178: one temperature frame. *)
Definition temp_frame (t : Z) : result image :=
  let img := Image_new "RGB" (80, 220) BG in
  let img := draw img (Rectangle (15, 15, 65, 205) None (Some WHITE) 3) in
  let base_y := 201 in
  let* fill_h := temp_fill_h t in
  let* c := get_temp_color t 100 in
  let top_y := base_y - fill_h in
  let img := if 0 <? fill_h
             then draw img (Rectangle (19, top_y, 61, base_y) (Some c) None 1)
             else img in
  let img := fold_left
               (fun img tick =>
                  let y := base_y - F64.to_int (F64.mul tick (F64.of_int 175)) in
                  let img := draw img (Line [(Int 15, Int y); (Int 22, Int y)] GRAY 2) in
                  draw img (Line [(Int 58, Int y); (Int 65, Int y)] GRAY 2))
               [F64.literal 25 100; F64.literal 5 10; F64.literal 75 100] img in
  let temp_text := str t in
  let text_w := bbox_width (textbbox L (font_small F) temp_text) in
  let img := draw img (Text (40 - text_w / 2, 208) temp_text WHITE (font_small F)) in
  Ok img.

(** Line 205: [int((s/100) * 200)]. *)
Definition soc_fill_width (s : Z) : result Z :=
  let* q := truediv s 100 in Ok (F64.to_int (F64.mul q (F64.of_int 200))).

(** The rectangle drawn at line 207. *)
Definition soc_fill_rect (fill_width : Z) : box := (15, 25, 15 + fill_width, 55).
(** The battery outline of line 193. *)
Definition soc_outline : box := (10, 20, 220, 60).

(** Lines 189-214: one state-of-charge frame. *)
Definition soc_frame (s : Z) : result image :=
  let img := Image_new "RGB" (240, 80) BG in
  let img := draw img (Rectangle soc_outline None (Some WHITE) 4) in
  let img := draw img (Rectangle (220, 30, 230, 50) (Some WHITE) None 1) in
  let fill_color := if 60 <? s then GREEN else if 20 <? s then YELLOW else RED in
  let* fill_width := soc_fill_width s in
  let img := if 0 <? fill_width
             then draw img (Rectangle (soc_fill_rect fill_width) (Some fill_color) None 1)
             else img in
  let text := (str s ++ "%")%string in
  let text_w := bbox_width (textbbox L (font_med F) text) in
  let text_color := if 30 <? s then BLACK else WHITE in
  let img := draw img (Text (120 - text_w / 2, 28) text text_color (font_med F)) in
  Ok img.

(** Lines 222-235: one voltage/current frame. *)
Definition vi_frame (max_val : Z) (unit_ : string) (v : Z) : result image :=
  let img := Image_new "RGB" (240, 70) BG in
  let img := draw img (Rectangle (10, 30, 230, 60) None (Some WHITE) 3) in
  let* q := truediv v max_val in
  let fill_width := F64.to_int (F64.mul q (F64.of_int 210)) in
  let img := if 0 <? fill_width
             then draw img (Rectangle (13, 33, 13 + fill_width, 57) (Some BLUE) None 1)
             else img in
  let text := (str v ++ unit_)%string in
  let img := draw img (Text (15, 5) text WHITE (font_small F)) in
  Ok img.

End Frames.

Definition bolt : list (Z * Z) :=
  [(50, 10); (30, 50); (45, 50); (35, 90); (70, 45); (55, 45)].

(** Lines 244-260. *)
Definition charging_icon_animated (charging : bool) : list image :=
  map (fun frame =>
         let img := Image_new "RGB" (100, 100) BG in
         if charging then
           let img := draw img (Polygon bolt
                                  (Some (if frame mod 2 =? 0 then GREEN else RGB 0 180 100))
                                  None 1) in
           draw img (Ellipse (10 + frame * 2, 10 + frame * 2, 90 - frame * 2, 90 - frame * 2)
                       None (Some GREEN) 2)
         else
           draw img (Polygon bolt (Some RED) None 1))
      (range 4).

(** Line 277: [int(255 * (0.3 + 0.7 * (frame / (frames-1))))]. *)
Definition brightness (frame frames : Z) : result Z :=
  let* q := truediv frame (frames - 1) in
  Ok (F64.to_int
        (F64.mul (F64.of_int 255)
           (F64.add (F64.literal 3 10) (F64.mul (F64.literal 7 10) q)))).

Definition left_arrow : list (Z * Z) :=
  [(100, 15); (30, 50); (100, 85); (100, 65); (130, 65); (130, 35); (100, 35)].
Definition right_arrow : list (Z * Z) :=
  [(40, 15); (110, 50); (40, 85); (40, 65); (10, 65); (10, 35); (40, 35)].

(** Lines 274-286: the body of the loop of [indicator_animated]. *)
Definition indicator_frame (direction : string) (frames frame : Z) : result image :=
  let img := Image_new "RGB" (140, 100) BG in
  let* b := brightness frame frames in
  let col := RGB 0 b (F64.to_int (F64.mul (F64.of_int b) (F64.literal 6 10))) in
  let pts := if String.eqb direction "left" then left_arrow else right_arrow in
  Ok (draw img (Polygon pts (Some col) (Some WHITE) 2)).

(** Lines 271-287.  The default of [frames] is 3. *)
Definition indicator_animated (direction : string) (frames : Z) : result (list image) :=
  mapR (indicator_frame direction frames) (range frames).

(** The fill colour of the arrow of an indicator frame, as an RGB triple. *)
Definition arrow_fill (img : image) : option color :=
  match ops img with
  | [Polygon _ (Some c) _ _] => Some c
  | _ => None
  end.

(** Lines 298-308: the two grey arrows. *)
Definition indicator_off (pts : list (Z * Z)) : image :=
  draw (Image_new "RGB" (140, 100) BG) (Polygon pts (Some GRAY) (Some WHITE) 2).

(** Lines 312-318, in insertion order. *)
Definition warnings : list (string * (color * string)) :=
  [("battery_low", (RED, "!")); ("overheat", (RED, "H"));
   ("motor_fault", (ORANGE, "M")); ("brake", (RED, "B")); ("abs", (YELLOW, "ABS"))].

(** [(color[0], color[1], color[2], 120)] and [BG + (255,)]. *)
Definition with_alpha (c : color) (a : Z) : color :=
  match c with RGB r g b => RGBA r g b a | RGBA r g b _ => RGBA r g b a end.

(** Lines 321-335: one warning icon. *)
Definition warning_icon (L : library) (F : fonts) (name : string) (c : color)
    (symbol : string) : image :=
  let img := Image_new "RGBA" (100, 100) (with_alpha BG 255) in
  let img :=
    if existsb (String.eqb name) ["battery_low"; "overheat"] then
      let pts := [(50, 10); (90, 90); (10, 90)] in
      let fill_col := with_alpha c 120 in
      let img := draw img (Polygon pts (Some fill_col) None 1) in
      draw img (Line (map (fun '(x, y) => (Int x, Int y)) (pts ++ [(50, 10)])) c 4)
    else
      let fill_col := with_alpha c 120 in
      draw img (Ellipse (10, 10, 90, 90) (Some fill_col) (Some c) 4) in
  let text_w := bbox_width (textbbox L (font_big F) symbol) in
  draw img (Text (50 - text_w / 2, 35) symbol c (font_big F)).

(** [frames[0]]. *)
Definition first_frame (frames : list image) : result image :=
  match frames with
  | img :: _ => Ok img
  | [] => Raise (OtherException "IndexError" "list index out of range")
  end.

Section Script.
Variable L : library.
Variable w : world.

Definition path (folder name : string) : string :=
  (BASE_DIR ++ "/" ++ folder ++ "/" ++ name ++ ".png")%string.

(** A loop [for x in xs: <build the frame of x>; img.save(<path of x>)]. *)
Definition save_frames {A} (xs : list A) (frame : A -> result image)
    (target : A -> string) : M unit :=
  forM_ xs (fun x => img <- lift (frame x) ;; save w (target x) img).

(** Lines 152-180. *)
Definition temp_bar_enhanced (F : fonts) (folder label : string) : M unit :=
  save_frames (range 101) (temp_frame L F) (fun t => path folder (format0 3 t)).

(** Lines 220-237. *)
Definition vi_bar_enhanced (F : fonts) (folder label : string) (max_val : Z)
    (unit_ : string) : M unit :=
  save_frames (range (max_val + 1)) (vi_frame F max_val unit_)
    (fun v => path folder (format0 3 v)).

(** Lines 289-295: build the animated arrows, then save them by index. *)
Definition save_indicator (direction : string) : M unit :=
  frames <- lift (indicator_animated direction 3) ;;
  save_frames (enumerate frames) (fun '(_, frame) => Ok frame)
    (fun '(i, _) => path "indicators" (direction ++ "_" ++ str i)).

(** The whole script, top to bottom.  The [reconfigure] calls of lines
    22-26 sit under [except Exception: pass]; they ask for UTF-8 streams,
    which the lines printed below, all ASCII, do not need. *)
Definition script : M unit :=
  forM_ folders (fun f => makedirs w (BASE_DIR ++ "/" ++ f)) ;;
  F <- load_fonts w ;;
  print w "Generating speed gauge..." ;;
  save_frames (range (SPEED_MAX + 1)) (speed_frame L F)
    (fun v => path "speed" (format0 3 v)) ;;
  print w "Generating RPM gauge..." ;;
  save_frames (range 17) (rpm_frame L F) (fun i => path "rpm" (format0 2 i)) ;;
  print w "Generating temperature bars..." ;;
  temp_bar_enhanced F "temp_motor" "Motor" ;;
  temp_bar_enhanced F "temp_controller" "Ctrl" ;;
  temp_bar_enhanced F "temp_battery" "Batt" ;;
  print w "Generating SOC bar..." ;;
  save_frames (range 101) (soc_frame L F) (fun s => path "soc" (format0 3 s)) ;;
  print w "Generating V/I bars..." ;;
  vi_bar_enhanced F "battery_vi" "Battery" 100 "V" ;;
  vi_bar_enhanced F "motor_vi" "Motor" 150 "A" ;;
  print w "Generating charging icons..." ;;
  save_frames (enumerate (charging_icon_animated true)) (fun '(_, frame) => Ok frame)
    (fun '(i, _) => path "charging" ("charging_" ++ str i)) ;;
  discharging <- lift (first_frame (charging_icon_animated false)) ;;
  save w (path "charging" "discharging") discharging ;;
  print w "Generating turn indicators..." ;;
  save_indicator "left" ;;
  save_indicator "right" ;;
  save w (path "indicators" "left_off") (indicator_off left_arrow) ;;
  save w (path "indicators" "right_off") (indicator_off right_arrow) ;;
  print w "Generating warning icons..." ;;
  save_frames warnings (fun '(name, (c, symbol)) => Ok (warning_icon L F name c symbol))
    (fun '(name, _) => path "warnings" name) ;;
  print w (nl ++ "ALL DGUS ASSETS GENERATED SUCCESSFULLY") ;;
  print w ("Output directory: " ++ BASE_DIR ++ "/") ;;
  print w ("Total folders: " ++ str (Z.of_nat (List.length folders))) ;;
  print w (nl ++ "Generated assets:") ;;
  print w ("  - Speed: " ++ str (SPEED_MAX + 1) ++ " frames (0-" ++ str SPEED_MAX ++ " km/h)") ;;
  print w "  - RPM: 17 frames (0-8000 RPM)" ;;
  print w "  - Temperatures: 101 frames each (0-100 C)" ;;
  print w "  - SOC: 101 frames (0-100%)" ;;
  print w "  - Battery V/I: 101 frames" ;;
  print w "  - Motor V/I: 151 frames" ;;
  print w "  - Charging: 4 animated frames + 1 static" ;;
  print w "  - Indicators: 3 animated frames each + off states" ;;
  print w ("  - Warnings: " ++ str (Z.of_nat (List.length warnings)) ++ " icons").

End Script.

End Real2.

(** A quiet machine, for running the scripts: the font file is missing
    (as on a stock install) and every directory and file can be written. *)
Definition quiet_world : world :=
  {| argv := []; environ := []; stdin := []; cwd := "/home/thor";
     truetype_outcome := fun _ _ => Some (OSError "cannot open resource");
     mkdir_outcome := fun _ => None;
     save_outcome := fun _ => None;
     stdout_rejects := fun _ => None |}.

(** A stand-in library for running the scripts: six pixels per character,
    and markers left at the angle given. *)
Definition sample_library : library :=
  {| textbbox := fun _ s => (0, 0, 6 * Z.of_nat (String.length s), 11);
     math_radians := fun x => x;
     math_cos := fun x => x;
     math_sin := fun x => x |}.

(** ** try.py

    Lines 17-22 ask for a UTF-8 standard output on Windows only: elsewhere
    the encoding of the stream is the one the machine gives, [stdout_rejects]. *)
Module TryPy.

(** [class Config]. *)
Definition CANVAS_WIDTH : Z := 1024.
Definition CANVAS_HEIGHT : Z := 600.
Definition OUTPUT_DIR : string := "dgus_assets".
Definition FONT_NAME : string := "DejaVuSans-Bold.ttf".
Definition FONT_SIZE_BIG : Z := 36.
Definition FONT_SIZE_MED : Z := 26.
Definition FOLDERS : list string :=
  ["background"; "labels"; "indicators"; "warning"; "bars"; "charging"].

(** [class Color(NamedTuple)], with [a] defaulting to 255. *)
Record Color : Type := mkColor { r : Z; g : Z; b : Z; a : Z }.
Definition rgb (r g b : Z) : Color := mkColor r g b 255.
Definition as_rgb (c : Color) : color := RGB (r c) (g c) (b c).
Definition as_rgba (c : Color) : color := RGBA (r c) (g c) (b c) (a c).

(** [class Palette]. *)
Definition BG : Color := rgb 235 237 240.
Definition DARK : Color := rgb 40 60 80.
Definition WHITE : Color := rgb 255 255 255.
Definition GREEN : Color := rgb 0 220 120.
Definition YELLOW : Color := rgb 255 200 0.
Definition RED : Color := rgb 220 50 50.
Definition BLUE : Color := rgb 0 150 255.
Definition GRAY : Color := rgb 150 150 150.
Definition DARK_BG : Color := rgb 60 90 120.
Definition TRANSPARENT : Color := mkColor 0 0 0 0.

Inductive Direction : Type := LEFT | RIGHT.
Inductive State : Type := ON | OFF.

Record LabelSpec : Type := mkLabelSpec { text : string; filename : string }.
Record ArrowSpec : Type :=
  mkArrowSpec { name : string; direction : Direction; state : State }.

(** The two font attributes of an [AssetGenerator]. *)
Record AssetGenerator : Type := mkGenerator { font_big : font; font_med : font }.

(** [OUTPUT_DIR / folder / file]. *)
Definition out (folder file : string) : string :=
  (OUTPUT_DIR ++ "/" ++ folder ++ "/" ++ file)%string.

Section Methods.
Variable w : world.

Definition _create_directories : M unit :=
  forM_ FOLDERS (fun folder => makedirs w (OUTPUT_DIR ++ "/" ++ folder)) ;;
  print w ("[OK] Created " ++ str (Z.of_nat (List.length FOLDERS)) ++ " output directories").

(** Lines 147-161: only [OSError] (of which [IOError] is an alias) is caught. *)
Definition _load_fonts : M AssetGenerator :=
  try_except
    (big <- truetype w FONT_NAME FONT_SIZE_BIG ;;
     med <- truetype w FONT_NAME FONT_SIZE_MED ;;
     print w ("[OK] Loaded font: " ++ FONT_NAME) ;;
     ret {| font_big := big; font_med := med |})
    is_OSError
    (fun _ =>
       print w ("[WARNING] Font '" ++ FONT_NAME ++ "' not found, using default") ;;
       d <- load_default ;;
       ret {| font_big := d; font_med := d |}).

(** [__init__], through [_setup]. *)
Definition new_AssetGenerator : M AssetGenerator :=
  _create_directories ;;
  _load_fonts.

Definition background_image : image :=
  let img := Image_new "RGB" (CANVAS_WIDTH, CANVAS_HEIGHT) (as_rgb BG) in
  let panels :=
    [((40, 100, 300, 380), 20, DARK, 3);
     ((360, 80, 660, 380), 150, BLUE, 5);
     ((740, 100, 980, 260), 20, DARK, 3)] in
  let img := fold_left
               (fun img '(coords, radius, c, width) =>
                  draw img (RoundedRectangle coords radius None (Some (as_rgb c)) width))
               panels img in
  let bottom_panels :=
    [((60, 430, 440, 560), 20, DARK_BG);
     ((580, 430, 960, 560), 20, DARK_BG)] in
  fold_left
    (fun img '(coords, radius, fill_color) =>
       draw img (RoundedRectangle coords radius (Some (as_rgb fill_color)) None 1))
    bottom_panels img.

Definition create_background : M unit :=
  save w (out "background" "dashboard_bg.png") background_image ;;
  print w "✓ Background generated".

Definition _create_label (self : AssetGenerator) (spec : LabelSpec) : M unit :=
  let img := Image_new "RGBA" (260, 50) (as_rgba TRANSPARENT) in
  let img := draw img (Text (10, 5) (text spec) (as_rgb DARK) (font_med self)) in
  save w (out "labels" (filename spec)) img.

Definition create_labels (self : AssetGenerator) : M unit :=
  let labels :=
    [mkLabelSpec "SPEED (km/h)" "speed.png";
     mkLabelSpec "RPM" "rpm.png";
     mkLabelSpec "TEMP - MOTOR" "temp_motor.png";
     mkLabelSpec "TEMP - CONTROLLER" "temp_controller.png";
     mkLabelSpec "TEMP - BATTERY" "temp_battery.png";
     mkLabelSpec "BATTERY (V / I)" "battery.png";
     mkLabelSpec "MOTOR (V / I)" "motor.png"] in
  forM_ labels (_create_label self) ;;
  print w ("✓ Generated " ++ str (Z.of_nat (List.length labels)) ++ " labels").

Definition _create_arrow (d : Direction) (s : State) : image :=
  let img := Image_new "RGBA" (120, 80) (as_rgba TRANSPARENT) in
  let c := match s with ON => GREEN | OFF => GRAY end in
  let points :=
    match d with
    | LEFT => [(80, 10); (20, 40); (80, 70); (80, 55); (110, 55); (110, 25); (80, 25)]
    | RIGHT => [(40, 10); (100, 40); (40, 70); (40, 55); (10, 55); (10, 25); (40, 25)]
    end in
  draw img (Polygon points (Some (as_rgb c)) None 1).

Definition create_indicators : M unit :=
  let arrows :=
    [mkArrowSpec "left_off" LEFT OFF; mkArrowSpec "left_on" LEFT ON;
     mkArrowSpec "right_off" RIGHT OFF; mkArrowSpec "right_on" RIGHT ON] in
  forM_ arrows (fun spec =>
    let img := _create_arrow (direction spec) (state spec) in
    save w (out "indicators" (name spec ++ ".png")) img) ;;
  print w ("✓ Generated " ++ str (Z.of_nat (List.length arrows)) ++ " arrow indicators").

Definition _create_warning (s : State) : image :=
  let img := Image_new "RGBA" (100, 90) (as_rgba TRANSPARENT) in
  let c := match s with ON => RED | OFF => GRAY end in
  draw img (Polygon [(50, 5); (5, 85); (95, 85)] (Some (as_rgb c)) None 1).

Definition create_warnings : M unit :=
  forM_ [OFF; ON] (fun s =>
    let img := _create_warning s in
    let filename := ("warning_" ++ match s with ON => "on" | OFF => "off" end ++ ".png")%string in
    save w (out "warning" filename) img) ;;
  print w "✓ Generated warning icons".

Definition _create_temp_bars : M unit :=
  forM_ [false; true] (fun filled : bool =>
    let img := Image_new "RGBA" (50, 200) (as_rgba TRANSPARENT) in
    let img := draw img (Rectangle (0, 0, 50, 200) None (Some (as_rgb DARK)) 3) in
    let img := if filled
               then draw img (Rectangle (3, 90, 47, 197) (Some (as_rgb YELLOW)) None 1)
               else img in
    let filename := ("temp_bar_" ++ (if filled then "fill" else "empty") ++ ".png")%string in
    save w (out "bars" filename) img).

Definition _create_soc_bars : M unit :=
  forM_ [false; true] (fun filled : bool =>
    let img := Image_new "RGBA" (200, 40) (as_rgba TRANSPARENT) in
    let img := draw img (Rectangle (0, 0, 200, 40) None (Some (as_rgb DARK)) 3) in
    let img := if filled
               then draw img (Rectangle (3, 3, 160, 37) (Some (as_rgb GREEN)) None 1)
               else img in
    let filename := ("soc_bar_" ++ (if filled then "fill" else "empty") ++ ".png")%string in
    save w (out "bars" filename) img).

Definition create_bars : M unit :=
  _create_temp_bars ;;
  _create_soc_bars ;;
  print w "✓ Generated bar indicators".

Definition _create_charging_icon (charging : bool) : image :=
  let img := Image_new "RGBA" (80, 80) (as_rgba TRANSPARENT) in
  let c := if charging then GREEN else RED in
  draw img (Polygon [(40, 5); (20, 45); (35, 45); (25, 75); (60, 30); (45, 30)]
              (Some (as_rgb c)) None 1).

Definition create_charging_icons : M unit :=
  forM_ [true; false] (fun is_charging : bool =>
    let img := _create_charging_icon is_charging in
    let filename := ((if is_charging then "charging" else "discharging") ++ ".png")%string in
    save w (out "charging" filename) img) ;;
  print w "✓ Generated charging icons".

(** [Path(rel).absolute()]: the working directory joined with [rel]; a
    working directory that ends in a slash (the root) takes no second one. *)
Fixpoint ends_with_slash (s : string) : bool :=
  match s with
  | EmptyString => false
  | String c EmptyString => Ascii.eqb c "/"
  | String _ s' => ends_with_slash s'
  end.

Definition absolute (rel : string) : string :=
  if ends_with_slash (cwd w) then cwd w ++ rel else cwd w ++ "/" ++ rel.

Definition rule : string :=
  "======================================================================".

Definition _print_summary : M unit :=
  print w (nl ++ rule) ;;
  print w "✅ ALL DGUS DASHBOARD ASSETS GENERATED SUCCESSFULLY!" ;;
  print w rule ;;
  print w ("📁 Output: " ++ absolute OUTPUT_DIR) ;;
  print w ("📦 Folders: " ++ str (Z.of_nat (List.length FOLDERS))) ;;
  print w "🎨 Assets generated:" ;;
  print w "   • Background (1)" ;;
  print w "   • Labels (7)" ;;
  print w "   • Indicators (4)" ;;
  print w "   • Warning icons (2)" ;;
  print w "   • Temperature bars (2)" ;;
  print w "   • SOC bars (2)" ;;
  print w "   • Charging icons (2)" ;;
  print w rule.

(** The body of the [try] of [generate_all]: the generation pass. *)
Definition generation_pass (self : AssetGenerator) : M unit :=
  create_background ;;
  create_labels self ;;
  create_indicators ;;
  create_warnings ;;
  create_bars ;;
  create_charging_icons ;;
  _print_summary.

Definition generation_report (e : exn) : string :=
  (nl ++ "❌ Error during generation: " ++ exn_str e)%string.

(** Lines 366-381. *)
Definition generate_all (self : AssetGenerator) : M bool :=
  try_except
    (generation_pass self ;; ret true)
    is_Exception
    (fun e => print_stderr (generation_report e) ;; ret false).

(** Lines 405-416; the value returned is handed to [sys.exit]. *)
Definition main : M Z :=
  try_except2
    (generator <- new_AssetGenerator ;;
     success <- generate_all generator ;;
     ret (if success : bool then 0 else 1))
    is_KeyboardInterrupt
    (fun _ => print w (nl ++ "⚠ Generation cancelled by user") ;; ret 130)
    is_Exception
    (fun e => print_stderr (nl ++ "❌ Fatal error: " ++ exn_str e) ;; ret 1).

End Methods.

End TryPy.

(** ** Reading the outcome of a run *)

(** [s.startswith(pre)]. *)
Fixpoint starts_with (pre s : string) : bool :=
  match pre with
  | EmptyString => true
  | String a pre' =>
      match s with
      | EmptyString => false
      | String b s' => Ascii.eqb a b && starts_with pre' s'
      end
  end.

(** The paths written so far, oldest first. *)
Definition written (p : proc) : list string := map fst (files p).

(** The written paths that lie in a folder. *)
Definition listing (p : proc) (folder : string) : list string :=
  filter (starts_with (folder ++ "/")) (written p).

(** Rectangle [(x0, y0, x1, y1)] lies inside rectangle [(X0, Y0, X1, Y1)]. *)
Definition inside (inner outer : box) : Prop :=
  let '(x0, y0, x1, y1) := inner in
  let '(X0, Y0, X1, Y1) := outer in
  X0 <= x0 /\ Y0 <= y0 /\ x0 <= x1 /\ y0 <= y1 /\ x1 <= X1 /\ y1 <= Y1.

(** The canvas size declared for the asset class a path belongs to. *)
Definition declared_size (path : string) : option (Z * Z) :=
  if starts_with "dgus_assets/speed/" path then Some (Real2.WIDTH, Real2.HEIGHT)
  else if starts_with "dgus_assets/rpm/" path then Some (Real2.WIDTH, Real2.HEIGHT)
  else if starts_with "dgus_assets/temp_motor/" path then Some (80, 220)
  else if starts_with "dgus_assets/temp_controller/" path then Some (80, 220)
  else if starts_with "dgus_assets/temp_battery/" path then Some (80, 220)
  else if starts_with "dgus_assets/soc/" path then Some (240, 80)
  else if String.eqb path "dgus_assets/background/dashboard_bg.png"
       then Some (TryPy.CANVAS_WIDTH, TryPy.CANVAS_HEIGHT)
  else None.

Definition well_sized (f : string * image) : Prop :=
  match declared_size (fst f) with
  | Some sz => size (snd f) = sz
  | None => True
  end.

(** Equality test on colours. *)
Definition color_eqb (c1 c2 : color) : bool :=
  match c1, c2 with
  | RGB r1 g1 b1, RGB r2 g2 b2 => (r1 =? r2) && (g1 =? g2) && (b1 =? b2)
  | RGBA r1 g1 b1 a1, RGBA r2 g2 b2 a2 =>
      (r1 =? r2) && (g1 =? g2) && (b1 =? b2) && (a1 =? a2)
  | _, _ => false
  end.

(** The colour band of a temperature out of 100. *)
Definition band (t : Z) : color :=
  if t <? 50 then Real2.GREEN else if t <? 75 then Real2.YELLOW else Real2.RED.

(** The state-of-charge fill width as the script computes it: twice the
    percentage, one pixel short at 29, 57 and 58. *)
Definition soc_table (s : Z) : Z :=
  if (s =? 29) || (s =? 57) || (s =? 58) then 2 * s - 1 else 2 * s.

(** Two machines on which the font files load alike. *)
Definition same_fonts (w1 w2 : world) : Prop :=
  forall name sz, truetype_outcome w1 name sz = truetype_outcome w2 name sz.

(** A machine whose Pillow was built without FreeType: [truetype] raises
    ImportError, which is not an OSError. *)
Definition no_freetype_world : world :=
  {| argv := []; environ := []; stdin := []; cwd := "/home/thor";
     truetype_outcome := fun _ _ =>
       Some (OtherException "ImportError" "The _imagingft C module is not installed");
     mkdir_outcome := fun _ => None;
     save_outcome := fun _ => None;
     stdout_rejects := fun _ => None |}.

(** A machine on which the user presses Ctrl-C while the background is
    being written. *)
Definition interrupted_world : world :=
  {| argv := []; environ := []; stdin := []; cwd := "/home/thor";
     truetype_outcome := fun _ _ => Some (OSError "cannot open resource");
     mkdir_outcome := fun _ => None;
     save_outcome := fun path =>
       if String.eqb path "dgus_assets/background/dashboard_bg.png"
       then Some KeyboardInterrupt else None;
     stdout_rejects := fun _ => None |}.

(** A machine whose disk fills up when the charging icons are written. *)
Definition full_disk_world : world :=
  {| argv := []; environ := []; stdin := []; cwd := "/home/thor";
     truetype_outcome := fun _ _ => Some (OSError "cannot open resource");
     mkdir_outcome := fun _ => None;
     save_outcome := fun path =>
       if starts_with "dgus_assets/charging/" path
       then Some (OSError "[Errno 28] No space left on device") else None;
     stdout_rejects := fun _ => None |}.

(** The same machine as [quiet_world], started from elsewhere with
    arguments, environment and standard input that nobody reads. *)
Definition noisy_world : world :=
  {| argv := ["real2.py"; "--speed-max"; "300"];
     environ := [("DGUS_OUT", "/tmp/out"); ("FONT", "Arial.ttf")];
     stdin := ["120"; "quit"];
     cwd := "/srv/build";
     truetype_outcome := fun _ _ => Some (OSError "cannot open resource");
     mkdir_outcome := fun _ => None;
     save_outcome := fun _ => None;
     stdout_rejects := fun _ => None |}.

(** The process after a line went to standard error. *)
Definition with_stderr (p : proc) (line : string) : proc :=
  {| dirs := dirs p; files := files p; stdout := stdout p;
     stderr := stderr p ++ [line] |}.

(** The process after a line went to standard output. *)
Definition with_stdout (p : proc) (line : string) : proc :=
  {| dirs := dirs p; files := files p; stdout := stdout p ++ [line];
     stderr := stderr p |}.

(** The three handles of real2.py after the fallback. *)
Definition default_fonts : Real2.fonts :=
  Real2.mkFonts DefaultFont DefaultFont DefaultFont.

(** The frames of a folder of real2.py: [n] files named by the index,
    zero-padded to [width] digits. *)
Definition frame_names (folder : string) (width : nat) (n : Z) : list string :=
  map (fun v => "dgus_assets/" ++ folder ++ "/" ++ format0 width v ++ ".png")%string
      (range n).

(** The output files of real2.py, in the order they are written. *)
Definition real2_outputs : list string :=
  (frame_names "speed" 3 81 ++ frame_names "rpm" 2 17
   ++ frame_names "temp_motor" 3 101 ++ frame_names "temp_controller" 3 101
   ++ frame_names "temp_battery" 3 101
   ++ frame_names "soc" 3 101
   ++ frame_names "battery_vi" 3 101 ++ frame_names "motor_vi" 3 151
   ++ ["dgus_assets/charging/charging_0.png"; "dgus_assets/charging/charging_1.png";
       "dgus_assets/charging/charging_2.png"; "dgus_assets/charging/charging_3.png";
       "dgus_assets/charging/discharging.png"]
   ++ ["dgus_assets/indicators/left_0.png"; "dgus_assets/indicators/left_1.png";
       "dgus_assets/indicators/left_2.png"; "dgus_assets/indicators/right_0.png";
       "dgus_assets/indicators/right_1.png"; "dgus_assets/indicators/right_2.png";
       "dgus_assets/indicators/left_off.png"; "dgus_assets/indicators/right_off.png"]
   ++ ["dgus_assets/warnings/battery_low.png"; "dgus_assets/warnings/overheat.png";
       "dgus_assets/warnings/motor_fault.png"; "dgus_assets/warnings/brake.png";
       "dgus_assets/warnings/abs.png"])%list.

(** A statement that, when it completes, has written exactly the paths [l]. *)
Definition emits {A} (c : M A) (l : list string) : Prop :=
  forall p a p', c p = (Ok a, p') -> written p' = (written p ++ l)%list.

(** Every file written so far has the size declared for its class. *)
Definition sized (p : proc) : Prop := Forall well_sized (files p).

(** A statement that keeps [sized], however it ends. *)
Definition keeps_sized {A} (c : M A) : Prop :=
  forall p r p', sized p -> c p = (r, p') -> sized p'.

(** Two statements that, when both complete from processes holding the same
    files, return the same value and leave the same files. *)
Definition alike {A} (c1 c2 : M A) : Prop :=
  forall p1 p2 a1 a2 p1' p2',
    files p1 = files p2 ->
    c1 p1 = (Ok a1, p1') -> c2 p2 = (Ok a2, p2') ->
    a1 = a2 /\ files p1' = files p2'.

(** A machine on which every directory can be made and every file written. *)
Definition obliging (w : world) : Prop :=
  (forall d, mkdir_outcome w d = None) /\ (forall f, save_outcome w f = None).

(** The line of the [except KeyboardInterrupt] handler of [main]. *)
Definition cancelled_line : string := nl ++ "⚠ Generation cancelled by user".

(** A standard output that encodes every text, as UTF-8 does. *)
Definition unicode_stdout (w : world) : Prop :=
  forall s, stdout_rejects w s = None.

(** What the ASCII codec says of the lines of try.py. *)
Definition ascii_codec (s : string) : option string :=
  if starts_with "✓" s
  then Some "'ascii' codec can't encode character '\u2713' in position 0: ordinal not in range(128)"
  else if starts_with (nl ++ "⚠") s
  then Some "'ascii' codec can't encode character '\u26a0' in position 1: ordinal not in range(128)"
  else Some "'ascii' codec can't encode characters: ordinal not in range(128)".

(** A machine whose standard output is ASCII, as under
    [PYTHONIOENCODING=ascii]; the font file is missing. *)
Definition ascii_stdout_world : world :=
  {| argv := []; environ := [("PYTHONIOENCODING", "ascii")]; stdin := [];
     cwd := "/home/thor";
     truetype_outcome := fun _ _ => Some (OSError "cannot open resource");
     mkdir_outcome := fun _ => None;
     save_outcome := fun _ => None;
     stdout_rejects := ascii_codec |}.

(** The same machine, and Ctrl-C while the background is being written. *)
Definition interrupted_ascii_world : world :=
  {| argv := []; environ := [("PYTHONIOENCODING", "ascii")]; stdin := [];
     cwd := "/home/thor";
     truetype_outcome := fun _ _ => Some (OSError "cannot open resource");
     mkdir_outcome := fun _ => None;
     save_outcome := fun path =>
       if String.eqb path "dgus_assets/background/dashboard_bg.png"
       then Some KeyboardInterrupt else None;
     stdout_rejects := ascii_codec |}.

(** The drawing calls of an image that are arcs. *)
Definition is_arc (op : draw_op) : bool :=
  match op with Arc _ _ _ _ _ => true | _ => false end.

Definition arcs (img : image) : list draw_op := filter is_arc (ops img).

(** A statement that completes, without raising, from any process. *)
Definition completes {A} (c : M A) : Prop :=
  forall p, exists a p', c p = (Ok a, p').

(** No path occurs twice. *)
Fixpoint distinct (l : list string) : bool :=
  match l with
  | [] => true
  | x :: l' => negb (existsb (String.eqb x) l') && distinct l'
  end.

(** A drawing call that is a [line]. *)
Definition is_line (op : draw_op) : Prop :=
  match op with Line _ _ _ => True | _ => False end.

(** The output files of try.py, in the order they are written. *)
Definition try_outputs : list string :=
  ["dgus_assets/background/dashboard_bg.png";
   "dgus_assets/labels/speed.png"; "dgus_assets/labels/rpm.png";
   "dgus_assets/labels/temp_motor.png"; "dgus_assets/labels/temp_controller.png";
   "dgus_assets/labels/temp_battery.png"; "dgus_assets/labels/battery.png";
   "dgus_assets/labels/motor.png";
   "dgus_assets/indicators/left_off.png"; "dgus_assets/indicators/left_on.png";
   "dgus_assets/indicators/right_off.png"; "dgus_assets/indicators/right_on.png";
   "dgus_assets/warning/warning_off.png"; "dgus_assets/warning/warning_on.png";
   "dgus_assets/bars/temp_bar_empty.png"; "dgus_assets/bars/temp_bar_fill.png";
   "dgus_assets/bars/soc_bar_empty.png"; "dgus_assets/bars/soc_bar_fill.png";
   "dgus_assets/charging/charging.png"; "dgus_assets/charging/discharging.png"].


(** A statement that writes no file, however it ends. *)
Definition writes_nothing {A} (c : M A) : Prop :=
  forall p r p', c p = (r, p') -> files p' = files p.

(** A statement that writes the paths [l] in order and stops at the first
    failure: what it wrote is an initial part of [l], all of it when it
    completes. *)
Definition writes_upto {A} (c : M A) (l : list string) : Prop :=
  forall p r p', c p = (r, p') ->
    exists done rest, written p' = (written p ++ done)%list /\
                      l = (done ++ rest)%list /\
                      (forall a, r = Ok a -> rest = []).

(** A statement that, when it completes, has appended [l] to one of the
    logs of the process (the directories made, the lines printed). *)
Definition appends {X A} (log : proc -> list X) (c : M A) (l : list X) : Prop :=
  forall p a p', c p = (Ok a, p') -> log p' = (log p ++ l)%list.

(** The directories and the standard output of real2.py after a whole run. *)
Definition real2_dirs : list string :=
  map (fun f => "dgus_assets/" ++ f)%string Real2.folders.

Definition real2_stdout : list string :=
  ["Generating speed gauge..."; "Generating RPM gauge...";
   "Generating temperature bars..."; "Generating SOC bar...";
   "Generating V/I bars..."; "Generating charging icons...";
   "Generating turn indicators..."; "Generating warning icons...";
   (nl ++ "ALL DGUS ASSETS GENERATED SUCCESSFULLY")%string;
   "Output directory: dgus_assets/";
   "Total folders: 11";
   (nl ++ "Generated assets:")%string;
   "  - Speed: 81 frames (0-80 km/h)";
   "  - RPM: 17 frames (0-8000 RPM)";
   "  - Temperatures: 101 frames each (0-100 C)";
   "  - SOC: 101 frames (0-100%)";
   "  - Battery V/I: 101 frames";
   "  - Motor V/I: 151 frames";
   "  - Charging: 4 animated frames + 1 static";
   "  - Indicators: 3 animated frames each + off states";
   "  - Warnings: 5 icons"].

(** The directory part of a path: what stands before its last slash. *)
Fixpoint dirname (path : string) : string :=
  match path with
  | EmptyString => EmptyString
  | String c rest =>
      if existsb (Ascii.eqb "/") (list_ascii_of_string rest)
      then String c (dirname rest)
      else EmptyString
  end.

(** The directories of try.py, and the lines its generation pass prints. *)
Definition try_dirs : list string :=
  map (fun f => "dgus_assets/" ++ f)%string TryPy.FOLDERS.

Definition try_pass_stdout (w : world) : list string :=
  ["✓ Background generated"; "✓ Generated 7 labels";
   "✓ Generated 4 arrow indicators"; "✓ Generated warning icons";
   "✓ Generated bar indicators"; "✓ Generated charging icons";
   (nl ++ TryPy.rule)%string;
   "✅ ALL DGUS DASHBOARD ASSETS GENERATED SUCCESSFULLY!";
   TryPy.rule;
   ("📁 Output: " ++ TryPy.absolute w "dgus_assets")%string;
   "📦 Folders: 6";
   "🎨 Assets generated:";
   "   • Background (1)";
   "   • Labels (7)";
   "   • Indicators (4)";
   "   • Warning icons (2)";
   "   • Temperature bars (2)";
   "   • SOC bars (2)";
   "   • Charging icons (2)";
   TryPy.rule].

(** How many of the written paths lie in a folder and start with a stem. *)
Definition count_in (p : proc) (stem : string) : Z :=
  Z.of_nat (List.length (filter (starts_with stem) (written p))).

(** * Properties *)

(** Whether a line given in full is ASCII is settled by computing. *)
Local Ltac settle_ascii H :=
  repeat match type of H with
         | context [is_ascii ?s] =>
             let b := eval vm_compute in (is_ascii s) in
             change (is_ascii s) with b in H
         end;
  cbv beta iota in H.

Lemma print_ascii (w : world) (s : string) (p : proc) :
  is_ascii s = true -> print w s p = (Ok tt, with_stdout p s).
Proof. intros A. unfold print. rewrite A. reflexivity. Qed.

Lemma print_unicode (w : world) (s : string) (p : proc) :
  unicode_stdout w -> print w s p = (Ok tt, with_stdout p s).
Proof. intros U. unfold print. rewrite (U s). destruct (is_ascii s); reflexivity. Qed.

(** ** Rounding *)

Section RoundingFacts.
Import F64.

Lemma rne_bounds p q :
  0 < q ->
  (2 * rne p q - 1) * q <= 2 * p <= (2 * rne p q + 1) * q.
Proof.
  intros Hq. unfold rne.
  pose proof (Z.div_mod p q ltac:(lia)) as E.
  pose proof (Z.mod_pos_bound p q Hq) as B.
  set (d := p / q) in *. set (r := p mod q) in *.
  destruct (2 * r <? q) eqn:L1; [apply Z.ltb_lt in L1; nia|].
  apply Z.ltb_ge in L1.
  destruct (q <? 2 * r) eqn:L2; [apply Z.ltb_lt in L2; nia|].
  apply Z.ltb_ge in L2.
  destruct (Z.even d); nia.
Qed.

Lemma rne_tie_up p q :
  0 < q -> 2 * p = (2 * rne p q - 1) * q -> Z.even (rne p q) = true.
Proof.
  intros Hq. unfold rne.
  pose proof (Z.div_mod p q ltac:(lia)) as E.
  pose proof (Z.mod_pos_bound p q Hq) as B.
  set (d := p / q) in *. set (r := p mod q) in *.
  destruct (2 * r <? q) eqn:L1.
  { apply Z.ltb_lt in L1. intros T. exfalso. nia. }
  apply Z.ltb_ge in L1.
  destruct (q <? 2 * r) eqn:L2.
  { apply Z.ltb_lt in L2. intros T. exfalso. nia. }
  apply Z.ltb_ge in L2.
  destruct (Z.even d) eqn:Ev; intros T.
  - exfalso. nia.
  - rewrite Z.even_add, Ev. reflexivity.
Qed.

Lemma rne_tie_down p q :
  0 < q -> 2 * p = (2 * rne p q + 1) * q -> Z.even (rne p q) = true.
Proof.
  intros Hq. unfold rne.
  pose proof (Z.div_mod p q ltac:(lia)) as E.
  pose proof (Z.mod_pos_bound p q Hq) as B.
  set (d := p / q) in *. set (r := p mod q) in *.
  destruct (2 * r <? q) eqn:L1.
  { apply Z.ltb_lt in L1. intros T. exfalso. nia. }
  apply Z.ltb_ge in L1.
  destruct (q <? 2 * r) eqn:L2.
  { apply Z.ltb_lt in L2. intros T. exfalso. nia. }
  apply Z.ltb_ge in L2.
  destruct (Z.even d) eqn:Ev; intros T.
  - exact Ev.
  - exfalso. nia.
Qed.

Lemma rne_exact n q : 0 < q -> rne (n * q) q = n.
Proof.
  intros Hq. unfold rne.
  rewrite Z.div_mul, Z.mod_mul by lia.
  replace (2 * 0 <? q) with true by (symmetry; apply Z.ltb_lt; lia).
  reflexivity.
Qed.

(** Rounding to the nearest integer is monotone in the rational p/q. *)
Lemma rne_mono p1 q1 p2 q2 :
  0 < q1 -> 0 < q2 -> p1 * q2 <= p2 * q1 -> rne p1 q1 <= rne p2 q2.
Proof.
  intros H1 H2 Hle.
  pose proof (rne_bounds p1 q1 H1) as [L1 _].
  pose proof (rne_bounds p2 q2 H2) as [_ U2].
  pose proof (rne_tie_up p1 q1 H1) as T1.
  pose proof (rne_tie_down p2 q2 H2) as T2.
  set (n1 := rne p1 q1) in *. set (n2 := rne p2 q2) in *.
  destruct (Z_le_gt_dec n1 n2) as [|Hgt]; [assumption|exfalso].
  assert (A : (2 * n2 + 1) * (q1 * q2) <= 2 * p1 * q2) by nia.
  assert (B : 2 * p2 * q1 <= (2 * n2 + 1) * (q1 * q2)) by nia.
  assert (E1 : 2 * p1 = (2 * n2 + 1) * q1) by nia.
  assert (E2 : 2 * p2 = (2 * n2 + 1) * q2) by nia.
  assert (En : n1 = n2 + 1) by nia.
  assert (Ev2 : Z.even n2 = true) by (apply T2; exact E2).
  assert (Ev1 : Z.even n1 = true) by (apply T1; rewrite En; lia).
  rewrite En, Z.even_add, Ev2 in Ev1. discriminate.
Qed.

Lemma div_mono_frac p1 q1 p2 q2 :
  0 < q1 -> 0 < q2 -> p1 * q2 <= p2 * q1 -> p1 / q1 <= p2 / q2.
Proof.
  intros H1 H2 Hle.
  apply Z.div_le_lower_bound; [lia|].
  pose proof (Z.mul_div_le p1 q1 H1). nia.
Qed.

(** Float rounding is monotone on the non-negative rationals. *)
Lemma round_pos_mono p1 q1 p2 q2 :
  0 <= p1 -> 0 < q1 -> 0 < q2 -> p1 * q2 <= p2 * q1 ->
  round_pos p1 q1 <= round_pos p2 q2.
Proof.
  intros Hp H1 H2 Hle. unfold round_pos.
  pose proof (div_mono_frac _ _ _ _ H1 H2 Hle) as Hf.
  assert (Hf1 : 0 <= p1 / q1) by (apply Z.div_pos; lia).
  set (f1 := p1 / q1) in *. set (f2 := p2 / q2) in *.
  pose proof (Z.log2_le_mono f1 f2 Hf) as Hlog.
  set (k1 := Z.max 0 (Z.log2 f1 - 52)). set (k2 := Z.max 0 (Z.log2 f2 - 52)).
  assert (Hk1 : 0 <= k1) by (unfold k1; lia).
  assert (Hk : k1 <= k2) by (unfold k1, k2; lia).
  assert (P1 : 0 < 2 ^ k1) by (apply Z.pow_pos_nonneg; lia).
  assert (P2 : 0 < 2 ^ k2) by (apply Z.pow_pos_nonneg; lia).
  destruct (Z.eq_dec k1 k2) as [Ek|Nk].
  - rewrite <- Ek. apply Z.mul_le_mono_nonneg_r; [lia|].
    apply rne_mono; nia.
  - assert (Hlt : k1 + 1 <= k2) by lia.
    (* the larger argument has reached the binade of spacing 2^k2 *)
    assert (L2 : 2 ^ 52 <= rne p2 (q2 * 2 ^ k2)).
    { assert (K2 : k2 = Z.log2 f2 - 52) by (unfold k2 in *; lia).
      assert (F2 : 0 < f2).
      { destruct (Z_lt_le_dec 0 f2); [assumption|].
        rewrite (Z.log2_nonpos f2) in K2 by lia. lia. }
      pose proof (Z.log2_spec f2 F2) as [Lo _].
      replace (Z.log2 f2) with (52 + k2) in Lo by lia.
      rewrite Z.pow_add_r in Lo by lia.
      pose proof (Z.mul_div_le p2 q2 H2) as D2. fold f2 in D2.
      assert (Q2 : 0 < q2 * 2 ^ k2) by (apply Z.mul_pos_pos; lia).
      assert (G : 2 ^ 52 * (q2 * 2 ^ k2) <= p2).
      { transitivity (q2 * f2); [|exact D2].
        rewrite (Z.mul_comm q2 (2 ^ k2)), Z.mul_assoc, (Z.mul_comm _ q2).
        apply Z.mul_le_mono_nonneg_l; lia. }
      rewrite <- (rne_exact (2 ^ 52) (q2 * 2 ^ k2)) at 1 by exact Q2.
      apply rne_mono; try exact Q2.
      apply Z.mul_le_mono_nonneg_r; lia. }
    (* the smaller argument is still below the end of its own binade *)
    assert (U1 : rne p1 (q1 * 2 ^ k1) <= 2 ^ 53).
    { assert (F1 : f1 < 2 ^ (53 + k1)).
      { destruct (Z.eq_dec f1 0) as [->|]; [apply Z.pow_pos_nonneg; lia|].
        apply Z.log2_lt_pow2; [lia|]. unfold k1. lia. }
      rewrite Z.pow_add_r in F1 by lia.
      assert (Q1 : 0 < q1 * 2 ^ k1) by (apply Z.mul_pos_pos; lia).
      assert (D1 : p1 < q1 * (2 ^ 53 * 2 ^ k1)).
      { destruct (Z_lt_le_dec p1 (q1 * (2 ^ 53 * 2 ^ k1))) as [|Hge]; [assumption|].
        exfalso. apply (Z.div_le_lower_bound p1 q1) in Hge; [|lia].
        fold f1 in Hge. lia. }
      rewrite <- (rne_exact (2 ^ 53) (q1 * 2 ^ k1)) at 1 by exact Q1.
      apply rne_mono; try exact Q1.
      apply Z.mul_le_mono_nonneg_r; [lia|].
      rewrite (Z.mul_comm q1 (2 ^ k1)), Z.mul_assoc, (Z.mul_comm _ q1). lia. }
    set (a := rne p1 (q1 * 2 ^ k1)) in *. set (b := rne p2 (q2 * 2 ^ k2)) in *.
    clearbody a b.
    replace k2 with (k1 + 1 + (k2 - k1 - 1)) by lia.
    rewrite !Z.pow_add_r by lia.
    assert (0 < 2 ^ (k2 - k1 - 1)) by (apply Z.pow_pos_nonneg; lia).
    replace (2 ^ 1) with 2 by reflexivity.
    replace (2 ^ 53) with (2 * 2 ^ 52) in U1 by reflexivity.
    assert (T0 : 0 < 2 ^ 52) by reflexivity.
    set (T := 2 ^ 52) in *. set (A := 2 ^ k1) in *. set (C := 2 ^ (k2 - k1 - 1)) in *.
    clearbody T A C.
    assert (S1 : a * A <= 2 * T * A) by nia.
    assert (S2 : 2 * T * A <= 2 * b * A) by nia.
    assert (S3 : 2 * b * A * 1 <= 2 * b * A * C).
    { apply Z.mul_le_mono_nonneg_l; nia. }
    nia.
Qed.

End RoundingFacts.

(** ** Ranges and loops *)

Lemma in_range (n t : Z) : In t (range n) <-> 0 <= t < n.
Proof.
  unfold range. rewrite in_map_iff. split.
  - intros [k [<- Hk]]. apply in_seq in Hk. lia.
  - intros H. exists (Z.to_nat t). split; [lia|]. apply in_seq. lia.
Qed.

(** A check that passes on every element of [range n] holds below [n]. *)
Lemma range_forallb (n : Z) (P : Z -> bool) :
  forallb P (range n) = true -> forall t, 0 <= t < n -> P t = true.
Proof.
  intros H t Ht. rewrite forallb_forall in H. apply H, in_range, Ht.
Qed.

Lemma length_range (n : Z) : List.length (range n) = Z.to_nat n.
Proof. unfold range. rewrite length_map, length_seq. reflexivity. Qed.

Lemma mapR_ok {A B} (f : A -> result B) (P : B -> Prop) (l : list A) :
  (forall x, In x l -> exists y, f x = Ok y /\ P y) ->
  exists ys, mapR f l = Ok ys /\ List.length ys = List.length l /\ Forall P ys.
Proof.
  induction l as [|x l IH]; intros H; simpl.
  - exists []. auto.
  - destruct (H x (or_introl eq_refl)) as [y [Ey Py]].
    destruct IH as [ys [Eys [Len All]]]; [intros; apply H; right; assumption|].
    rewrite Ey, Eys. simpl. exists (y :: ys). simpl. auto.
Qed.

(** ** Threshold colours and linear gauges *)

Lemma color_eqb_eq c1 c2 : color_eqb c1 c2 = true -> c1 = c2.
Proof.
  destruct c1, c2; simpl; try discriminate; intros H;
    repeat (apply andb_prop in H; destruct H as [H ?]);
    repeat match goal with E : (_ =? _) = true |- _ => apply Z.eqb_eq in E end;
    congruence.
Qed.

Lemma get_temp_color_band (t : Z) :
  0 <= t <= 100 -> Real2.get_temp_color t 100 = Ok (band t).
Proof.
  intros Ht.
  assert (C : forallb (fun t => match Real2.get_temp_color t 100 with
                                | Ok c => color_eqb c (band t)
                                | Raise _ => false
                                end) (range 101) = true) by (vm_compute; reflexivity).
  pose proof (range_forallb _ _ C t ltac:(lia)) as H. cbv beta in H.
  destruct (Real2.get_temp_color t 100); [|discriminate].
  apply color_eqb_eq in H. congruence.
Qed.

(** C8: with [max_temp = 100], a temperature [t] in 0..100 is GREEN exactly
    when [t <= 49], YELLOW exactly when [50 <= t <= 74] and RED exactly when
    [t >= 75]; so each [t] gets one colour and only one. *)
Theorem get_temp_color_partition (t : Z) :
  0 <= t <= 100 ->
  (Real2.get_temp_color t 100 = Ok Real2.GREEN <-> t <= 49) /\
  (Real2.get_temp_color t 100 = Ok Real2.YELLOW <-> 50 <= t <= 74) /\
  (Real2.get_temp_color t 100 = Ok Real2.RED <-> 75 <= t).
Proof.
  intros Ht. rewrite (get_temp_color_band t Ht). unfold band.
  destruct (t <? 50) eqn:E1; [apply Z.ltb_lt in E1 | apply Z.ltb_ge in E1].
  - split; [|split]; (split; intros H; [try lia; discriminate H | try reflexivity; lia]).
  - destruct (t <? 75) eqn:E2; [apply Z.ltb_lt in E2 | apply Z.ltb_ge in E2];
      (split; [|split]);
      (split; intros H; [try lia; discriminate H | try reflexivity; lia]).
Qed.

Lemma get_temp_color_partition_witness :
  0 <= 62 <= 100 /\ Real2.get_temp_color 62 100 = Ok Real2.YELLOW.
Proof.
  split; [lia|].
  apply (get_temp_color_partition 62); lia.
Defined.

(** The speed sweep is the exact linear map: the quotient 270 v / 80 is a
    multiple of 1/8, which a float holds exactly. *)
Lemma speed_angle_linear (v : Z) :
  0 <= v <= 80 -> Real2.speed_angle v = Ok (270 * v / 80).
Proof.
  intros Hv.
  assert (C : forallb (fun v => match Real2.speed_angle v with
                                | Ok a => a =? 270 * v / 80
                                | Raise _ => false
                                end) (range 81) = true) by (vm_compute; reflexivity).
  pose proof (range_forallb _ _ C v ltac:(lia)) as H. cbv beta in H.
  destruct (Real2.speed_angle v); [|discriminate].
  apply Z.eqb_eq in H. congruence.
Qed.

Lemma speed_angle_ends_monotone :
  Real2.speed_angle 0 = Ok 0 /\ Real2.speed_angle 80 = Ok 270 /\
  forall u v a b, 0 <= u <= v -> v <= 80 ->
    Real2.speed_angle u = Ok a -> Real2.speed_angle v = Ok b -> a <= b.
Proof.
  split; [reflexivity|]. split; [reflexivity|].
  intros u v a b Hu Hv. rewrite !speed_angle_linear by lia.
  intros Ea Eb.
  assert (a = 270 * u / 80) by congruence. assert (b = 270 * v / 80) by congruence.
  subst a b. apply Z.div_le_mono; lia.
Qed.

(** The state-of-charge fill divides first and multiplies afterwards, so
    the float quotient s/100 is rounded before it is scaled: the width is
    2 s, except at three percentages where the product falls just below the
    integer and [int] cuts it one pixel short. *)
Lemma soc_fill_width_table (s : Z) :
  0 <= s <= 100 -> Real2.soc_fill_width s = Ok (soc_table s).
Proof.
  intros Hs.
  assert (C : forallb (fun s => match Real2.soc_fill_width s with
                                | Ok fw => fw =? soc_table s
                                | Raise _ => false
                                end) (range 101) = true) by (vm_compute; reflexivity).
  pose proof (range_forallb _ _ C s ltac:(lia)) as H. cbv beta in H.
  destruct (Real2.soc_fill_width s) as [fw|]; [|discriminate].
  apply Z.eqb_eq in H. congruence.
Qed.

Lemma soc_table_near (s : Z) : 2 * s - 1 <= soc_table s <= 2 * s.
Proof. unfold soc_table. destruct ((s =? 29) || (s =? 57) || (s =? 58)); lia. Qed.

Lemma soc_table_monotone (s s' : Z) : s <= s' -> soc_table s <= soc_table s'.
Proof.
  intros H. unfold soc_table.
  destruct (s =? 29) eqn:A1; destruct (s =? 57) eqn:A2; destruct (s =? 58) eqn:A3;
  destruct (s' =? 29) eqn:B1; destruct (s' =? 57) eqn:B2; destruct (s' =? 58) eqn:B3;
  cbn [orb];
  repeat match goal with
         | E : (_ =? _) = true |- _ => apply Z.eqb_eq in E
         | E : (_ =? _) = false |- _ => apply Z.eqb_neq in E
         end; lia.
Qed.

Lemma soc_fill_width_ends_monotone :
  Real2.soc_fill_width 0 = Ok 0 /\ Real2.soc_fill_width 100 = Ok 200 /\
  forall s s' a b, 0 <= s <= s' -> s' <= 100 ->
    Real2.soc_fill_width s = Ok a -> Real2.soc_fill_width s' = Ok b -> a <= b.
Proof.
  split; [apply (soc_fill_width_table 0); lia|].
  split; [apply (soc_fill_width_table 100); lia|].
  intros s s' a b Hs Hs'. rewrite !soc_fill_width_table by lia.
  intros Ea Eb.
  assert (a = soc_table s) by congruence. assert (b = soc_table s') by congruence.
  subst a b. apply soc_table_monotone. lia.
Qed.

(** C4, where the code leaves the claim: at 29 % the quotient 29/100 rounds
    to a float just below 0.29, its product with 200 to the float just below
    58, and [int] cuts that to 57, while the linear interpolation
    floor(200 * 29 / 100) is 58.  The same happens at 57 % and 58 %, and
    nowhere else in 0..100; the speed sweep of line 81, which multiplies
    before it divides, is exact. *)
Theorem soc_fill_width_off_by_one :
  Real2.soc_fill_width 29 = Ok 57 /\ 200 * 29 / 100 = 58 /\
  Real2.soc_fill_width 57 = Ok 113 /\ Real2.soc_fill_width 58 = Ok 115 /\
  Real2.speed_angle 29 = Ok (270 * 29 / 80).
Proof.
  rewrite !soc_fill_width_table, speed_angle_linear by lia.
  repeat split; reflexivity.
Qed.

Lemma soc_fill_width_elsewhere (s : Z) :
  0 <= s <= 100 -> s <> 29 -> s <> 57 -> s <> 58 ->
  Real2.soc_fill_width s = Ok (200 * s / 100).
Proof.
  intros Hs N1 N2 N3. rewrite soc_fill_width_table by assumption.
  unfold soc_table.
  replace (s =? 29) with false by (symmetry; apply Z.eqb_neq; assumption).
  replace (s =? 57) with false by (symmetry; apply Z.eqb_neq; assumption).
  replace (s =? 58) with false by (symmetry; apply Z.eqb_neq; assumption).
  cbn [orb]. f_equal.
  rewrite (Z.mul_comm 200 s). change 200 with (2 * 100).
  rewrite Z.mul_assoc, Z.div_mul by lia. lia.
Qed.

(** ** The state-of-charge bar *)

Lemma soc_fill_width_range (s : Z) :
  0 <= s <= 100 -> exists fw, Real2.soc_fill_width s = Ok fw /\ 0 <= fw <= 200.
Proof.
  intros Hs. exists (soc_table s). split; [apply soc_fill_width_table, Hs|].
  pose proof (soc_table_near s). pose proof (soc_table_monotone 0 s ltac:(lia)) as M.
  change (soc_table 0) with 0 in M. lia.
Qed.

(** The drawing calls of a state-of-charge frame, in order. *)
Lemma soc_frame_ops (L : library) (F : Real2.fonts) (s fw : Z) :
  Real2.soc_fill_width s = Ok fw ->
  exists img fill xy txt c,
    Real2.soc_frame L F s = Ok img /\
    fill = Rectangle (Real2.soc_fill_rect fw)
             (Some (if 60 <? s then Real2.GREEN
                    else if 20 <? s then Real2.YELLOW else Real2.RED)) None 1 /\
    ops img = ([Rectangle Real2.soc_outline None (Some Real2.WHITE) 4;
                Rectangle (220, 30, 230, 50) (Some Real2.WHITE) None 1]
               ++ (if 0 <? fw then [fill] else [])
               ++ [Text xy txt c (Real2.font_med F)])%list.
Proof.
  intros E. unfold Real2.soc_frame. rewrite E. cbn [rbind].
  eexists _, _, _, _, _. split; [reflexivity|]. split; [reflexivity|].
  destruct (0 <? fw); reflexivity.
Qed.

(** C9: for every charge [s] in 0..100 the fill width lies in [0, 200], the
    fill rectangle (15, 25, 15 + width, 55) lies inside the battery outline
    (10, 20, 220, 60), and the frame holds the fill rectangle exactly when
    the width is positive. *)
Theorem soc_fill_stays_in_frame (L : library) (F : Real2.fonts) (s : Z) :
  0 <= s <= 100 ->
  exists fw img,
    Real2.soc_fill_width s = Ok fw /\
    Real2.soc_frame L F s = Ok img /\
    0 <= fw <= 200 /\
    Real2.soc_fill_rect fw = (15, 25, 15 + fw, 55) /\
    Real2.soc_outline = (10, 20, 220, 60) /\
    inside (Real2.soc_fill_rect fw) Real2.soc_outline /\
    ((exists fill outline width,
        In (Rectangle (Real2.soc_fill_rect fw) fill outline width) (ops img))
     <-> 0 < fw).
Proof.
  intros Hs.
  destruct (soc_fill_width_range s Hs) as [fw [E B]].
  destruct (soc_frame_ops L F s fw E) as (img & fill & xy & txt & c & Ei & -> & Eo).
  exists fw, img. repeat (split; [first [assumption | reflexivity | lia]|]).
  split; [unfold inside, Real2.soc_fill_rect, Real2.soc_outline; lia|].
  rewrite Eo. split.
  - intros (f & o & wd & HIn).
    destruct (0 <? fw) eqn:P; [apply Z.ltb_lt in P; exact P|].
    exfalso. simpl in HIn.
    unfold Real2.soc_fill_rect, Real2.soc_outline in HIn.
    destruct HIn as [H|[H|[H|[]]]]; discriminate H.
  - intros P. apply Z.ltb_lt in P. rewrite P.
    eexists _, _, _. simpl. right. right. left. reflexivity.
Qed.

Lemma soc_fill_stays_in_frame_witness :
  0 <= 29 <= 100 /\
  exists fw img,
    Real2.soc_fill_width 29 = Ok fw /\
    Real2.soc_frame sample_library
      (Real2.mkFonts DefaultFont DefaultFont DefaultFont) 29 = Ok img /\
    0 <= fw <= 200 /\
    Real2.soc_fill_rect fw = (15, 25, 15 + fw, 55) /\
    Real2.soc_outline = (10, 20, 220, 60) /\
    inside (Real2.soc_fill_rect fw) Real2.soc_outline /\
    ((exists fill outline width,
        In (Rectangle (Real2.soc_fill_rect fw) fill outline width) (ops img))
     <-> 0 < fw).
Proof.
  split; [lia|].
  apply (soc_fill_stays_in_frame sample_library
           (Real2.mkFonts DefaultFont DefaultFont DefaultFont) 29); lia.
Defined.

(** ** Signed rounding on non-negative arguments *)

Lemma round_pos_zero q : 0 < q -> F64.round_pos 0 q = 0.
Proof.
  intros Hq. unfold F64.round_pos. rewrite Z.div_0_l by lia.
  change (Z.max 0 (Z.log2 0 - 52)) with 0. change (2 ^ 0) with 1.
  rewrite !Z.mul_1_r. unfold F64.rne.
  rewrite Z.div_0_l, Z.mod_0_l by lia.
  replace (2 * 0 <? q) with true by (symmetry; apply Z.ltb_lt; lia).
  reflexivity.
Qed.

Lemma round_nonneg p q : 0 <= p -> 0 < q -> F64.round p q = F64.round_pos p q.
Proof.
  intros Hp Hq. unfold F64.round.
  destruct (Z.eq_dec p 0) as [->|Np].
  - change (Z.abs 0) with 0. rewrite round_pos_zero by assumption. reflexivity.
  - rewrite Z.sgn_pos, Z.abs_eq by lia. lia.
Qed.

Lemma round_mono p1 q1 p2 q2 :
  0 <= p1 -> 0 < q1 -> 0 < q2 -> p1 * q2 <= p2 * q1 ->
  F64.round p1 q1 <= F64.round p2 q2.
Proof.
  intros Hp H1 H2 Hle.
  assert (0 <= p2) by nia.
  rewrite !round_nonneg by assumption.
  apply round_pos_mono; assumption.
Qed.

(** A quotient of magnitude at most [bound], itself a float below 2^1024,
    does not overflow. *)
Lemma truediv_ok (a b bound : Z) :
  b <> 0 -> 0 <= bound ->
  F64.round_pos (bound * F64.one) 1 < F64.out_of_range ->
  Z.abs a <= bound * Z.abs b ->
  truediv a b = Ok (Z.sgn a * Z.sgn b * F64.round_pos (Z.abs a * F64.one) (Z.abs b)) /\
  F64.round_pos (Z.abs a * F64.one) (Z.abs b) <= F64.round_pos (bound * F64.one) 1.
Proof.
  intros Hb Hn Hfin Hle. unfold truediv.
  replace (b =? 0) with false by (symmetry; apply Z.eqb_neq; assumption).
  assert (One : 0 < F64.one) by reflexivity.
  assert (M : F64.round_pos (Z.abs a * F64.one) (Z.abs b)
              <= F64.round_pos (bound * F64.one) 1).
  { apply round_pos_mono.
    - apply Z.mul_nonneg_nonneg; lia.
    - lia.
    - lia.
    - rewrite Z.mul_1_r, <- Z.mul_assoc, (Z.mul_comm F64.one), Z.mul_assoc.
      apply Z.mul_le_mono_nonneg_r; lia. }
  split; [|exact M].
  replace (F64.out_of_range <=? _) with false; [reflexivity|].
  symmetry. apply Z.leb_gt. lia.
Qed.

(** ** Temperature colours on arbitrary integers *)

(** C6, as amended: [get_temp_color] checks no range.  For any integer
    [temp] and any non-zero [max_temp] whose quotient is within the largest
    finite float, 2^1024 - 2^971, it returns GREEN, YELLOW or RED and does
    not raise, whether or not [temp] lies in [0, max_temp]. *)
Theorem get_temp_color_unchecked (temp max_temp : Z) :
  max_temp <> 0 ->
  Z.abs temp <= (2 ^ 1024 - 2 ^ 971) * Z.abs max_temp ->
  exists c, Real2.get_temp_color temp max_temp = Ok c /\
            (c = Real2.GREEN \/ c = Real2.YELLOW \/ c = Real2.RED).
Proof.
  intros Hm Hq. unfold Real2.get_temp_color.
  assert (Fin : F64.round_pos ((2 ^ 1024 - 2 ^ 971) * F64.one) 1 < F64.out_of_range)
    by (vm_compute; reflexivity).
  destruct (truediv_ok temp max_temp (2 ^ 1024 - 2 ^ 971) Hm ltac:(vm_compute; discriminate)
              Fin Hq) as [E _].
  rewrite E. cbn [rbind].
  destruct (F64.ltb _ (F64.literal 5 10)); [eauto|].
  destruct (F64.ltb _ (F64.literal 75 100)); eauto.
Qed.

Lemma get_temp_color_unchecked_witness :
  exists c, Real2.get_temp_color 150 100 = Ok c /\
            (c = Real2.GREEN \/ c = Real2.YELLOW \/ c = Real2.RED).
Proof.
  apply (get_temp_color_unchecked 150 100).
  - discriminate.
  - vm_compute. discriminate.
Defined.

(** C6 as stated fails: Python ints are unbounded, and a quotient beyond
    the float range makes the division itself raise OverflowError. *)
Lemma get_temp_color_overflow :
  ~ (forall temp max_temp : Z,
       max_temp <> 0 ->
       exists c, Real2.get_temp_color temp max_temp = Ok c /\
                 (c = Real2.GREEN \/ c = Real2.YELLOW \/ c = Real2.RED)).
Proof.
  intros H. destruct (H (2 ^ 1024) 1 ltac:(discriminate)) as [c [E _]].
  vm_compute in E. discriminate E.
Qed.

Example get_temp_color_out_of_range :
  Real2.get_temp_color 150 100 = Ok Real2.RED /\
  Real2.get_temp_color (-40) 100 = Ok Real2.GREEN /\
  Real2.get_temp_color 90 (-100) = Ok Real2.GREEN /\
  Real2.get_temp_color 5 0 = Raise (ZeroDivisionError "division by zero") /\
  Real2.get_temp_color (2 ^ 1024) 1
  = Raise (OverflowError "integer division result too large for a float").
Proof. vm_compute. repeat split; reflexivity. Qed.

(** ** Indicator brightness *)

(** The division of line 277 when only one frame is asked for. *)
Lemma brightness_one_frame : 
  Real2.brightness 0 1 = Raise (ZeroDivisionError "division by zero").
Proof. reflexivity. Qed.

(** Side conditions of [round_mono]: products of non-negative factors. *)
Local Ltac product_order :=
  first [ lia
        | apply Z.mul_nonneg_nonneg; lia
        | apply Z.mul_le_mono_nonneg_r; [lia|];
          apply Z.mul_le_mono_nonneg_l; lia
        | nia ].

(** With at least two frames the ratio frame/(frames-1) is a float in
    [0, 1]; rounding is monotone, so 0.7 * ratio stays in [0, 0.7],
    0.3 + that in [0.3, 1.0] and 255 * that in [76.5, 255]. *)
Lemma brightness_bounds (frame frames : Z) :
  2 <= frames -> 0 <= frame < frames ->
  exists b, Real2.brightness frame frames = Ok b /\ 76 <= b <= 255.
Proof.
  intros Hf Hfr. unfold Real2.brightness.
  assert (Fin : F64.round_pos (1 * F64.one) 1 < F64.out_of_range)
    by (vm_compute; reflexivity).
  destruct (truediv_ok frame (frames - 1) 1 ltac:(lia) ltac:(lia) Fin ltac:(lia))
    as [E M].
  rewrite E. cbn [rbind]. clear E Fin.
  assert (One : 0 < F64.one) by reflexivity.
  assert (M0 : 0 <= F64.round_pos (Z.abs frame * F64.one) (Z.abs (frames - 1))).
  { rewrite <- (round_pos_zero 1) at 1 by lia.
    apply round_pos_mono; nia. }
  replace (F64.round_pos (1 * F64.one) 1) with F64.one in M
    by (vm_compute; reflexivity).
  set (m := F64.round_pos (Z.abs frame * F64.one) (Z.abs (frames - 1))) in *.
  clearbody m.
  set (q := Z.sgn frame * Z.sgn (frames - 1) * m).
  assert (Q : 0 <= q <= F64.one).
  { unfold q. rewrite (Z.sgn_pos (frames - 1)) by lia.
    destruct (Z.eq_dec frame 0) as [->|]; [simpl; lia|].
    rewrite Z.sgn_pos by lia. lia. }
  clearbody q. clear M M0 m.
  (* 0.7 * ratio *)
  set (c07 := F64.literal 7 10). set (c03 := F64.literal 3 10).
  set (c255 := F64.of_int 255).
  assert (P07 : 0 <= c07) by (vm_compute; discriminate).
  assert (P03 : 0 <= c03) by (vm_compute; discriminate).
  assert (P255 : 0 <= c255) by (vm_compute; discriminate).
  assert (T0 : F64.round 0 F64.one = 0) by (vm_compute; reflexivity).
  assert (T1 : F64.round (c07 * F64.one) F64.one = c07) by (vm_compute; reflexivity).
  assert (U0 : F64.round c03 1 = c03) by (vm_compute; reflexivity).
  assert (U1 : F64.round (c03 + c07) 1 = F64.one) by (vm_compute; reflexivity).
  assert (X0 : 76 * F64.one <= F64.round (c255 * c03) F64.one)
    by (vm_compute; discriminate).
  assert (X1 : F64.round (c255 * F64.one) F64.one = 255 * F64.one)
    by (vm_compute; reflexivity).
  clearbody c07 c03 c255.
  unfold F64.mul at 2. set (t := F64.round (c07 * q) F64.one).
  assert (T : 0 <= t <= c07).
  { split.
    - rewrite <- T0. apply round_mono; product_order.
    - rewrite <- T1. apply round_mono; product_order. }
  clearbody t. clear T0 T1.
  unfold F64.add. set (u := F64.round (c03 + t) 1).
  assert (U : c03 <= u <= F64.one).
  { split.
    - rewrite <- U0. apply round_mono; product_order.
    - rewrite <- U1. apply round_mono; product_order. }
  clearbody u. clear U0 U1.
  unfold F64.mul. set (x := F64.round (c255 * u) F64.one).
  assert (X : 76 * F64.one <= x <= 255 * F64.one).
  { split.
    - etransitivity; [exact X0|]. apply round_mono; product_order.
    - rewrite <- X1. apply round_mono; product_order. }
  clearbody x. clear X0 X1.
  eexists. split; [reflexivity|].
  unfold F64.to_int. rewrite Z.quot_div_nonneg by lia. split.
  - apply Z.div_le_lower_bound; lia.
  - apply Z.div_le_upper_bound; lia.
Qed.

(** C10: [indicator_animated] divides by [frames - 1]; asked for one frame
    it raises ZeroDivisionError; asked for two or more (the default is
    three) it returns that many images, and the brightness of each, the
    green channel of the arrow colour [(0, brightness, ...)], is an integer
    in [76, 255]. *)
Theorem indicator_animated_brightness (direction : string) (frames : Z) :
  2 <= frames ->
  Real2.indicator_animated direction 1
  = Raise (ZeroDivisionError "division by zero") /\
  (forall frame, 0 <= frame < frames ->
     exists b, Real2.brightness frame frames = Ok b /\ 76 <= b <= 255) /\
  exists images,
    Real2.indicator_animated direction frames = Ok images /\
    List.length images = Z.to_nat frames /\
    Forall (fun img => exists b blue,
                         Real2.arrow_fill img = Some (RGB 0 b blue) /\
                         76 <= b <= 255) images.
Proof.
  intros Hf. split; [reflexivity|].
  split; [intros frame Hfr; apply brightness_bounds; assumption|].
  unfold Real2.indicator_animated.
  destruct (mapR_ok (Real2.indicator_frame direction frames)
              (fun img => exists b blue,
                            Real2.arrow_fill img = Some (RGB 0 b blue) /\
                            76 <= b <= 255)
              (range frames)) as [images [E [Len All]]].
  - intros frame Hin. apply in_range in Hin.
    destruct (brightness_bounds frame frames Hf Hin) as [b [Eb Bb]].
    unfold Real2.indicator_frame. rewrite Eb. cbn [rbind].
    eexists. split; [reflexivity|].
    exists b. eexists. split; [reflexivity|exact Bb].
  - exists images. rewrite length_range in Len. auto.
Qed.

Lemma indicator_animated_brightness_witness :
  exists images,
    Real2.indicator_animated "left" 3 = Ok images /\
    List.length images = 3%nat /\
    Forall (fun img => exists b blue,
                         Real2.arrow_fill img = Some (RGB 0 b blue) /\
                         76 <= b <= 255) images.
Proof.
  apply (indicator_animated_brightness "left" 3). lia.
Defined.

Example indicator_default_frames :
  map Real2.arrow_fill
    (match Real2.indicator_animated "right" 3 with Ok l => l | Raise _ => [] end)
  = [Some (RGB 0 76 45); Some (RGB 0 165 99); Some (RGB 0 255 153)].
Proof. vm_compute. reflexivity. Qed.

(** ** Font loading *)

(** C3, as amended.  In real2.py the bare [except:] catches whatever the
    [truetype] calls raise: the three handles get the default font and the
    script goes on.  In try.py the handler catches OSError only: when the
    font file is missing or unreadable both handles get the default font and
    [_load_fonts] returns, while an exception of another class leaves
    [_load_fonts] and reaches its caller; when the directories had been
    made and that exception derives from [Exception], [main] reports it as
    a fatal error on the standard error and returns 1. *)
Theorem font_loading_fallback (w : world) (p : proc) :
  (exists F, Real2.load_fonts w p = (Ok F, p) /\
     ((exists sz, In sz [48; 36; 24] /\
                  truetype_outcome w "DejaVuSans-Bold.ttf" sz <> None) ->
      F = default_fonts)) /\
  ((forall sz e, truetype_outcome w TryPy.FONT_NAME sz = Some e -> is_OSError e = true) ->
   exists G p', TryPy._load_fonts w p = (Ok G, p') /\
     files p' = files p /\ dirs p' = dirs p /\ stderr p' = stderr p /\
     ((exists sz, In sz [36; 26] /\ truetype_outcome w TryPy.FONT_NAME sz <> None) ->
      G = TryPy.mkGenerator DefaultFont DefaultFont)) /\
  (forall e, is_OSError e = false ->
     truetype_outcome w TryPy.FONT_NAME 36 = Some e \/
     (truetype_outcome w TryPy.FONT_NAME 36 = None /\
      truetype_outcome w TryPy.FONT_NAME 26 = Some e) ->
     TryPy._load_fonts w p = (Raise e, p) /\
     (forall p0, TryPy._create_directories w boot = (Ok tt, p0) ->
                 is_Exception e = true ->
                 TryPy.main w boot
                 = (Ok 1, with_stderr p0 (nl ++ "❌ Fatal error: " ++ exn_str e)))).
Proof.
  split; [|split].
  - unfold Real2.load_fonts, try_except, bind, truetype, load_default, ret.
    destruct (truetype_outcome w "DejaVuSans-Bold.ttf" 48) eqn:E1;
    destruct (truetype_outcome w "DejaVuSans-Bold.ttf" 36) eqn:E2;
    destruct (truetype_outcome w "DejaVuSans-Bold.ttf" 24) eqn:E3;
    eexists; (split; [reflexivity|]); try reflexivity.
    intros [sz [[<-|[<-|[<-|[]]]] N]]; congruence.
  - intros Hos.
    unfold TryPy._load_fonts, try_except, bind, truetype, load_default, ret, print.
    destruct (truetype_outcome w TryPy.FONT_NAME TryPy.FONT_SIZE_BIG) eqn:E1.
    { rewrite (Hos _ _ E1). eexists _, _. split; [reflexivity|]. cbn. auto. }
    destruct (truetype_outcome w TryPy.FONT_NAME TryPy.FONT_SIZE_MED) eqn:E2.
    { rewrite (Hos _ _ E2). eexists _, _. split; [reflexivity|]. cbn. auto. }
    eexists _, _. split; [reflexivity|]. cbn. repeat (split; [reflexivity|]).
    intros [sz [[<-|[<-|[]]] N]]; unfold TryPy.FONT_SIZE_BIG, TryPy.FONT_SIZE_MED in *;
      congruence.
  - intros e Hne Hout.
    assert (Lf : forall q, TryPy._load_fonts w q = (Raise e, q)).
    { intros q. destruct Hout as [E1|[E1 E2]];
        unfold TryPy._load_fonts, try_except, bind, truetype, load_default, ret, print;
        fold TryPy.FONT_SIZE_BIG TryPy.FONT_SIZE_MED;
        unfold TryPy.FONT_SIZE_BIG, TryPy.FONT_SIZE_MED.
      + rewrite E1, Hne. reflexivity.
      + rewrite E1, E2, Hne. reflexivity. }
    split; [apply Lf|].
    intros p0 D X.
    assert (K : is_KeyboardInterrupt e = false)
      by (destruct e; try reflexivity; discriminate X).
    unfold TryPy.main, try_except2, TryPy.new_AssetGenerator, bind at 1 2 3.
    rewrite D, (Lf p0), K, X. reflexivity.
Qed.

Lemma font_loading_fallback_witness :
  (exists F, Real2.load_fonts quiet_world boot = (Ok F, boot) /\
     ((exists sz, In sz [48; 36; 24] /\
                  truetype_outcome quiet_world "DejaVuSans-Bold.ttf" sz <> None) ->
      F = default_fonts)) /\
  (exists G p', TryPy._load_fonts quiet_world boot = (Ok G, p') /\
     files p' = files boot /\ dirs p' = dirs boot /\ stderr p' = stderr boot /\
     ((exists sz, In sz [36; 26] /\
                  truetype_outcome quiet_world TryPy.FONT_NAME sz <> None) ->
      G = TryPy.mkGenerator DefaultFont DefaultFont)) /\
  TryPy._load_fonts no_freetype_world boot
  = (Raise (OtherException "ImportError" "The _imagingft C module is not installed"),
     boot) /\
  fst (TryPy.main no_freetype_world boot) = Ok 1.
Proof.
  destruct (font_loading_fallback quiet_world boot) as (A & B & _).
  split; [exact A|]. split.
  { apply B. intros sz e E. injection E as <-. reflexivity. }
  destruct (font_loading_fallback no_freetype_world boot) as (_ & _ & C).
  destruct (C (OtherException "ImportError" "The _imagingft C module is not installed")
              eq_refl (or_introl eq_refl)) as [Lf M].
  split; [exact Lf|].
  rewrite (M (snd (TryPy._create_directories no_freetype_world boot))
             ltac:(vm_compute; reflexivity) eq_refl).
  reflexivity.
Defined.

(** C3 as stated fails for try.py: a [truetype] failure that is not an
    OSError is not caught, and the run ends before anything is drawn. *)
Lemma font_error_propagates :
  ~ (forall w p, exists G p', TryPy._load_fonts w p = (Ok G, p')).
Proof.
  intros H. destruct (H no_freetype_world boot) as (G & p' & E).
  vm_compute in E. discriminate E.
Qed.

Example font_error_ends_the_run :
  TryPy._load_fonts no_freetype_world boot
  = (Raise (OtherException "ImportError" "The _imagingft C module is not installed"),
     boot) /\
  fst (TryPy.main no_freetype_world boot) = Ok 1 /\
  files (snd (TryPy.main no_freetype_world boot)) = [] /\
  fst (Real2.load_fonts no_freetype_world boot) = Ok default_fonts.
Proof. vm_compute. repeat split; reflexivity. Qed.

(** ** The run result of try.py *)

Lemma generate_all_completes (w : world) (G : TryPy.AssetGenerator) (p0 p1 : proc) :
  TryPy.generation_pass w G p0 = (Ok tt, p1) ->
  TryPy.generate_all w G p0 = (Ok true, p1).
Proof.
  intros E. unfold TryPy.generate_all, try_except, bind. rewrite E. reflexivity.
Qed.

Lemma generate_all_catches (w : world) (G : TryPy.AssetGenerator) (p0 p1 : proc) e :
  TryPy.generation_pass w G p0 = (Raise e, p1) ->
  is_Exception e = true ->
  TryPy.generate_all w G p0 = (Ok false, with_stderr p1 (TryPy.generation_report e)).
Proof.
  intros E C. unfold TryPy.generate_all, try_except, bind. rewrite E, C. reflexivity.
Qed.

Lemma generate_all_lets_through (w : world) (G : TryPy.AssetGenerator) (p0 p1 : proc) e :
  TryPy.generation_pass w G p0 = (Raise e, p1) ->
  is_Exception e = false ->
  TryPy.generate_all w G p0 = (Raise e, p1).
Proof.
  intros E C. unfold TryPy.generate_all, try_except, bind. rewrite E, C. reflexivity.
Qed.

(** The handler of [main] for KeyboardInterrupt: it returns 130 when the
    standard output takes its line, and raises otherwise. *)
Lemma main_cancelled (w : world) (G : TryPy.AssetGenerator) (p0 p1 : proc) :
  TryPy.new_AssetGenerator w boot = (Ok G, p0) ->
  TryPy.generate_all w G p0 = (Raise KeyboardInterrupt, p1) ->
  TryPy.main w boot
  = match stdout_rejects w cancelled_line with
    | None => (Ok 130, with_stdout p1 cancelled_line)
    | Some msg => (Raise (OtherException "UnicodeEncodeError" msg), p1)
    end.
Proof.
  intros New GA.
  unfold TryPy.main, try_except2, bind. rewrite New, GA.
  cbn [is_KeyboardInterrupt]. unfold print.
  change (is_ascii (nl ++ "⚠ Generation cancelled by user")) with false.
  cbv iota. fold cancelled_line.
  destruct (stdout_rejects w cancelled_line); reflexivity.
Qed.

(** C2, as amended.  Once the generator is built: if every step of the
    generation pass completes without raising, [generate_all] returns True
    and the program exits with status 0; if the pass raises an exception
    derived from [Exception], the catch of [generate_all] reports it on
    standard error, [generate_all] returns False and the program exits with
    status 1; a KeyboardInterrupt raised during the pass is not caught by
    [generate_all]: it reaches [main], whose own handler prints a
    cancellation line on the standard output and returns 130, unless the
    standard output cannot encode that line, in which case the handler
    raises UnicodeEncodeError and the exception leaves [main]. *)
Theorem generate_all_exit_status (w : world) (G : TryPy.AssetGenerator) (p0 p1 : proc) :
  TryPy.new_AssetGenerator w boot = (Ok G, p0) ->
  (TryPy.generation_pass w G p0 = (Ok tt, p1) ->
     TryPy.generate_all w G p0 = (Ok true, p1) /\
     TryPy.main w boot = (Ok 0, p1)) /\
  (forall e, TryPy.generation_pass w G p0 = (Raise e, p1) -> is_Exception e = true ->
     TryPy.generate_all w G p0
     = (Ok false, with_stderr p1 (TryPy.generation_report e)) /\
     TryPy.main w boot = (Ok 1, with_stderr p1 (TryPy.generation_report e))) /\
  (TryPy.generation_pass w G p0 = (Raise KeyboardInterrupt, p1) ->
     TryPy.generate_all w G p0 = (Raise KeyboardInterrupt, p1) /\
     (stdout_rejects w cancelled_line = None ->
        TryPy.main w boot = (Ok 130, with_stdout p1 cancelled_line)) /\
     (forall msg, stdout_rejects w cancelled_line = Some msg ->
        TryPy.main w boot = (Raise (OtherException "UnicodeEncodeError" msg), p1))).
Proof.
  intros New. split; [|split].
  - intros E. pose proof (generate_all_completes w G p0 p1 E) as GA.
    split; [exact GA|].
    unfold TryPy.main, try_except2, bind. rewrite New, GA. reflexivity.
  - intros e E C. pose proof (generate_all_catches w G p0 p1 e E C) as GA.
    split; [exact GA|].
    unfold TryPy.main, try_except2, bind. rewrite New, GA. reflexivity.
  - intros E. pose proof (generate_all_lets_through w G p0 p1 _ E eq_refl) as GA.
    split; [exact GA|].
    pose proof (main_cancelled w G p0 p1 New GA) as M.
    split.
    + intros R. rewrite R in M. exact M.
    + intros msg R. rewrite R in M. exact M.
Qed.

Lemma generate_all_exit_status_witness :
  fst (TryPy.main quiet_world boot) = Ok 0 /\
  fst (TryPy.main full_disk_world boot) = Ok 1 /\
  stderr (snd (TryPy.main full_disk_world boot))
  = [TryPy.generation_report (OSError "[Errno 28] No space left on device")] /\
  fst (TryPy.main interrupted_world boot) = Ok 130.
Proof.
  pose (G := TryPy.mkGenerator DefaultFont DefaultFont).
  split; [|split; [|split]].
  - pose (p0 := snd (TryPy.new_AssetGenerator quiet_world boot)).
    pose (p1 := snd (TryPy.generation_pass quiet_world G p0)).
    destruct (generate_all_exit_status quiet_world G p0 p1) as (A & _ & _);
      [vm_compute; reflexivity|].
    destruct A as [_ A]; [vm_compute; reflexivity|].
    rewrite A. reflexivity.
  - pose (p0 := snd (TryPy.new_AssetGenerator full_disk_world boot)).
    pose (p1 := snd (TryPy.generation_pass full_disk_world G p0)).
    destruct (generate_all_exit_status full_disk_world G p0 p1) as (_ & B & _);
      [vm_compute; reflexivity|].
    destruct (B (OSError "[Errno 28] No space left on device")) as [_ A];
      [vm_compute; reflexivity|reflexivity|].
    rewrite A. reflexivity.
  - pose (p0 := snd (TryPy.new_AssetGenerator full_disk_world boot)).
    pose (p1 := snd (TryPy.generation_pass full_disk_world G p0)).
    destruct (generate_all_exit_status full_disk_world G p0 p1) as (_ & B & _);
      [vm_compute; reflexivity|].
    destruct (B (OSError "[Errno 28] No space left on device")) as [_ A];
      [vm_compute; reflexivity|reflexivity|].
    rewrite A. vm_compute. reflexivity.
  - pose (p0 := snd (TryPy.new_AssetGenerator interrupted_world boot)).
    pose (p1 := snd (TryPy.generation_pass interrupted_world G p0)).
    destruct (generate_all_exit_status interrupted_world G p0 p1) as (_ & _ & C);
      [vm_compute; reflexivity|].
    destruct C as (_ & A & _); [vm_compute; reflexivity|].
    rewrite A; reflexivity.
Defined.

(** C2 as stated fails: an exception that does not derive from [Exception]
    passes the catch of [generate_all] unreported. *)
Lemma generate_all_misses_interrupt :
  ~ (forall w G p0 e p1,
       TryPy.generation_pass w G p0 = (Raise e, p1) ->
       exists p2, TryPy.generate_all w G p0 = (Ok false, p2) /\
                  In (TryPy.generation_report e) (stderr p2)).
Proof.
  intros H.
  destruct (H interrupted_world (TryPy.mkGenerator DefaultFont DefaultFont)
              boot KeyboardInterrupt boot ltac:(vm_compute; reflexivity))
    as (p2 & E & _).
  vm_compute in E. discriminate E.
Qed.

Example interrupted_run :
  TryPy.generation_pass interrupted_world (TryPy.mkGenerator DefaultFont DefaultFont) boot
  = (Raise KeyboardInterrupt, boot) /\
  TryPy.generate_all interrupted_world (TryPy.mkGenerator DefaultFont DefaultFont) boot
  = (Raise KeyboardInterrupt, boot) /\
  fst (TryPy.main interrupted_world boot) = Ok 130 /\
  stderr (snd (TryPy.main interrupted_world boot)) = [].
Proof. vm_compute. repeat split; reflexivity. Qed.

(** ** Font loading in the flat script always returns *)

Lemma real2_load_fonts_returns (w : world) (p : proc) :
  exists F, Real2.load_fonts w p = (Ok F, p).
Proof.
  unfold Real2.load_fonts, try_except, bind, truetype, load_default, ret.
  destruct (truetype_outcome w "DejaVuSans-Bold.ttf" 48); [eauto|].
  destruct (truetype_outcome w "DejaVuSans-Bold.ttf" 36); [eauto|].
  destruct (truetype_outcome w "DejaVuSans-Bold.ttf" 24); eauto.
Qed.

(** ** Which files a completed run has written *)

Section Emits.
Variable w : world.

Lemma emits_ret {A} (a : A) : emits (ret a) [].
Proof. intros p a' p' E. injection E as <- <-. symmetry. apply app_nil_r. Qed.

Lemma emits_bind {A B} (c : M A) (k : A -> M B) l1 l2 :
  emits c l1 -> (forall a, emits (k a) l2) -> emits (bind c k) (l1 ++ l2).
Proof.
  intros Hc Hk p b p' E. unfold bind in E.
  destruct (c p) as [[a|e] p1] eqn:Ec; [|discriminate].
  rewrite (Hk a _ _ _ E), (Hc _ _ _ Ec). symmetry. apply app_assoc.
Qed.

Lemma emits_as {A} (c : M A) l l' : emits c l' -> l' = l -> emits c l.
Proof. intros H <-. exact H. Qed.

Lemma emits_lift_bind {A B} (r : result A) (k : A -> M B) l :
  (forall a, r = Ok a -> emits (k a) l) -> emits (bind (lift r) k) l.
Proof.
  intros H p b p' E. unfold bind, lift in E.
  destruct r as [a|e]; [|discriminate]. exact (H a eq_refl _ _ _ E).
Qed.

Lemma emits_print s : emits (print w s) [].
Proof.
  intros p a p' E. unfold print in E.
  destruct (if is_ascii s then None else stdout_rejects w s); [discriminate|].
  injection E as _ <-. symmetry. apply app_nil_r.
Qed.

Lemma emits_makedirs d : emits (makedirs w d) [].
Proof.
  intros p a p' E. unfold makedirs in E.
  destruct (mkdir_outcome w d); [discriminate|].
  injection E as _ <-. symmetry. apply app_nil_r.
Qed.

Lemma emits_save path img : emits (save w path img) [path].
Proof.
  intros p a p' E. unfold save in E.
  destruct (save_outcome w path); [discriminate|].
  injection E as _ <-. unfold written. cbn [files]. rewrite map_app. reflexivity.
Qed.

Lemma emits_forM_ {A} (xs : list A) (body : A -> M unit) (f : A -> list string) :
  (forall x, emits (body x) (f x)) -> emits (forM_ xs body) (List.concat (map f xs)).
Proof.
  intros H. induction xs as [|x xs IH]; cbn [forM_ map List.concat].
  - apply emits_ret.
  - apply emits_bind; [apply H|intros _; exact IH].
Qed.

Lemma concat_singletons {A B} (f : A -> B) (xs : list A) :
  List.concat (map (fun x => [f x]) xs) = map f xs.
Proof. induction xs as [|x xs IH]; cbn; [reflexivity|]. rewrite IH. reflexivity. Qed.

Lemma emits_save_frames {A} (xs : list A) frame target :
  emits (Real2.save_frames w xs frame target) (map target xs).
Proof.
  unfold Real2.save_frames. rewrite <- concat_singletons.
  apply emits_forM_. intros x. apply emits_lift_bind. intros img _. apply emits_save.
Qed.

Lemma emits_real2_load_fonts : emits (Real2.load_fonts w) [].
Proof.
  intros p F p' E.
  destruct (real2_load_fonts_returns w p) as [F' E'].
  rewrite E' in E. injection E as _ <-. symmetry. apply app_nil_r.
Qed.

End Emits.

(** One step of a run: split a sequence, or close a primitive statement.
    The statement is matched by its head, never unfolded. *)
Local Ltac emits_step :=
  lazymatch goal with
  | |- emits (print _ _) _ => apply emits_print
  | |- emits (makedirs _ _) _ => apply emits_makedirs
  | |- emits (save _ _ _) _ => apply emits_save
  | |- emits (Real2.save_frames _ _ _ _) _ => apply emits_save_frames
  | |- emits (Real2.load_fonts _) _ => apply emits_real2_load_fonts
  | |- emits (ret _) _ => apply emits_ret
  | |- emits (forM_ _ _) _ => apply emits_forM_; intros ?; emits_step
  | |- emits (bind (lift _) _) _ => apply emits_lift_bind; intros ? _; emits_step
  | |- emits (bind _ _) _ => eapply emits_bind; [emits_step | intros ?; emits_step]
  end.

Lemma emits_save_indicator (w : world) (direction : string) :
  emits (Real2.save_indicator w direction)
    (map (fun i => Real2.path "indicators" (direction ++ "_" ++ str i)) (range 3)).
Proof.
  unfold Real2.save_indicator. apply emits_lift_bind. intros frames E.
  eapply emits_as; [apply emits_save_frames|].
  assert (Len : List.length frames = 3%nat).
  { destruct (mapR_ok (Real2.indicator_frame direction 3) (fun _ => True) (range 3))
      as [ys [Eys [Len _]]].
    - intros x Hx. apply in_range in Hx.
      destruct (brightness_bounds x 3 ltac:(lia) Hx) as [b [Eb _]].
      unfold Real2.indicator_frame. rewrite Eb. cbn [rbind]. eauto.
    - unfold Real2.indicator_animated in E. rewrite Eys in E.
      injection E as <-. exact Len. }
  destruct frames as [|f0 [|f1 [|f2 [|f3 frames]]]]; try discriminate Len.
  reflexivity.
Qed.

Local Ltac emits_step_real2 :=
  lazymatch goal with
  | |- emits (Real2.save_indicator _ _) _ => apply emits_save_indicator
  | |- emits (Real2.temp_bar_enhanced _ _ _ _ _) _ =>
      unfold Real2.temp_bar_enhanced; apply emits_save_frames
  | |- emits (Real2.vi_bar_enhanced _ _ _ _ _ _) _ =>
      unfold Real2.vi_bar_enhanced; apply emits_save_frames
  | |- emits (bind (lift _) _) _ => apply emits_lift_bind; intros ? _; emits_step_real2
  | |- emits (bind _ _) _ =>
      eapply emits_bind; [emits_step_real2 | intros ?; emits_step_real2]
  | |- _ => emits_step
  end.

Lemma emits_script (L : library) (w : world) :
  emits (Real2.script L w) real2_outputs.
Proof.
  unfold Real2.script.
  eapply emits_as; [emits_step_real2|].
  vm_compute. reflexivity.
Qed.

(** ** The flat script runs to its end *)

Lemma truediv_returns (a b bound : Z) :
  b <> 0 -> 0 <= bound ->
  F64.round_pos (bound * F64.one) 1 < F64.out_of_range ->
  Z.abs a <= bound * Z.abs b ->
  exists q, truediv a b = Ok q.
Proof.
  intros Hb Hn Hfin Hle.
  destruct (truediv_ok a b bound Hb Hn Hfin Hle) as [E _]. eauto.
Qed.

Lemma small_quotients_fit :
  F64.round_pos (1 * F64.one) 1 < F64.out_of_range /\
  F64.round_pos (270 * F64.one) 1 < F64.out_of_range.
Proof. split; vm_compute; reflexivity. Qed.

Section FramesReturn.
Variable L : library.
Variable F : Real2.fonts.

(** Both marker loops: every quotient 270 * marker / d is small. *)
Lemma markers_return (d : Z) (ms : list Z) (img : image) :
  0 < d -> (forall m, In m ms -> 0 <= m <= d) ->
  exists img',
    foldR (fun img marker =>
             let* q := truediv (270 * marker) d in
             Ok (Real2.marker_line L img (F64.add (F64.of_int 135) q)))
          ms img = Ok img'.
Proof.
  intros Hd. revert img. induction ms as [|m ms IH]; intros img Hms; cbn [foldR].
  - eauto.
  - destruct (truediv_returns (270 * m) d 270 ltac:(lia) ltac:(lia)
                (proj2 small_quotients_fit)) as [q E].
    { pose proof (Hms m (or_introl eq_refl)). lia. }
    rewrite E. cbn [rbind]. apply IH. intros; apply Hms; right; assumption.
Qed.

Lemma speed_frame_returns (v : Z) :
  0 <= v <= 80 -> exists img, Real2.speed_frame L F v = Ok img.
Proof.
  intros Hv. unfold Real2.speed_frame.
  rewrite (speed_angle_linear v Hv). cbn [rbind].
  match goal with
  | |- context [foldR ?f ?ms ?i] =>
      destruct (markers_return Real2.SPEED_MAX ms i) as [img' E]
  end.
  - reflexivity.
  - unfold Real2.SPEED_MAX. intros m [<-|[<-|[<-|[<-|[<-|[]]]]]]; lia.
  - rewrite E. cbn [rbind]. eauto.
Qed.

Lemma rpm_frame_returns (i : Z) :
  0 <= i < 17 -> exists img, Real2.rpm_frame L F i = Ok img.
Proof.
  intros Hi. unfold Real2.rpm_frame.
  destruct (truediv_returns (270 * i) 16 270 ltac:(lia) ltac:(lia)
              (proj2 small_quotients_fit) ltac:(lia)) as [q E].
  rewrite E. cbn [rbind].
  match goal with
  | |- context [foldR ?f ?ms ?i] => destruct (markers_return 16 ms i) as [img' E']
  end.
  - reflexivity.
  - intros m Hm. apply in_range in Hm. lia.
  - rewrite E'. cbn [rbind]. eauto.
Qed.

Lemma temp_frame_returns (t : Z) :
  0 <= t <= 100 -> exists img, Real2.temp_frame L F t = Ok img.
Proof.
  intros Ht. unfold Real2.temp_frame, Real2.temp_fill_h.
  destruct (truediv_returns t 100 1 ltac:(lia) ltac:(lia)
              (proj1 small_quotients_fit) ltac:(lia)) as [q E].
  rewrite E, (get_temp_color_band t Ht). cbn [rbind]. eauto.
Qed.

Lemma soc_frame_returns (s : Z) :
  0 <= s <= 100 -> exists img, Real2.soc_frame L F s = Ok img.
Proof.
  intros Hs.
  destruct (soc_frame_ops L F s _ (soc_fill_width_table s Hs)) as (img & ? & ? & ? & ? & E & _).
  eauto.
Qed.

Lemma vi_frame_returns (max_val : Z) (unit_ : string) (v : Z) :
  0 < max_val -> 0 <= v <= max_val ->
  exists img, Real2.vi_frame F max_val unit_ v = Ok img.
Proof.
  intros Hm Hv. unfold Real2.vi_frame.
  destruct (truediv_returns v max_val 1 ltac:(lia) ltac:(lia)
              (proj1 small_quotients_fit) ltac:(lia)) as [q E].
  rewrite E. cbn [rbind]. eauto.
Qed.

End FramesReturn.

Lemma indicator_animated_returns (direction : string) (frames : Z) :
  2 <= frames -> exists images, Real2.indicator_animated direction frames = Ok images.
Proof.
  intros Hf. unfold Real2.indicator_animated.
  destruct (mapR_ok (Real2.indicator_frame direction frames) (fun _ => True)
              (range frames)) as [images [E _]]; [|eauto].
  intros frame Hin. apply in_range in Hin.
  destruct (brightness_bounds frame frames Hf Hin) as [b [Eb _]].
  unfold Real2.indicator_frame. rewrite Eb. cbn [rbind]. eauto.
Qed.

Section Completes.
Variable w : world.
Hypothesis Hw : obliging w.

Lemma completes_ret {A} (a : A) : completes (ret a).
Proof. intros p. unfold ret. eauto. Qed.

Lemma completes_bind {A B} (c : M A) (k : A -> M B) :
  completes c -> (forall a, completes (k a)) -> completes (bind c k).
Proof.
  intros Hc Hk p. destruct (Hc p) as (a & p1 & E).
  destruct (Hk a p1) as (b & p2 & E'). unfold bind. rewrite E. eauto.
Qed.

Lemma completes_lift_bind {A B} (r : result A) (k : A -> M B) :
  (exists a, r = Ok a /\ completes (k a)) -> completes (bind (lift r) k).
Proof.
  intros (a & -> & Hk) p. destruct (Hk p) as (b & p' & E).
  unfold bind, lift. eauto.
Qed.

Lemma completes_print s : is_ascii s = true -> completes (print w s).
Proof. intros A p. unfold print. rewrite A. eauto. Qed.

Lemma completes_makedirs d : completes (makedirs w d).
Proof. intros p. unfold makedirs. rewrite (proj1 Hw d). eauto. Qed.

Lemma completes_save path img : completes (save w path img).
Proof. intros p. unfold save. rewrite (proj2 Hw path). eauto. Qed.

Lemma completes_forM_ {A} (xs : list A) (body : A -> M unit) :
  (forall x, In x xs -> completes (body x)) -> completes (forM_ xs body).
Proof.
  induction xs as [|x xs IH]; intros H; cbn [forM_].
  - apply completes_ret.
  - apply completes_bind; [apply H; left; reflexivity|].
    intros _. apply IH. intros; apply H; right; assumption.
Qed.

Lemma completes_save_frames {A} (xs : list A) frame target :
  (forall x, In x xs -> exists img, frame x = Ok img) ->
  completes (Real2.save_frames w xs frame target).
Proof.
  intros H. unfold Real2.save_frames. apply completes_forM_. intros x Hx.
  destruct (H x Hx) as [img E]. apply completes_lift_bind.
  exists img. split; [exact E|apply completes_save].
Qed.

Lemma completes_real2_load_fonts : completes (Real2.load_fonts w).
Proof.
  intros p. destruct (real2_load_fonts_returns w p) as [F E]. eauto.
Qed.

Lemma completes_save_indicator (direction : string) :
  completes (Real2.save_indicator w direction).
Proof.
  unfold Real2.save_indicator.
  destruct (indicator_animated_returns direction 3 ltac:(lia)) as (images & E).
  apply completes_lift_bind. exists images. split; [exact E|].
  apply completes_save_frames. intros [i frame] _. eauto.
Qed.

(** The flat script completes on every machine that lets it write: no
    division of it raises. *)
Lemma script_completes (L : library) : completes (Real2.script L w).
Proof.
  unfold Real2.script, Real2.temp_bar_enhanced, Real2.vi_bar_enhanced.
  apply completes_bind; [apply completes_forM_; intros; apply completes_makedirs|intros _].
  apply completes_bind; [apply completes_real2_load_fonts|intros F].
  repeat lazymatch goal with
  | |- completes (bind (print _ _) _) =>
      apply completes_bind; [apply completes_print; reflexivity|intros _]
  | |- completes (print _ _) => apply completes_print; reflexivity
  | |- completes (bind (save _ _ _) _) =>
      apply completes_bind; [apply completes_save|intros _]
  | |- completes (bind (Real2.save_indicator _ _) _) =>
      apply completes_bind; [apply completes_save_indicator|intros _]
  | |- completes (bind (lift (Real2.first_frame _)) _) =>
      apply completes_lift_bind; eexists; split; [reflexivity|]
  | |- completes (bind (Real2.save_frames _ _ _ _) _) =>
      apply completes_bind; [apply completes_save_frames|intros _]
  | |- completes (Real2.save_frames _ _ _ _) => apply completes_save_frames
  end.
  - intros v Hv. apply in_range in Hv. apply speed_frame_returns.
    unfold Real2.SPEED_MAX in Hv. lia.
  - intros i Hi. apply in_range in Hi. apply rpm_frame_returns. lia.
  - intros t Ht. apply in_range in Ht. apply temp_frame_returns. lia.
  - intros t Ht. apply in_range in Ht. apply temp_frame_returns. lia.
  - intros t Ht. apply in_range in Ht. apply temp_frame_returns. lia.
  - intros t Ht. apply in_range in Ht. apply soc_frame_returns. lia.
  - intros v Hv. apply in_range in Hv. apply vi_frame_returns; lia.
  - intros v Hv. apply in_range in Hv. apply vi_frame_returns; lia.
  - intros [i frame] _. eauto.
  - intros [name [c symbol]] _. eauto.
Qed.

End Completes.

(** ** The listed output files *)

Lemma distinct_NoDup (l : list string) : distinct l = true -> NoDup l.
Proof.
  induction l as [|x l IH]; cbn [distinct]; intros H; constructor.
  - apply andb_prop in H. destruct H as [H _].
    intros Hin. apply negb_true_iff in H.
    assert (existsb (String.eqb x) l = true); [|congruence].
    apply existsb_exists. exists x. split; [exact Hin|apply String.eqb_refl].
  - apply IH. apply andb_prop in H. apply H.
Qed.

Lemma quiet_world_obliging : obliging quiet_world.
Proof. split; intros; reflexivity. Qed.

(** C1: after a completed run of real2.py the written paths are the listed
    ones, each once, all under [dgus_assets/]: one speed frame per integer
    0..80, named by the value zero-padded to three digits ([000.png] to
    [080.png]), 17 RPM frames, 101 frames in each temperature folder, 101
    state-of-charge frames, 101 battery and 151 motor voltage/current
    frames, 5 charging images, 8 indicator images and 5 warning icons. *)
Theorem real2_writes_every_listed_file (L : library) (w : world) (p : proc) :
  Real2.script L w boot = (Ok tt, p) ->
  written p = real2_outputs /\
  NoDup (written p) /\
  Forall (fun f => starts_with "dgus_assets/" f = true) (written p) /\
  (forall v, 0 <= v <= 80 ->
     In ("dgus_assets/speed/" ++ format0 3 v ++ ".png")%string (written p)) /\
  listing p "dgus_assets/speed" = frame_names "speed" 3 81 /\
  format0 3 0 = "000" /\ format0 3 7 = "007" /\ format0 3 80 = "080" /\
  List.length (listing p "dgus_assets/speed") = 81%nat /\
  List.length (listing p "dgus_assets/rpm") = 17%nat /\
  List.length (listing p "dgus_assets/temp_motor") = 101%nat /\
  List.length (listing p "dgus_assets/temp_controller") = 101%nat /\
  List.length (listing p "dgus_assets/temp_battery") = 101%nat /\
  List.length (listing p "dgus_assets/soc") = 101%nat /\
  List.length (listing p "dgus_assets/battery_vi") = 101%nat /\
  List.length (listing p "dgus_assets/motor_vi") = 151%nat /\
  List.length (listing p "dgus_assets/charging") = 5%nat /\
  List.length (listing p "dgus_assets/indicators") = 8%nat /\
  List.length (listing p "dgus_assets/warnings") = 5%nat.
Proof.
  intros Run.
  assert (W : written p = real2_outputs) by exact (emits_script L w boot tt p Run).
  unfold listing. rewrite W.
  split; [reflexivity|].
  split; [apply distinct_NoDup; vm_compute; reflexivity|].
  split; [apply Forall_forall; apply forallb_forall with
            (f := starts_with "dgus_assets/"); vm_compute; reflexivity|].
  split.
  { intros v Hv. unfold real2_outputs. apply in_or_app. left.
    unfold frame_names. apply in_map_iff. exists v.
    split; [reflexivity|apply in_range; lia]. }
  repeat split; vm_compute; reflexivity.
Qed.

Lemma real2_writes_every_listed_file_witness :
  exists p, Real2.script sample_library quiet_world boot = (Ok tt, p) /\
            written p = real2_outputs /\
            List.length (listing p "dgus_assets/speed") = 81%nat.
Proof.
  destruct (script_completes quiet_world quiet_world_obliging sample_library boot)
    as ([] & p & Run).
  exists p. split; [exact Run|].
  destruct (real2_writes_every_listed_file sample_library quiet_world p Run)
    as (W & _ & _ & _ & _ & _ & _ & _ & N & _).
  split; [exact W|exact N].
Defined.

(** ** Canvas sizes *)

Lemma Ok_inj {A} (a b : A) : Ok a = Ok b -> a = b.
Proof. intros H. congruence. Qed.

Lemma size_draw (img : image) (op : draw_op) : size (draw img op) = size img.
Proof. reflexivity. Qed.

Lemma foldR_size {A} (body : image -> A -> result image) (l : list A) :
  (forall img x img', body img x = Ok img' -> size img' = size img) ->
  forall img img', foldR body l img = Ok img' -> size img' = size img.
Proof.
  intros H. induction l as [|x l IH]; cbn [foldR]; intros img img' E.
  - apply Ok_inj in E. subst img'. reflexivity.
  - destruct (body img x) as [img1|] eqn:E1; [|discriminate]. cbn [rbind] in E.
    rewrite (IH _ _ E). exact (H _ _ _ E1).
Qed.

Lemma fold_left_size {A} (body : image -> A -> image) (l : list A) :
  (forall img x, size (body img x) = size img) ->
  forall img, size (fold_left body l img) = size img.
Proof.
  intros H. induction l as [|x l IH]; cbn [fold_left]; intros img.
  - reflexivity.
  - rewrite IH. apply H.
Qed.

Section FrameSizes.
Variable L : library.
Variable F : Real2.fonts.

Lemma marker_loop_size (d : Z) (ms : list Z) (img img' : image) :
  foldR (fun img marker =>
           let* q := truediv (270 * marker) d in
           Ok (Real2.marker_line L img (F64.add (F64.of_int 135) q)))
        ms img = Ok img' ->
  size img' = size img.
Proof.
  apply foldR_size. intros i m i' E.
  destruct (truediv (270 * m) d); [|discriminate].
  cbn [rbind] in E. apply Ok_inj in E. subst i'. reflexivity.
Qed.

Lemma speed_frame_size (v : Z) (img : image) :
  Real2.speed_frame L F v = Ok img -> size img = (Real2.WIDTH, Real2.HEIGHT).
Proof.
  unfold Real2.speed_frame. destruct (Real2.speed_angle v); [|discriminate].
  cbn [rbind].
  match goal with |- context [foldR ?f ?ms ?i] => destruct (foldR f ms i) eqn:E end;
    [|discriminate].
  cbn [rbind]. intros H. apply Ok_inj in H. subst img.
  rewrite !size_draw. rewrite (marker_loop_size _ _ _ _ E). reflexivity.
Qed.

Lemma rpm_frame_size (i : Z) (img : image) :
  Real2.rpm_frame L F i = Ok img -> size img = (Real2.WIDTH, Real2.HEIGHT).
Proof.
  unfold Real2.rpm_frame. destruct (truediv (270 * i) 16); [|discriminate].
  cbn [rbind].
  match goal with |- context [foldR ?f ?ms ?i] => destruct (foldR f ms i) eqn:E end;
    [|discriminate].
  cbn [rbind]. intros H. apply Ok_inj in H. subst img.
  rewrite !size_draw. rewrite (marker_loop_size _ _ _ _ E). reflexivity.
Qed.

Lemma temp_frame_size (t : Z) (img : image) :
  Real2.temp_frame L F t = Ok img -> size img = (80, 220).
Proof.
  unfold Real2.temp_frame. destruct (Real2.temp_fill_h t) as [fill_h|]; [|discriminate].
  cbn [rbind]. destruct (Real2.get_temp_color t 100); [|discriminate].
  cbn [rbind]. intros H. apply Ok_inj in H. subst img.
  rewrite size_draw, fold_left_size by (intros; reflexivity).
  destruct (0 <? fill_h); reflexivity.
Qed.

Lemma soc_frame_size (s : Z) (img : image) :
  Real2.soc_frame L F s = Ok img -> size img = (240, 80).
Proof.
  unfold Real2.soc_frame. destruct (Real2.soc_fill_width s) as [fw|]; [|discriminate].
  cbn [rbind]. intros H. apply Ok_inj in H. subst img.
  rewrite size_draw. destruct (0 <? fw); reflexivity.
Qed.

End FrameSizes.

Section KeepsSized.
Variable w : world.

Lemma keeps_ret {A} (a : A) : keeps_sized (ret a).
Proof. intros p r p' H E. unfold ret in E. congruence. Qed.

Lemma keeps_lift {A} (r : result A) : keeps_sized (lift r).
Proof. intros p r' p' H E. unfold lift in E. congruence. Qed.

Lemma keeps_bind {A B} (c : M A) (k : A -> M B) :
  keeps_sized c -> (forall a, keeps_sized (k a)) -> keeps_sized (bind c k).
Proof.
  intros Hc Hk p r p' H E. unfold bind in E.
  destruct (c p) as [[a|e] p1] eqn:Ec.
  - exact (Hk a p1 r p' (Hc _ _ _ H Ec) E).
  - assert (p' = p1) by congruence. subst p'. exact (Hc _ _ _ H Ec).
Qed.

Lemma keeps_try_except {A} (c : M A) classes h :
  keeps_sized c -> (forall e, keeps_sized (h e)) -> keeps_sized (try_except c classes h).
Proof.
  intros Hc Hh p r p' H E. unfold try_except in E.
  destruct (c p) as [[a|e] p1] eqn:Ec.
  - assert (p' = p1) by congruence. subst p'. exact (Hc _ _ _ H Ec).
  - destruct (classes e).
    + exact (Hh e p1 r p' (Hc _ _ _ H Ec) E).
    + assert (p' = p1) by congruence. subst p'. exact (Hc _ _ _ H Ec).
Qed.

Lemma keeps_try_except2 {A} (c : M A) classes1 h1 classes2 h2 :
  keeps_sized c -> (forall e, keeps_sized (h1 e)) -> (forall e, keeps_sized (h2 e)) ->
  keeps_sized (try_except2 c classes1 h1 classes2 h2).
Proof.
  intros Hc H1 H2 p r p' H E. unfold try_except2 in E.
  destruct (c p) as [[a|e] p1] eqn:Ec.
  - assert (p' = p1) by congruence. subst p'. exact (Hc _ _ _ H Ec).
  - destruct (classes1 e); [exact (H1 e p1 r p' (Hc _ _ _ H Ec) E)|].
    destruct (classes2 e); [exact (H2 e p1 r p' (Hc _ _ _ H Ec) E)|].
    assert (p' = p1) by congruence. subst p'. exact (Hc _ _ _ H Ec).
Qed.

Lemma keeps_print s : keeps_sized (print w s).
Proof.
  intros p r p' H E. unfold print in E.
  assert (files p' = files p)
    by (destruct (if is_ascii s then None else stdout_rejects w s);
        inversion E; reflexivity).
  unfold sized in *. congruence.
Qed.

Lemma keeps_print_stderr s : keeps_sized (print_stderr s).
Proof.
  intros p r p' H E. unfold print_stderr in E.
  assert (files p' = files p) by (inversion E; reflexivity).
  unfold sized in *. congruence.
Qed.

Lemma keeps_makedirs d : keeps_sized (makedirs w d).
Proof.
  intros p r p' H E. unfold makedirs in E.
  assert (files p' = files p)
    by (destruct (mkdir_outcome w d); inversion E; reflexivity).
  unfold sized in *. congruence.
Qed.

Lemma keeps_truetype name sz : keeps_sized (truetype w name sz).
Proof.
  intros p r p' H E. unfold truetype in E.
  assert (p' = p) by (destruct (truetype_outcome w name sz); congruence).
  subst p'. exact H.
Qed.

Lemma keeps_save path img : well_sized (path, img) -> keeps_sized (save w path img).
Proof.
  intros Hs p r p' H E. unfold save in E.
  destruct (save_outcome w path).
  - assert (p' = p) by congruence. subst p'. exact H.
  - assert (Ef : files p' = (files p ++ [(path, img)])%list)
      by (apply (f_equal snd) in E; cbn [snd] in E; subst p'; reflexivity).
    unfold sized. rewrite Ef. apply Forall_app. split; [exact H|].
    constructor; [exact Hs|constructor].
Qed.

Lemma keeps_forM_ {A} (xs : list A) (body : A -> M unit) :
  (forall x, keeps_sized (body x)) -> keeps_sized (forM_ xs body).
Proof.
  intros H. induction xs as [|x xs IH]; cbn [forM_].
  - apply keeps_ret.
  - apply keeps_bind; [apply H|intros _; exact IH].
Qed.

Lemma keeps_lift_bind {A B} (r : result A) (k : A -> M B) :
  (forall a, r = Ok a -> keeps_sized (k a)) -> keeps_sized (bind (lift r) k).
Proof.
  intros H p r' p' Hp E. unfold bind, lift in E.
  destruct r as [a|e].
  - exact (H a eq_refl p r' p' Hp E).
  - assert (p' = p) by congruence. subst p'. exact Hp.
Qed.

Lemma keeps_save_frames {A} (xs : list A) frame target :
  (forall x img, frame x = Ok img -> well_sized (target x, img)) ->
  keeps_sized (Real2.save_frames w xs frame target).
Proof.
  intros H. unfold Real2.save_frames. apply keeps_forM_. intros x.
  apply keeps_lift_bind. intros img E. apply keeps_save. exact (H x img E).
Qed.

(** A path of a folder that has no declared canvas. *)
Lemma undeclared_folder (path : string) (img : image) :
  declared_size path = None -> well_sized (path, img).
Proof. intros E. unfold well_sized. cbn [fst]. rewrite E. exact I. Qed.

Lemma declared_folder (path : string) (img : image) (sz : Z * Z) :
  declared_size path = Some sz -> size img = sz -> well_sized (path, img).
Proof. intros E Es. unfold well_sized. cbn [fst snd]. rewrite E. exact Es. Qed.

End KeepsSized.

(** One step through a statement, matched by its head. *)
Local Ltac keeps_step :=
  lazymatch goal with
  | |- keeps_sized (print _ _) => apply keeps_print
  | |- keeps_sized (print_stderr _) => apply keeps_print_stderr
  | |- keeps_sized (makedirs _ _) => apply keeps_makedirs
  | |- keeps_sized (truetype _ _ _) => apply keeps_truetype
  | |- keeps_sized load_default => apply keeps_ret
  | |- keeps_sized (ret _) => apply keeps_ret
  | |- keeps_sized (lift _) => apply keeps_lift
  | |- keeps_sized (save _ _ _) => apply keeps_save
  | |- keeps_sized (Real2.save_frames _ _ _ _) => apply keeps_save_frames
  | |- keeps_sized (forM_ _ _) => apply keeps_forM_; intros ?
  | |- keeps_sized (try_except _ _ _) => apply keeps_try_except; [|intros ?]
  | |- keeps_sized (try_except2 _ _ _ _ _) =>
      apply keeps_try_except2; [|intros ?|intros ?]
  | |- keeps_sized (bind (lift _) _) => apply keeps_lift_bind; intros ? ?
  | |- keeps_sized (bind _ _) => apply keeps_bind; [|intros ?]
  end.

(** Closing the side conditions of the saves: the path decides the
    declared canvas, the frame lemmas give the size. *)
Local Ltac canvas_side :=
  lazymatch goal with
  | |- forall (x : Z) (img : image), Real2.speed_frame _ _ _ = _ -> _ =>
      intros x img E; apply (declared_folder _ _ (Real2.WIDTH, Real2.HEIGHT));
      [reflexivity | exact (speed_frame_size _ _ _ _ E)]
  | |- forall (x : Z) (img : image), Real2.rpm_frame _ _ _ = _ -> _ =>
      intros x img E; apply (declared_folder _ _ (Real2.WIDTH, Real2.HEIGHT));
      [reflexivity | exact (rpm_frame_size _ _ _ _ E)]
  | |- forall (x : Z) (img : image), Real2.temp_frame _ _ _ = _ -> _ =>
      intros x img E; apply (declared_folder _ _ (80, 220));
      [reflexivity | exact (temp_frame_size _ _ _ _ E)]
  | |- forall (x : Z) (img : image), Real2.soc_frame _ _ _ = _ -> _ =>
      intros x img E; apply (declared_folder _ _ (240, 80));
      [reflexivity | exact (soc_frame_size _ _ _ _ E)]
  | |- forall (x : Z * image) (img : image), _ =>
      intros [i frame] img _; apply undeclared_folder; reflexivity
  | |- forall (x : string * (color * string)) (img : image), _ =>
      intros [name [c symbol]] img _; apply undeclared_folder; reflexivity
  | |- _ => intros; apply undeclared_folder; reflexivity
  end.

Lemma keeps_real2_script (L : library) (w : world) : keeps_sized (Real2.script L w).
Proof.
  unfold Real2.script, Real2.temp_bar_enhanced, Real2.vi_bar_enhanced,
    Real2.save_indicator, Real2.load_fonts.
  repeat keeps_step.
  all: canvas_side.
Qed.

Lemma keeps_try_main (w : world) : keeps_sized (TryPy.main w).
Proof.
  unfold TryPy.main, TryPy.new_AssetGenerator, TryPy._create_directories,
    TryPy._load_fonts, TryPy.generate_all, TryPy.generation_pass,
    TryPy.create_background, TryPy.create_labels, TryPy._create_label,
    TryPy.create_indicators, TryPy.create_warnings, TryPy.create_bars,
    TryPy._create_temp_bars, TryPy._create_soc_bars, TryPy.create_charging_icons,
    TryPy._print_summary.
  repeat keeps_step.
  - apply (declared_folder _ _ (TryPy.CANVAS_WIDTH, TryPy.CANVAS_HEIGHT)); reflexivity.
  - apply undeclared_folder; reflexivity.
  - apply undeclared_folder; reflexivity.
  - apply undeclared_folder; reflexivity.
  - apply undeclared_folder; reflexivity.
  - apply undeclared_folder; reflexivity.
  - apply undeclared_folder; reflexivity.
Qed.

Lemma sized_boot : sized boot.
Proof. constructor. Qed.

Lemma sized_after {A} (c : M A) : keeps_sized c -> sized (snd (c boot)).
Proof.
  intros K.
  exact (K boot (fst (c boot)) (snd (c boot)) sized_boot (surjective_pairing _)).
Qed.

(** Two prefixes of one string: one of them is a prefix of the other. *)
Lemma starts_with_both (pre1 pre2 s : string) :
  starts_with pre1 s = true -> starts_with pre2 s = true ->
  starts_with pre1 pre2 = true \/ starts_with pre2 pre1 = true.
Proof.
  revert pre2 s. induction pre1 as [|a pre1 IH]; intros pre2 s H1 H2.
  - left. reflexivity.
  - destruct pre2 as [|b pre2]; [right; reflexivity|].
    destruct s as [|c s]; [discriminate H1|].
    cbn [starts_with] in *.
    apply andb_prop in H1. destruct H1 as [A1 R1].
    apply andb_prop in H2. destruct H2 as [A2 R2].
    apply Ascii.eqb_eq in A1. apply Ascii.eqb_eq in A2. subst a b.
    rewrite !Ascii.eqb_refl. cbn [andb]. exact (IH _ _ R1 R2).
Qed.

(** A path in one folder is in no other: knowing its folder [P] decides
    every test of the declared size [S]. *)
Local Ltac settle_folder S P :=
  repeat match type of S with
         | context [starts_with ?pre ?path] =>
             first
               [ rewrite P in S; cbv iota in S
               | let Q := fresh "Q" in
                 let E := fresh "E" in
                 assert (Q : starts_with pre path = false)
                   by (destruct (starts_with pre path) eqn:E;
                       [ exfalso; destruct (starts_with_both _ _ _ P E) as [C|C];
                         vm_compute in C; discriminate C
                       | reflexivity ]);
                 rewrite Q in S; cbv iota in S ]
         end.


(** ** Runs depend on the fonts only *)

Section Alike.
Variables w1 w2 : world.

Lemma alike_ret {A} (a : A) : alike (ret a) (ret a).
Proof.
  intros p1 p2 a1 a2 p1' p2' Hf E1 E2. unfold ret in *.
  split; congruence.
Qed.

Lemma alike_lift {A} (r : result A) : alike (lift r) (lift r).
Proof.
  intros p1 p2 a1 a2 p1' p2' Hf E1 E2. unfold lift in *.
  split; congruence.
Qed.

Lemma alike_bind {A B} (c1 c2 : M A) (k1 k2 : A -> M B) :
  alike c1 c2 -> (forall a, alike (k1 a) (k2 a)) -> alike (bind c1 k1) (bind c2 k2).
Proof.
  intros Hc Hk p1 p2 b1 b2 p1' p2' Hf E1 E2. unfold bind in E1, E2.
  destruct (c1 p1) as [[a1|e1] q1] eqn:C1; [|discriminate].
  destruct (c2 p2) as [[a2|e2] q2] eqn:C2; [|discriminate].
  destruct (Hc _ _ _ _ _ _ Hf C1 C2) as [<- Hq].
  exact (Hk a1 _ _ _ _ _ _ Hq E1 E2).
Qed.

(** What is printed does not matter. *)
Lemma alike_print s1 s2 : alike (print w1 s1) (print w2 s2).
Proof.
  intros p1 p2 [] [] p1' p2' Hf E1 E2. unfold print in *.
  destruct (if is_ascii s1 then None else stdout_rejects w1 s1); [discriminate|].
  destruct (if is_ascii s2 then None else stdout_rejects w2 s2); [discriminate|].
  split; [reflexivity|].
  apply (f_equal snd) in E1. apply (f_equal snd) in E2. cbn [snd] in *.
  subst p1' p2'. exact Hf.
Qed.

Lemma alike_makedirs d1 d2 : alike (makedirs w1 d1) (makedirs w2 d2).
Proof.
  intros p1 p2 [] [] p1' p2' Hf E1 E2. unfold makedirs in *.
  destruct (mkdir_outcome w1 d1); [discriminate|].
  destruct (mkdir_outcome w2 d2); [discriminate|].
  split; [reflexivity|].
  apply (f_equal snd) in E1. apply (f_equal snd) in E2. cbn [snd] in *.
  subst p1' p2'. exact Hf.
Qed.

Lemma alike_save path img : alike (save w1 path img) (save w2 path img).
Proof.
  intros p1 p2 [] [] p1' p2' Hf E1 E2. unfold save in *.
  destruct (save_outcome w1 path); [discriminate|].
  destruct (save_outcome w2 path); [discriminate|].
  split; [reflexivity|].
  apply (f_equal snd) in E1. apply (f_equal snd) in E2. cbn [snd] in *.
  subst p1' p2'. cbn [files]. rewrite Hf. reflexivity.
Qed.

Lemma alike_forM_ {A} (xs : list A) (body1 body2 : A -> M unit) :
  (forall x, alike (body1 x) (body2 x)) -> alike (forM_ xs body1) (forM_ xs body2).
Proof.
  intros H. induction xs as [|x xs IH]; cbn [forM_].
  - apply alike_ret.
  - apply alike_bind; [apply H|intros _; exact IH].
Qed.

Lemma alike_save_frames {A} (xs : list A) frame target :
  alike (Real2.save_frames w1 xs frame target) (Real2.save_frames w2 xs frame target).
Proof.
  unfold Real2.save_frames. apply alike_forM_. intros x.
  apply alike_bind; [apply alike_lift|]. intros img. apply alike_save.
Qed.

Hypothesis Hfonts : same_fonts w1 w2.

Lemma alike_truetype name sz : alike (truetype w1 name sz) (truetype w2 name sz).
Proof.
  intros p1 p2 a1 a2 p1' p2' Hf E1 E2. unfold truetype in *.
  rewrite <- (Hfonts name sz) in E2.
  destruct (truetype_outcome w1 name sz); [discriminate|].
  split; congruence.
Qed.

(** With the same font files, both runs end up with the same handles. *)
Lemma alike_real2_load_fonts : alike (Real2.load_fonts w1) (Real2.load_fonts w2).
Proof.
  intros p1 p2 F1 F2 p1' p2' Hf E1 E2.
  unfold Real2.load_fonts, try_except, bind, truetype, load_default, ret in E1, E2.
  rewrite <- !Hfonts in E2.
  destruct (truetype_outcome w1 "DejaVuSans-Bold.ttf" 48);
    [split; congruence|].
  destruct (truetype_outcome w1 "DejaVuSans-Bold.ttf" 36);
    [split; congruence|].
  destruct (truetype_outcome w1 "DejaVuSans-Bold.ttf" 24);
    split; congruence.
Qed.

Lemma alike_try_load_fonts : alike (TryPy._load_fonts w1) (TryPy._load_fonts w2).
Proof.
  intros p1 p2 G1 G2 p1' p2' Hf E1 E2.
  unfold TryPy._load_fonts, try_except, bind, truetype, load_default, ret, print
    in E1, E2.
  rewrite <- !Hfonts in E2.
  destruct (truetype_outcome w1 TryPy.FONT_NAME TryPy.FONT_SIZE_BIG) as [e|].
  { destruct (is_OSError e); [|discriminate].
    settle_ascii E1. settle_ascii E2.
    apply (f_equal (fun x => (fst x, files (snd x)))) in E1.
    apply (f_equal (fun x => (fst x, files (snd x)))) in E2.
    cbn [fst snd files] in E1, E2. split; congruence. }
  destruct (truetype_outcome w1 TryPy.FONT_NAME TryPy.FONT_SIZE_MED) as [e|].
  { destruct (is_OSError e); [|discriminate].
    settle_ascii E1. settle_ascii E2.
    apply (f_equal (fun x => (fst x, files (snd x)))) in E1.
    apply (f_equal (fun x => (fst x, files (snd x)))) in E2.
    cbn [fst snd files] in E1, E2. split; congruence. }
  settle_ascii E1. settle_ascii E2.
  apply (f_equal (fun x => (fst x, files (snd x)))) in E1.
  apply (f_equal (fun x => (fst x, files (snd x)))) in E2.
  cbn [fst snd files] in E1, E2. split; congruence.
Qed.

End Alike.

Local Ltac alike_step H :=
  lazymatch goal with
  | |- alike (print _ _) (print _ _) => apply alike_print
  | |- alike (makedirs _ _) (makedirs _ _) => apply alike_makedirs
  | |- alike (save _ _ _) (save _ _ _) => apply alike_save
  | |- alike (Real2.save_frames _ _ _ _) (Real2.save_frames _ _ _ _) =>
      apply alike_save_frames
  | |- alike (Real2.load_fonts _) (Real2.load_fonts _) =>
      apply alike_real2_load_fonts; exact H
  | |- alike (TryPy._load_fonts _) (TryPy._load_fonts _) =>
      apply alike_try_load_fonts; exact H
  | |- alike (ret _) (ret _) => apply alike_ret
  | |- alike (lift _) (lift _) => apply alike_lift
  | |- alike (forM_ _ _) (forM_ _ _) => apply alike_forM_; intros ?
  | |- alike (bind _ _) (bind _ _) => apply alike_bind; [|intros ?]
  end.

Lemma alike_real2_script (L : library) (w1 w2 : world) :
  same_fonts w1 w2 -> alike (Real2.script L w1) (Real2.script L w2).
Proof.
  intros H.
  unfold Real2.script, Real2.temp_bar_enhanced, Real2.vi_bar_enhanced,
    Real2.save_indicator.
  repeat alike_step H.
Qed.

Lemma alike_new_AssetGenerator (w1 w2 : world) :
  same_fonts w1 w2 -> alike (TryPy.new_AssetGenerator w1) (TryPy.new_AssetGenerator w2).
Proof.
  intros H. unfold TryPy.new_AssetGenerator, TryPy._create_directories.
  repeat alike_step H.
Qed.

Lemma alike_generation_pass (w1 w2 : world) (G : TryPy.AssetGenerator) :
  alike (TryPy.generation_pass w1 G) (TryPy.generation_pass w2 G).
Proof.
  unfold TryPy.generation_pass,
    TryPy.create_background, TryPy.create_labels, TryPy._create_label,
    TryPy.create_indicators, TryPy.create_warnings, TryPy.create_bars,
    TryPy._create_temp_bars, TryPy._create_soc_bars, TryPy.create_charging_icons,
    TryPy._print_summary.
  repeat alike_step I.
Qed.

(** A run of try.py that exits with status 0 built its generator and went
    through the whole generation pass. *)
Lemma main_exit_0 (w : world) (p : proc) :
  TryPy.main w boot = (Ok 0, p) ->
  exists G p0, TryPy.new_AssetGenerator w boot = (Ok G, p0) /\
               TryPy.generation_pass w G p0 = (Ok tt, p).
Proof.
  unfold TryPy.main, try_except2, bind at 1 2.
  destruct (TryPy.new_AssetGenerator w boot) as [[G|e] p0] eqn:N.
  - unfold TryPy.generate_all, try_except, bind, ret, print_stderr, print.
    destruct (TryPy.generation_pass w G p0) as [[[]|e] p1] eqn:P.
    + intros E. exists G, p0. split; [reflexivity|]. congruence.
    + destruct (is_Exception e) eqn:C.
      * intros E. discriminate E.
      * rewrite C.
        destruct (is_KeyboardInterrupt e); [destruct (if is_ascii _ then _ else _)|];
          intros E; discriminate E.
  - unfold ret, print, print_stderr.
    destruct (is_KeyboardInterrupt e).
    { destruct (if is_ascii _ then _ else _); intros E; discriminate E. }
    destruct (is_Exception e); intros E; discriminate E.
Qed.

(** C7: the generators read no input.  Two completed runs on machines whose
    font files load alike write the same files with the same images, that
    is the same colours, angles, fill widths, file names and texts, whatever
    the arguments, the environment, the standard input and the working
    directory are. *)
Theorem runs_depend_on_fonts_only (L : library) (w1 w2 : world) :
  same_fonts w1 w2 ->
  (forall p1 p2, Real2.script L w1 boot = (Ok tt, p1) ->
                 Real2.script L w2 boot = (Ok tt, p2) ->
                 files p1 = files p2) /\
  (forall q1 q2, TryPy.main w1 boot = (Ok 0, q1) ->
                 TryPy.main w2 boot = (Ok 0, q2) ->
                 files q1 = files q2).
Proof.
  intros H. split.
  - intros p1 p2 E1 E2.
    exact (proj2 (alike_real2_script L w1 w2 H _ _ _ _ _ _ eq_refl E1 E2)).
  - intros q1 q2 E1 E2.
    destruct (main_exit_0 w1 q1 E1) as (G1 & a1 & N1 & P1).
    destruct (main_exit_0 w2 q2 E2) as (G2 & a2 & N2 & P2).
    destruct (alike_new_AssetGenerator w1 w2 H _ _ _ _ _ _ eq_refl N1 N2) as [<- Ha].
    exact (proj2 (alike_generation_pass w1 w2 G1 _ _ _ _ _ _ Ha P1 P2)).
Qed.

Lemma noisy_world_obliging : obliging noisy_world.
Proof. split; intros; reflexivity. Qed.

Lemma runs_depend_on_fonts_only_witness :
  same_fonts quiet_world noisy_world /\
  argv quiet_world <> argv noisy_world /\
  cwd quiet_world <> cwd noisy_world /\
  (exists p1 p2,
     Real2.script sample_library quiet_world boot = (Ok tt, p1) /\
     Real2.script sample_library noisy_world boot = (Ok tt, p2) /\
     files p1 = files p2) /\
  files (snd (TryPy.main quiet_world boot)) = files (snd (TryPy.main noisy_world boot)).
Proof.
  assert (H : same_fonts quiet_world noisy_world) by (intros name sz; reflexivity).
  destruct (runs_depend_on_fonts_only sample_library quiet_world noisy_world H)
    as [R T].
  split; [exact H|]. split; [discriminate|]. split; [discriminate|]. split.
  - destruct (script_completes quiet_world quiet_world_obliging sample_library boot)
      as ([] & p1 & E1).
    destruct (script_completes noisy_world noisy_world_obliging sample_library boot)
      as ([] & p2 & E2).
    exists p1, p2. split; [exact E1|]. split; [exact E2|]. exact (R p1 p2 E1 E2).
  - apply T; vm_compute; reflexivity.
Defined.

(** * Further properties of the scripts *)

(** ** Exact quotients *)

Lemma truediv_zero (b : Z) : b <> 0 -> truediv 0 b = Ok 0.
Proof.
  intros Hb. unfold truediv.
  replace (b =? 0) with false by (symmetry; apply Z.eqb_neq; assumption).
  change (Z.abs 0 * F64.one) with 0.
  rewrite round_pos_zero by lia.
  replace (F64.out_of_range <=? 0) with false by reflexivity.
  reflexivity.
Qed.

(** [d / d] is exactly 1.0. *)
Lemma truediv_self (d : Z) : 0 < d -> truediv d d = Ok F64.one.
Proof.
  intros Hd. unfold truediv.
  replace (d =? 0) with false by (symmetry; apply Z.eqb_neq; lia).
  rewrite Z.abs_eq, Z.sgn_pos by lia.
  assert (R : F64.round_pos (d * F64.one) d = F64.one).
  { unfold F64.round_pos.
    rewrite (Z.mul_comm d F64.one), Z.div_mul by lia.
    replace (Z.max 0 (Z.log2 F64.one - 52)) with 1022 by (vm_compute; reflexivity).
    replace (F64.one * d) with (2 ^ 52 * (d * 2 ^ 1022)).
    - rewrite rne_exact; [vm_compute; reflexivity|].
      apply Z.mul_pos_pos; [lia|reflexivity].
    - replace F64.one with (2 ^ 52 * 2 ^ 1022) by (vm_compute; reflexivity).
      rewrite <- !Z.mul_assoc. f_equal. apply Z.mul_comm. }
  rewrite R.
  replace (F64.out_of_range <=? F64.one) with false by (vm_compute; reflexivity).
  reflexivity.
Qed.

(** A ratio [v / d] with [0 <= v <= d] is a float in [0, 1], and it grows
    with [v]. *)
Lemma unit_ratio (v d : Z) :
  0 < d -> 0 <= v <= d ->
  exists q, truediv v d = Ok q /\ 0 <= q <= F64.one.
Proof.
  intros Hd Hv.
  destruct (truediv_ok v d 1 ltac:(lia) ltac:(lia) (proj1 small_quotients_fit)
              ltac:(lia)) as [E M].
  replace (F64.round_pos (1 * F64.one) 1) with F64.one in M by (vm_compute; reflexivity).
  assert (One : 0 < F64.one) by reflexivity.
  assert (M0 : 0 <= F64.round_pos (Z.abs v * F64.one) (Z.abs d)).
  { rewrite <- (round_pos_zero 1) at 1 by lia. apply round_pos_mono; nia. }
  eexists. split; [exact E|].
  rewrite (Z.sgn_pos d) by lia.
  destruct (Z.eq_dec v 0) as [->|]; [cbn; lia|].
  rewrite Z.sgn_pos by lia. lia.
Qed.

Lemma unit_ratio_monotone (u v d : Z) (qu qv : F64.t) :
  0 < d -> 0 <= u <= v -> v <= d ->
  truediv u d = Ok qu -> truediv v d = Ok qv -> qu <= qv.
Proof.
  intros Hd Hu Hv Eu Ev.
  destruct (truediv_ok u d 1 ltac:(lia) ltac:(lia) (proj1 small_quotients_fit)
              ltac:(lia)) as [Eu' _].
  destruct (truediv_ok v d 1 ltac:(lia) ltac:(lia) (proj1 small_quotients_fit)
              ltac:(lia)) as [Ev' _].
  rewrite Eu' in Eu. rewrite Ev' in Ev.
  apply Ok_inj in Eu. apply Ok_inj in Ev. subst qu qv.
  assert (One : 0 < F64.one) by reflexivity.
  rewrite (Z.sgn_pos d) by lia.
  destruct (Z.eq_dec u 0) as [->|Nu].
  - change (Z.sgn 0) with 0.
    destruct (Z.eq_dec v 0) as [->|Nv]; [reflexivity|].
    rewrite Z.sgn_pos by lia.
    assert (0 <= F64.round_pos (Z.abs v * F64.one) (Z.abs d)); [|lia].
    rewrite <- (round_pos_zero 1) at 1 by lia. apply round_pos_mono; nia.
  - rewrite !Z.sgn_pos by lia. rewrite !Z.mul_1_l.
    rewrite !Z.abs_eq by lia.
    apply round_pos_mono; product_order.
Qed.

(** A product [q * n] of a ratio in [0, 1] and a small int, cut by [int]. *)
Lemma scaled_ratio_bounds (q n : Z) :
  0 <= q <= F64.one -> 0 <= n ->
  F64.round (F64.one * F64.of_int n) F64.one = n * F64.one ->
  0 <= F64.of_int n ->
  0 <= F64.to_int (F64.mul q (F64.of_int n)) <= n.
Proof.
  intros Hq Hn Top Pos.
  assert (One : 0 < F64.one) by reflexivity.
  assert (Z0 : F64.round 0 F64.one = 0) by (vm_compute; reflexivity).
  unfold F64.mul. set (c := F64.of_int n) in *. clearbody c.
  set (x := F64.round (q * c) F64.one).
  assert (X : 0 <= x <= n * F64.one).
  { split.
    - rewrite <- Z0. apply round_mono; product_order.
    - rewrite <- Top. apply round_mono; product_order. }
  clearbody x. unfold F64.to_int. rewrite Z.quot_div_nonneg by lia. split.
  - apply Z.div_pos; lia.
  - apply Z.div_le_upper_bound; lia.
Qed.

(** ** What a frame holds *)

Lemma ops_draw (img : image) (op : draw_op) : ops (draw img op) = (ops img ++ [op])%list.
Proof. reflexivity. Qed.

(** A loop whose body only draws lines adds nothing but lines. *)
Lemma fold_left_lines {A} (body : image -> A -> image) (l : list A) :
  (forall img x, exists ls, ops (body img x) = (ops img ++ ls)%list /\ Forall is_line ls) ->
  forall img, exists ls,
    ops (fold_left body l img) = (ops img ++ ls)%list /\ Forall is_line ls.
Proof.
  intros H. induction l as [|x l IH]; cbn [fold_left]; intros img.
  - exists []. rewrite app_nil_r. auto.
  - destruct (IH (body img x)) as (ls2 & E2 & L2).
    destruct (H img x) as (ls1 & E1 & L1).
    exists (ls1 ++ ls2)%list. rewrite E2, E1, app_assoc.
    split; [reflexivity|]. apply Forall_app. auto.
Qed.

Lemma foldR_lines {A} (body : image -> A -> result image) (l : list A) :
  (forall img x img', body img x = Ok img' ->
     exists ls, ops img' = (ops img ++ ls)%list /\ Forall is_line ls) ->
  forall img img', foldR body l img = Ok img' ->
    exists ls, ops img' = (ops img ++ ls)%list /\ Forall is_line ls.
Proof.
  intros H. induction l as [|x l IH]; cbn [foldR]; intros img img' E.
  - apply Ok_inj in E. subst img'. exists []. rewrite app_nil_r. auto.
  - destruct (body img x) as [img1|] eqn:E1; [|discriminate]. cbn [rbind] in E.
    destruct (IH _ _ E) as (ls2 & E2 & L2).
    destruct (H _ _ _ E1) as (ls1 & E1' & L1).
    exists (ls1 ++ ls2)%list. rewrite E2, E1', app_assoc.
    split; [reflexivity|]. apply Forall_app. auto.
Qed.

Lemma marker_loop_lines (L : library) (d : Z) (ms : list Z) (img img' : image) :
  foldR (fun img marker =>
           let* q := truediv (270 * marker) d in
           Ok (Real2.marker_line L img (F64.add (F64.of_int 135) q)))
        ms img = Ok img' ->
  exists ls, ops img' = (ops img ++ ls)%list /\ Forall is_line ls.
Proof.
  apply foldR_lines. intros i m i' E.
  destruct (truediv (270 * m) d); [|discriminate].
  cbn [rbind] in E. apply Ok_inj in E. subst i'.
  eexists. split; [reflexivity|]. repeat constructor.
Qed.

Lemma not_line_in (op : draw_op) (ls : list draw_op) :
  Forall is_line ls -> In op ls -> is_line op.
Proof. intros H Hin. rewrite Forall_forall in H. exact (H _ Hin). Qed.

Lemma lines_no_arcs (ls : list draw_op) : Forall is_line ls -> filter is_arc ls = [].
Proof.
  induction 1 as [|op ls Hop _ IH]; [reflexivity|].
  destruct op; try contradiction. cbn [filter is_arc]. exact IH.
Qed.

(** ** The dials *)

Lemma rpm_angle_linear (i : Z) :
  0 <= i <= 16 ->
  exists q, truediv (270 * i) 16 = Ok q /\ F64.to_int q = 270 * i / 16.
Proof.
  intros Hi.
  assert (C : forallb (fun i => match truediv (270 * i) 16 with
                                | Ok q => F64.to_int q =? 270 * i / 16
                                | Raise _ => false
                                end) (range 17) = true) by (vm_compute; reflexivity).
  pose proof (range_forallb _ _ C i ltac:(lia)) as H. cbv beta in H.
  destruct (truediv (270 * i) 16) as [q|]; [|discriminate].
  exists q. split; [reflexivity|]. apply Z.eqb_eq. exact H.
Qed.

(** The speed frame of [v] holds exactly one arc, in the box
    (20, 20, 180, 180) and 12 wide: it starts at 135 degrees and sweeps
    floor(270 v / 80) degrees, from 0 at rest to 270 at 80 km/h, green
    below 40, yellow below 60 and red from 60 on; the value is written in
    the big font. *)
Theorem speed_frame_arc (L : library) (F : Real2.fonts) (v : Z) :
  0 <= v <= 80 ->
  exists img x,
    Real2.speed_frame L F v = Ok img /\
    In (Arc (20, 20, 180, 180) 135 (135 + 270 * v / 80)
          (if v <? 40 then Real2.GREEN else if v <? 60 then Real2.YELLOW else Real2.RED)
          12) (ops img) /\
    arcs img
    = [Arc (20, 20, 180, 180) 135 (135 + 270 * v / 80)
         (if v <? 40 then Real2.GREEN else if v <? 60 then Real2.YELLOW else Real2.RED)
         12] /\
    0 <= 270 * v / 80 <= 270 /\
    (v = 0 -> 270 * v / 80 = 0) /\ (v = 80 -> 270 * v / 80 = 270) /\
    In (Text (x, 65) (str v) Real2.WHITE (Real2.font_big F)) (ops img).
Proof.
  intros Hv. unfold Real2.speed_frame.
  rewrite (speed_angle_linear v Hv). cbn [rbind].
  match goal with
  | |- context [foldR ?f ?ms ?i] =>
      destruct (markers_return L Real2.SPEED_MAX ms i) as [img' E]
  end.
  - reflexivity.
  - unfold Real2.SPEED_MAX. intros m [<-|[<-|[<-|[<-|[<-|[]]]]]]; lia.
  - rewrite E. cbn [rbind].
    destruct (marker_loop_lines _ _ _ _ _ E) as (ls & Eo & Ls).
    eexists _, _. split; [reflexivity|]. unfold arcs.
    rewrite !ops_draw, Eo. unfold Real2.draw_arc_gauge. rewrite !ops_draw.
    cbn [ops Image_new app].
    split; [right; left; reflexivity|]. split.
    { cbn [filter is_arc]. rewrite !filter_app. cbn [filter is_arc].
      rewrite (lines_no_arcs ls Ls). reflexivity. }
    split.
    { split; [apply Z.div_pos; lia|]. apply Z.div_le_upper_bound; lia. }
    split; [intros ->; reflexivity|]. split; [intros ->; reflexivity|].
    apply in_cons, in_cons. apply in_or_app. left. apply in_or_app. right.
    left. reflexivity.
Qed.

Lemma speed_frame_arc_witness :
  exists img x,
    Real2.speed_frame sample_library default_fonts 80 = Ok img /\
    arcs img = [Arc (20, 20, 180, 180) 135 405 Real2.RED 12] /\
    In (Text (x, 65) "80" Real2.WHITE DefaultFont) (ops img).
Proof.
  destruct (speed_frame_arc sample_library default_fonts 80 ltac:(lia))
    as (img & x & E & _ & A & _ & _ & _ & T).
  exists img, x. split; [exact E|]. split; [exact A|exact T].
Defined.

(** The RPM frame of index [i] shows 500 i and holds exactly one arc, in
    the box (20, 20, 180, 180) and 12 wide: from 135 degrees it sweeps
    floor(270 i / 16) degrees, green below 4000 rpm, yellow below 6000, red
    from 6000 on. *)
Theorem rpm_frame_arc (L : library) (F : Real2.fonts) (i : Z) :
  0 <= i <= 16 ->
  exists img x,
    Real2.rpm_frame L F i = Ok img /\
    In (Arc (20, 20, 180, 180) 135 (135 + 270 * i / 16)
          (if i <? 8 then Real2.GREEN else if i <? 12 then Real2.YELLOW else Real2.RED)
          12) (ops img) /\
    arcs img
    = [Arc (20, 20, 180, 180) 135 (135 + 270 * i / 16)
         (if i <? 8 then Real2.GREEN else if i <? 12 then Real2.YELLOW else Real2.RED)
         12] /\
    0 <= 270 * i / 16 <= 270 /\
    In (Text (x, 65) (str (500 * i)) Real2.WHITE (Real2.font_big F)) (ops img).
Proof.
  intros Hi. unfold Real2.rpm_frame.
  destruct (rpm_angle_linear i Hi) as (q & Eq & Ea). rewrite Eq. cbn [rbind].
  match goal with
  | |- context [foldR ?f ?ms ?i] =>
      destruct (markers_return L 16 ms i) as [img' E]
  end.
  - reflexivity.
  - intros m Hm. apply in_range in Hm. lia.
  - rewrite E. cbn [rbind].
    destruct (marker_loop_lines _ _ _ _ _ E) as (ls & Eo & Ls).
    eexists _, _. split; [reflexivity|]. unfold arcs.
    rewrite !ops_draw, Eo. unfold Real2.draw_arc_gauge. rewrite !ops_draw.
    cbn [ops Image_new app]. rewrite Ea.
    assert (Col : (if i * 500 <? 4000 then Real2.GREEN
                   else if i * 500 <? 6000 then Real2.YELLOW else Real2.RED)
                  = (if i <? 8 then Real2.GREEN
                     else if i <? 12 then Real2.YELLOW else Real2.RED)).
    { destruct (i <? 8) eqn:A; [apply Z.ltb_lt in A|apply Z.ltb_ge in A].
      - replace (i * 500 <? 4000) with true by (symmetry; apply Z.ltb_lt; lia).
        reflexivity.
      - replace (i * 500 <? 4000) with false by (symmetry; apply Z.ltb_ge; lia).
        destruct (i <? 12) eqn:B; [apply Z.ltb_lt in B|apply Z.ltb_ge in B].
        + replace (i * 500 <? 6000) with true by (symmetry; apply Z.ltb_lt; lia).
          reflexivity.
        + replace (i * 500 <? 6000) with false by (symmetry; apply Z.ltb_ge; lia).
          reflexivity. }
    rewrite Col. rewrite (Z.mul_comm i 500).
    split; [right; left; reflexivity|]. split.
    { cbn [filter is_arc]. rewrite !filter_app. cbn [filter is_arc].
      rewrite (lines_no_arcs ls Ls). reflexivity. }
    split.
    { split; [apply Z.div_pos; lia|]. apply Z.div_le_upper_bound; lia. }
    apply in_cons, in_cons. apply in_or_app. left. apply in_or_app. right.
    left. reflexivity.
Qed.

Lemma rpm_frame_arc_witness :
  exists img x,
    Real2.rpm_frame sample_library default_fonts 16 = Ok img /\
    arcs img = [Arc (20, 20, 180, 180) 135 405 Real2.RED 12] /\
    In (Text (x, 65) "8000" Real2.WHITE DefaultFont) (ops img).
Proof.
  destruct (rpm_frame_arc sample_library default_fonts 16 ltac:(lia))
    as (img & x & E & _ & A & _ & T).
  exists img, x. split; [exact E|]. split; [exact A|exact T].
Defined.

(** ** The bars *)

(** The temperature fill multiplies a rounded quotient as the charge
    fill does, yet no height is cut short: it is floor(175 t / 100). *)
Lemma temp_fill_h_exact (t : Z) :
  0 <= t <= 100 -> Real2.temp_fill_h t = Ok (175 * t / 100).
Proof.
  intros Ht.
  assert (C : forallb (fun t => match Real2.temp_fill_h t with
                                | Ok h => h =? 175 * t / 100
                                | Raise _ => false
                                end) (range 101) = true) by (vm_compute; reflexivity).
  pose proof (range_forallb _ _ C t ltac:(lia)) as H. cbv beta in H.
  destruct (Real2.temp_fill_h t) as [h|]; [|discriminate].
  apply Z.eqb_eq in H. congruence.
Qed.

(** For every temperature 0..100 the fill height is floor(175 t / 100), at
    most 175; every rectangle of the frame, the fill included, lies inside
    the outer frame (15, 15, 65, 205); and the fill, in the colour of the
    band of [t], is drawn exactly when the height is positive. *)
Theorem temp_fill_stays_in_frame (L : library) (F : Real2.fonts) (t : Z) :
  0 <= t <= 100 ->
  exists img h,
    Real2.temp_frame L F t = Ok img /\
    h = 175 * t / 100 /\ 0 <= h <= 175 /\
    (forall xy fill outline wd,
       In (Rectangle xy fill outline wd) (ops img) -> inside xy (15, 15, 65, 205)) /\
    (In (Rectangle (19, 201 - h, 61, 201) (Some (band t)) None 1) (ops img) <-> 0 < h) /\
    (forall fill outline wd,
       In (Rectangle (19, 201 - h, 61, 201) fill outline wd) (ops img) -> 0 < h).
Proof.
  intros Ht. unfold Real2.temp_frame.
  rewrite (temp_fill_h_exact t Ht), (get_temp_color_band t Ht). cbn [rbind].
  set (h := 175 * t / 100).
  assert (Hh : 0 <= h <= 175).
  { unfold h. split; [apply Z.div_pos; lia|apply Z.div_le_upper_bound; lia]. }
  cbv zeta.
  match goal with
  | |- context [fold_left ?f ?l ?i] =>
      destruct (fold_left_lines f l) with (img := i) as (ls & Eo & Ls)
  end.
  { intros img tick. eexists. rewrite !ops_draw, <- app_assoc.
    split; [reflexivity|]. repeat constructor. }
  eexists _, h. split; [reflexivity|]. split; [reflexivity|]. split; [exact Hh|].
  rewrite ops_draw, Eo.
  destruct (0 <? h) eqn:P; [apply Z.ltb_lt in P|apply Z.ltb_ge in P];
    rewrite ?ops_draw; cbn [ops Image_new app].
  - split; [|split].
    + intros xy fill outline wd [H|[H|H]].
      * assert (xy = (15, 15, 65, 205)) by congruence. subst xy. unfold inside. lia.
      * assert (xy = (19, 201 - h, 61, 201)) by congruence. subst xy.
        unfold inside. lia.
      * exfalso. apply in_app_or in H. destruct H as [H|[H|[]]].
        -- exact (not_line_in _ _ Ls H).
        -- discriminate H.
    + split; [intros _; exact P|]. intros _. right. left. reflexivity.
    + intros; exact P.
  - split; [|split].
    + intros xy fill outline wd [H|H].
      * assert (xy = (15, 15, 65, 205)) by congruence. subst xy. unfold inside. lia.
      * exfalso. apply in_app_or in H. destruct H as [H|[H|[]]].
        -- exact (not_line_in _ _ Ls H).
        -- discriminate H.
    + split; [|lia]. intros [H|H]; [discriminate H|].
      exfalso. apply in_app_or in H. destruct H as [H|[H|[]]].
      * exact (not_line_in _ _ Ls H).
      * discriminate H.
    + intros fill outline wd [H|H]; [discriminate H|].
      exfalso. apply in_app_or in H. destruct H as [H|[H|[]]].
      * exact (not_line_in _ _ Ls H).
      * discriminate H.
Qed.

Lemma temp_fill_stays_in_frame_witness :
  exists img,
    Real2.temp_frame sample_library default_fonts 75 = Ok img /\
    In (Rectangle (19, 70, 61, 201) (Some Real2.RED) None 1) (ops img).
Proof.
  destruct (temp_fill_stays_in_frame sample_library default_fonts 75 ltac:(lia))
    as (img & h & E & -> & _ & _ & [_ D] & _).
  exists img. split; [exact E|]. apply D. reflexivity.
Defined.

(** A voltage or current bar of any positive full scale: for every value
    from 0 to the full scale the fill width is in [0, 210], 0 at 0 and 210 at
    full scale, the frame holds the outline, the fill when its width is
    positive, and the value with its unit; the fill lies inside the
    outline. *)
Theorem vi_fill_stays_in_bar (F : Real2.fonts) (max_val : Z) (unit_ : string) (v : Z) :
  1 <= max_val -> 0 <= v <= max_val ->
  exists img fw,
    Real2.vi_frame F max_val unit_ v = Ok img /\
    0 <= fw <= 210 /\
    (v = 0 -> fw = 0) /\ (v = max_val -> fw = 210) /\
    ops img = ([Rectangle (10, 30, 230, 60) None (Some Real2.WHITE) 3]
               ++ (if 0 <? fw
                   then [Rectangle (13, 33, 13 + fw, 57) (Some Real2.BLUE) None 1]
                   else [])
               ++ [Text (15, 5) (str v ++ unit_) Real2.WHITE (Real2.font_small F)])%list /\
    inside (13, 33, 13 + fw, 57) (10, 30, 230, 60).
Proof.
  intros Hm Hv.
  destruct (unit_ratio v max_val ltac:(lia) Hv) as (q & E & Q).
  unfold Real2.vi_frame. rewrite E. cbn [rbind]. cbv zeta.
  set (fw := F64.to_int (F64.mul q (F64.of_int 210))).
  assert (B : 0 <= fw <= 210).
  { apply scaled_ratio_bounds; [exact Q|lia| |]; vm_compute; [reflexivity|discriminate]. }
  eexists _, fw. split; [reflexivity|]. split; [exact B|].
  split; [|split; [|split]].
  - intros ->. rewrite truediv_zero in E by lia. apply Ok_inj in E. subst q.
    vm_compute. reflexivity.
  - intros ->. rewrite truediv_self in E by lia. apply Ok_inj in E. subst q.
    vm_compute. reflexivity.
  - destruct (0 <? fw); reflexivity.
  - unfold inside. lia.
Qed.

Lemma vi_fill_stays_in_bar_witness :
  exists img fw,
    Real2.vi_frame default_fonts 150 "A" 150 = Ok img /\ fw = 210 /\
    In (Rectangle (13, 33, 13 + fw, 57) (Some Real2.BLUE) None 1) (ops img).
Proof.
  destruct (vi_fill_stays_in_bar default_fonts 150 "A" 150 ltac:(lia) ltac:(lia))
    as (img & fw & E & _ & _ & Top & O & _).
  exists img, fw. split; [exact E|]. split; [apply Top; reflexivity|].
  rewrite O, (Top eq_refl). right. left. reflexivity.
Defined.

(** A bar asked for with full scale 0 raises ZeroDivisionError on its
    first frame, before anything is written; with a negative full scale the
    loop is empty and nothing is written either. *)
Theorem vi_bar_degenerate_scale (w : world) (F : Real2.fonts)
    (folder label unit_ : string) (max_val : Z) (p : proc) :
  max_val <= 0 ->
  (max_val = 0 ->
   Real2.vi_bar_enhanced w F folder label max_val unit_ p
   = (Raise (ZeroDivisionError "division by zero"), p)) /\
  (max_val < 0 ->
   Real2.vi_bar_enhanced w F folder label max_val unit_ p = (Ok tt, p)).
Proof.
  intros Hm. split.
  - intros ->. reflexivity.
  - intros Hn. unfold Real2.vi_bar_enhanced, Real2.save_frames, range.
    replace (Z.to_nat (max_val + 1)) with 0%nat by lia. reflexivity.
Qed.

Lemma vi_bar_degenerate_scale_witness :
  Real2.vi_bar_enhanced quiet_world default_fonts "motor_vi" "Motor" 0 "A" boot
  = (Raise (ZeroDivisionError "division by zero"), boot) /\
  Real2.vi_bar_enhanced quiet_world default_fonts "motor_vi" "Motor" (-5) "A" boot
  = (Ok tt, boot).
Proof.
  split.
  - apply (vi_bar_degenerate_scale quiet_world default_fonts "motor_vi" "Motor" "A" 0 boot);
      [lia|reflexivity].
  - apply (vi_bar_degenerate_scale quiet_world default_fonts "motor_vi" "Motor" "A" (-5) boot);
      lia.
Defined.

(** ** The brightness ramp *)

(** Line 277 as a function of the float ratio [q]. *)
Lemma brightness_of_ratio (frame frames : Z) (q : F64.t) :
  truediv frame (frames - 1) = Ok q ->
  Real2.brightness frame frames
  = Ok (F64.to_int
          (F64.mul (F64.of_int 255)
             (F64.add (F64.literal 3 10) (F64.mul (F64.literal 7 10) q)))).
Proof. intros E. unfold Real2.brightness. rewrite E. reflexivity. Qed.

Lemma brightness_ratio_monotone (q q' : F64.t) :
  0 <= q <= q' ->
  F64.to_int
    (F64.mul (F64.of_int 255) (F64.add (F64.literal 3 10) (F64.mul (F64.literal 7 10) q)))
  <= F64.to_int
       (F64.mul (F64.of_int 255)
          (F64.add (F64.literal 3 10) (F64.mul (F64.literal 7 10) q'))).
Proof.
  intros Hq.
  assert (One : 0 < F64.one) by reflexivity.
  set (c07 := F64.literal 7 10). set (c03 := F64.literal 3 10).
  set (c255 := F64.of_int 255).
  assert (P07 : 0 <= c07) by (vm_compute; discriminate).
  assert (P03 : 0 <= c03) by (vm_compute; discriminate).
  assert (P255 : 0 <= c255) by (vm_compute; discriminate).
  assert (Z0 : F64.round 0 F64.one = 0) by (vm_compute; reflexivity).
  assert (Z1 : F64.round 0 1 = 0) by (vm_compute; reflexivity).
  clearbody c07 c03 c255.
  unfold F64.mul at 2 4.
  set (t := F64.round (c07 * q) F64.one). set (t' := F64.round (c07 * q') F64.one).
  assert (T : 0 <= t <= t').
  { split.
    - rewrite <- Z0. apply round_mono; product_order.
    - apply round_mono; product_order. }
  clearbody t t'.
  unfold F64.add.
  set (u := F64.round (c03 + t) 1). set (u' := F64.round (c03 + t') 1).
  assert (U : 0 <= u <= u').
  { split.
    - rewrite <- Z1. apply round_mono; product_order.
    - apply round_mono; product_order. }
  clearbody u u'.
  unfold F64.mul.
  set (x := F64.round (c255 * u) F64.one). set (x' := F64.round (c255 * u') F64.one).
  assert (X : 0 <= x <= x').
  { split.
    - rewrite <- Z0. apply round_mono; product_order.
    - apply round_mono; product_order. }
  clearbody x x'.
  unfold F64.to_int. rewrite !Z.quot_div_nonneg by lia.
  apply Z.div_le_mono; lia.
Qed.

(** With two frames or more the animation starts at brightness 76, ends at
    255 and never dims from one frame to the next. *)
Theorem indicator_brightness_ramp (frames : Z) :
  2 <= frames ->
  Real2.brightness 0 frames = Ok 76 /\
  Real2.brightness (frames - 1) frames = Ok 255 /\
  forall f g a b, 0 <= f <= g -> g < frames ->
    Real2.brightness f frames = Ok a -> Real2.brightness g frames = Ok b -> a <= b.
Proof.
  intros Hf. split; [|split].
  - rewrite (brightness_of_ratio 0 frames 0) by (apply truediv_zero; lia).
    vm_compute. reflexivity.
  - rewrite (brightness_of_ratio (frames - 1) frames F64.one)
      by (apply truediv_self; lia).
    vm_compute. reflexivity.
  - intros f g a b Hfg Hg Ea Eb.
    destruct (unit_ratio f (frames - 1) ltac:(lia) ltac:(lia)) as (qf & Ef & Qf).
    destruct (unit_ratio g (frames - 1) ltac:(lia) ltac:(lia)) as (qg & Eg & Qg).
    rewrite (brightness_of_ratio _ _ _ Ef) in Ea.
    rewrite (brightness_of_ratio _ _ _ Eg) in Eb.
    apply Ok_inj in Ea. apply Ok_inj in Eb. subst a b.
    apply brightness_ratio_monotone. split; [lia|].
    exact (unit_ratio_monotone f g (frames - 1) qf qg ltac:(lia) ltac:(lia) ltac:(lia)
             Ef Eg).
Qed.

Lemma indicator_brightness_ramp_witness :
  Real2.brightness 0 7 = Ok 76 /\ Real2.brightness 6 7 = Ok 255.
Proof.
  destruct (indicator_brightness_ramp 7 ltac:(lia)) as (A & B & _).
  split; [exact A|exact B].
Defined.

(** Asked for no frame, or a negative number of frames, the animation is
    the empty list and nothing is divided, although one frame raises. *)
Theorem indicator_animated_no_frames (direction : string) (frames : Z) :
  frames <= 0 ->
  Real2.indicator_animated direction frames = Ok [] /\
  Real2.indicator_animated direction 1 = Raise (ZeroDivisionError "division by zero").
Proof.
  intros Hf. split; [|reflexivity].
  unfold Real2.indicator_animated, range.
  replace (Z.to_nat frames) with 0%nat by lia. reflexivity.
Qed.

Lemma indicator_animated_no_frames_witness :
  Real2.indicator_animated "left" 0 = Ok [].
Proof. apply (indicator_animated_no_frames "left" 0). lia. Defined.

(** ** Temperature colours never under-report *)

(** For a positive [max_temp] and any integer [temp] whose quotient fits a
    float: at or above three quarters of [max_temp] the colour is RED, at or
    above half it is not GREEN, and at or below zero it is GREEN.  (The
    converses fail for large integers: a quotient within half an ulp below
    a threshold rounds up to it.) *)
Theorem get_temp_color_never_underreports (temp max_temp : Z) :
  0 < max_temp ->
  Z.abs temp <= (2 ^ 1024 - 2 ^ 971) * max_temp ->
  (3 * max_temp <= 4 * temp -> Real2.get_temp_color temp max_temp = Ok Real2.RED) /\
  (max_temp <= 2 * temp -> Real2.get_temp_color temp max_temp <> Ok Real2.GREEN) /\
  (temp <= 0 -> Real2.get_temp_color temp max_temp = Ok Real2.GREEN).
Proof.
  intros Hm Hq. unfold Real2.get_temp_color.
  assert (Fin : F64.round_pos ((2 ^ 1024 - 2 ^ 971) * F64.one) 1 < F64.out_of_range)
    by (vm_compute; reflexivity).
  destruct (truediv_ok temp max_temp (2 ^ 1024 - 2 ^ 971) ltac:(lia)
              ltac:(vm_compute; discriminate) Fin ltac:(rewrite (Z.abs_eq max_temp); lia))
    as [E _].
  rewrite E. cbn [rbind]. clear E Fin.
  rewrite (Z.sgn_pos max_temp), (Z.abs_eq max_temp) by lia.
  assert (One : 0 < F64.one) by reflexivity.
  set (h5 := F64.literal 5 10). set (h75 := F64.literal 75 100).
  assert (H5 : F64.round_pos (1 * F64.one) 2 = h5) by (vm_compute; reflexivity).
  assert (H75 : F64.round_pos (3 * F64.one) 4 = h75) by (vm_compute; reflexivity).
  assert (H57 : 0 < h5 <= h75) by (split; vm_compute; [reflexivity|discriminate]).
  clearbody h5 h75.
  assert (M0 : 0 <= F64.round_pos (Z.abs temp * F64.one) max_temp).
  { rewrite <- (round_pos_zero 1) at 1 by lia. apply round_pos_mono; nia. }
  unfold F64.ltb.
  split; [|split].
  - intros Hot. rewrite Z.sgn_pos, Z.abs_eq by lia.
    assert (h75 <= F64.round_pos (temp * F64.one) max_temp).
    { rewrite <- H75. apply round_pos_mono; try lia. nia. }
    replace (1 * 1 * F64.round_pos (temp * F64.one) max_temp <? h5) with false
      by (symmetry; apply Z.ltb_ge; lia).
    replace (1 * 1 * F64.round_pos (temp * F64.one) max_temp <? h75) with false
      by (symmetry; apply Z.ltb_ge; lia).
    reflexivity.
  - intros Hwarm. rewrite Z.sgn_pos, Z.abs_eq by lia.
    assert (h5 <= F64.round_pos (temp * F64.one) max_temp).
    { rewrite <- H5. apply round_pos_mono; try lia. nia. }
    replace (1 * 1 * F64.round_pos (temp * F64.one) max_temp <? h5) with false
      by (symmetry; apply Z.ltb_ge; lia).
    destruct (_ <? h75); discriminate.
  - intros Hcold.
    replace (Z.sgn temp * 1 * F64.round_pos (Z.abs temp * F64.one) max_temp <? h5)
      with true; [reflexivity|].
    symmetry. apply Z.ltb_lt.
    destruct (Z.eq_dec temp 0) as [->|]; [cbn; lia|].
    rewrite Z.sgn_neg by lia. lia.
Qed.

Lemma get_temp_color_never_underreports_witness :
  Real2.get_temp_color 61 80 = Ok Real2.RED /\
  Real2.get_temp_color 40 80 <> Ok Real2.GREEN /\
  Real2.get_temp_color (-273) 80 = Ok Real2.GREEN.
Proof.
  split; [|split].
  - apply (get_temp_color_never_underreports 61 80); [lia|vm_compute; discriminate|lia].
  - apply (get_temp_color_never_underreports 40 80); [lia|vm_compute; discriminate|lia].
  - apply (get_temp_color_never_underreports (-273) 80);
      [lia|vm_compute; discriminate|lia].
Defined.

Example get_temp_color_rounds_up_to_threshold :
  2 * (2 ^ 60 - 1) < 2 ^ 61 /\
  Real2.get_temp_color (2 ^ 60 - 1) (2 ^ 61) = Ok Real2.YELLOW.
Proof. split; [reflexivity|vm_compute; reflexivity]. Qed.

(** ** The exit status of try.py *)

(** Whatever the machine answers, [main] returns 0, 1 or 130, or ends
    with an exception: one that is neither an [Exception] nor a
    KeyboardInterrupt, which passes both handlers, or the
    UnicodeEncodeError that the KeyboardInterrupt handler itself raises
    when the standard output cannot encode its cancellation line. *)
Theorem main_exit_statuses (w : world) (r : result Z) (p : proc) :
  TryPy.main w boot = (r, p) ->
  match r with
  | Ok n => n = 0 \/ n = 1 \/ n = 130
  | Raise e =>
      (is_Exception e = false /\ is_KeyboardInterrupt e = false) \/
      (exists msg, stdout_rejects w cancelled_line = Some msg /\
                   e = OtherException "UnicodeEncodeError" msg)
  end.
Proof.
  unfold TryPy.main, try_except2.
  match goal with |- context [bind ?c ?k boot] => destruct (bind c k boot) as [[n|e] q] eqn:B end.
  - intros E. assert (r = Ok n) by congruence. subst r.
    unfold bind in B.
    destruct (TryPy.new_AssetGenerator w boot) as [[G|e] q0]; [|discriminate].
    destruct (TryPy.generate_all w G q0) as [[s|e] q1]; [|discriminate].
    unfold ret in B. assert (n = if s then 0 else 1) by congruence.
    destruct s; lia.
  - destruct (is_KeyboardInterrupt e) eqn:K.
    + unfold bind, print, ret.
      change (is_ascii (nl ++ "⚠ Generation cancelled by user")) with false.
      cbv iota.
      change (nl ++ "⚠ Generation cancelled by user")%string with cancelled_line.
      destruct (stdout_rejects w cancelled_line) as [msg|] eqn:R; intros E.
      * assert (r = Raise (OtherException "UnicodeEncodeError" msg)) by congruence.
        subst r. right. exists msg. split; reflexivity.
      * assert (r = Ok 130) by congruence. subst r. lia.
    + destruct (is_Exception e) eqn:X.
      * unfold bind, print_stderr, ret. intros E. assert (r = Ok 1) by congruence.
        subst r. lia.
      * intros E. assert (r = Raise e) by congruence. subst r. left. auto.
Qed.

Lemma main_exit_statuses_witness :
  fst (TryPy.main interrupted_world boot) = Ok 130 /\
  fst (TryPy.main interrupted_ascii_world boot)
  = Raise (OtherException "UnicodeEncodeError"
             "'ascii' codec can't encode character '\u26a0' in position 1: ordinal not in range(128)").
Proof.
  split.
  - pose proof (main_exit_statuses interrupted_world
                  (fst (TryPy.main interrupted_world boot))
                  (snd (TryPy.main interrupted_world boot))
                  (surjective_pairing _)) as H.
    destruct (fst (TryPy.main interrupted_world boot)) as [n|e] eqn:E;
      vm_compute in E; [|discriminate E].
    destruct H as [ -> | [ -> | -> ] ]; [discriminate E|discriminate E|reflexivity].
  - pose proof (main_exit_statuses interrupted_ascii_world
                  (fst (TryPy.main interrupted_ascii_world boot))
                  (snd (TryPy.main interrupted_ascii_world boot))
                  (surjective_pairing _)) as H.
    destruct (fst (TryPy.main interrupted_ascii_world boot)) as [n|e] eqn:E;
      vm_compute in E; [discriminate E|].
    destruct H as [[X _]|(msg & R & ->)].
    + exfalso. injection E as <-. discriminate X.
    + symmetry. exact E.
Defined.

(** ** Statements that write no file *)

Section WritesNothing.
Variable w : world.

Lemma nothing_ret {A} (a : A) : writes_nothing (ret a).
Proof. intros p r p' E. unfold ret in E. congruence. Qed.

Lemma nothing_bind {A B} (c : M A) (k : A -> M B) :
  writes_nothing c -> (forall a, writes_nothing (k a)) -> writes_nothing (bind c k).
Proof.
  intros Hc Hk p r p' E. unfold bind in E.
  destruct (c p) as [[a|e] p1] eqn:Ec.
  - rewrite (Hk a _ _ _ E). exact (Hc _ _ _ Ec).
  - assert (p' = p1) by congruence. subst p'. exact (Hc _ _ _ Ec).
Qed.

Lemma nothing_try_except {A} (c : M A) classes h :
  writes_nothing c -> (forall e, writes_nothing (h e)) ->
  writes_nothing (try_except c classes h).
Proof.
  intros Hc Hh p r p' E. unfold try_except in E.
  destruct (c p) as [[a|e] p1] eqn:Ec.
  - assert (p' = p1) by congruence. subst p'. exact (Hc _ _ _ Ec).
  - destruct (classes e).
    + rewrite (Hh e _ _ _ E). exact (Hc _ _ _ Ec).
    + assert (p' = p1) by congruence. subst p'. exact (Hc _ _ _ Ec).
Qed.

Lemma nothing_print s : writes_nothing (print w s).
Proof.
  intros p r p' E. unfold print in E.
  destruct (if is_ascii s then None else stdout_rejects w s);
    apply (f_equal snd) in E; cbn [snd] in E; subst p'; reflexivity.
Qed.

Lemma nothing_makedirs d : writes_nothing (makedirs w d).
Proof.
  intros p r p' E. unfold makedirs in E.
  destruct (mkdir_outcome w d); apply (f_equal snd) in E; cbn [snd] in E; subst p';
    reflexivity.
Qed.

Lemma nothing_truetype name sz : writes_nothing (truetype w name sz).
Proof.
  intros p r p' E. unfold truetype in E.
  destruct (truetype_outcome w name sz); apply (f_equal snd) in E; cbn [snd] in E;
    subst p'; reflexivity.
Qed.

Lemma nothing_forM_ {A} (xs : list A) (body : A -> M unit) :
  (forall x, writes_nothing (body x)) -> writes_nothing (forM_ xs body).
Proof.
  intros H. induction xs as [|x xs IH]; cbn [forM_].
  - apply nothing_ret.
  - apply nothing_bind; [apply H|intros _; exact IH].
Qed.

Local Ltac nothing_step :=
  repeat lazymatch goal with
  | |- writes_nothing (print _ _) => apply nothing_print
  | |- writes_nothing (makedirs _ _) => apply nothing_makedirs
  | |- writes_nothing (truetype _ _ _) => apply nothing_truetype
  | |- writes_nothing load_default => apply nothing_ret
  | |- writes_nothing (ret _) => apply nothing_ret
  | |- writes_nothing (forM_ _ _) => apply nothing_forM_; intros ?
  | |- writes_nothing (try_except _ _ _) => apply nothing_try_except; [|intros ?]
  | |- writes_nothing (bind _ _) => apply nothing_bind; [|intros ?]
  end.

Lemma nothing_create_directories : writes_nothing (TryPy._create_directories w).
Proof. unfold TryPy._create_directories. nothing_step. Qed.

Lemma nothing_try_load_fonts : writes_nothing (TryPy._load_fonts w).
Proof. unfold TryPy._load_fonts. nothing_step. Qed.

(** Building the generator makes directories and loads fonts, no more. *)
Lemma nothing_new_AssetGenerator : writes_nothing (TryPy.new_AssetGenerator w).
Proof.
  unfold TryPy.new_AssetGenerator.
  apply nothing_bind; [apply nothing_create_directories|].
  intros _. apply nothing_try_load_fonts.
Qed.

(** With fonts that load or fail as OSError, [_load_fonts] returns. *)
Lemma try_load_fonts_returns (p : proc) :
  (forall sz e, truetype_outcome w TryPy.FONT_NAME sz = Some e -> is_OSError e = true) ->
  exists G p', TryPy._load_fonts w p = (Ok G, p').
Proof.
  intros Hos.
  unfold TryPy._load_fonts, try_except, bind, truetype, load_default, ret, print.
  destruct (truetype_outcome w TryPy.FONT_NAME TryPy.FONT_SIZE_BIG) eqn:E1.
  { rewrite (Hos _ _ E1). do 2 eexists. reflexivity. }
  destruct (truetype_outcome w TryPy.FONT_NAME TryPy.FONT_SIZE_MED) eqn:E2.
  { rewrite (Hos _ _ E2). do 2 eexists. reflexivity. }
  do 2 eexists. reflexivity.
Qed.

End WritesNothing.



(** ** A quiet run of try.py *)

Section TryCompletes.
Variable w : world.
Hypothesis Hw : obliging w.
Hypothesis Hu : unicode_stdout w.

Lemma completes_print_unicode s : completes (print w s).
Proof. intros p. rewrite (print_unicode w s p Hu). eauto. Qed.

Lemma emits_generation_pass (G : TryPy.AssetGenerator) :
  emits (TryPy.generation_pass w G) try_outputs.
Proof.
  unfold TryPy.generation_pass,
    TryPy.create_background, TryPy.create_labels, TryPy._create_label,
    TryPy.create_indicators, TryPy.create_warnings, TryPy.create_bars,
    TryPy._create_temp_bars, TryPy._create_soc_bars, TryPy.create_charging_icons,
    TryPy._print_summary.
  eapply emits_as; [emits_step|]. vm_compute. reflexivity.
Qed.

Lemma completes_generation_pass (G : TryPy.AssetGenerator) :
  completes (TryPy.generation_pass w G).
Proof.
  unfold TryPy.generation_pass,
    TryPy.create_background, TryPy.create_labels, TryPy._create_label,
    TryPy.create_indicators, TryPy.create_warnings, TryPy.create_bars,
    TryPy._create_temp_bars, TryPy._create_soc_bars, TryPy.create_charging_icons,
    TryPy._print_summary.
  repeat lazymatch goal with
  | |- completes (print _ _) => apply completes_print_unicode
  | |- completes (save _ _ _) => apply (completes_save w Hw)
  | |- completes (forM_ _ _) => apply completes_forM_; intros ? _
  | |- completes (bind _ _) => apply completes_bind; [|intros ?]
  end.
Qed.

Lemma completes_create_directories : completes (TryPy._create_directories w).
Proof.
  unfold TryPy._create_directories.
  apply completes_bind; [|intros _; apply completes_print; reflexivity].
  apply completes_forM_. intros d _. apply (completes_makedirs w Hw).
Qed.

End TryCompletes.

(** The run of try.py on a machine that lets it write, whose font file
    loads or is missing, and whose standard output takes every line. *)
Lemma try_main_completes (w : world) :
  obliging w -> unicode_stdout w ->
  (forall sz e, truetype_outcome w TryPy.FONT_NAME sz = Some e -> is_OSError e = true) ->
  exists G p0 p1 p,
    TryPy._create_directories w boot = (Ok tt, p0) /\
    TryPy._load_fonts w p0 = (Ok G, p1) /\
    TryPy.generation_pass w G p1 = (Ok tt, p) /\
    TryPy.main w boot = (Ok 0, p) /\
    written p = try_outputs.
Proof.
  intros Hw Hu Hf.
  destruct (completes_create_directories w Hw boot) as ([] & p0 & D).
  destruct (try_load_fonts_returns w p0 Hf) as (G & p1 & Lf).
  destruct (completes_generation_pass w Hw Hu G p1) as ([] & p & P).
  assert (N : TryPy.new_AssetGenerator w boot = (Ok G, p1)).
  { unfold TryPy.new_AssetGenerator, bind. rewrite D. exact Lf. }
  exists G, p0, p1, p.
  split; [exact D|]. split; [exact Lf|]. split; [exact P|]. split.
  - unfold TryPy.main, try_except2, bind at 1 2. rewrite N.
    rewrite (generate_all_completes w G p1 p P). reflexivity.
  - rewrite (emits_generation_pass w G p1 tt p P). unfold written.
    rewrite (nothing_try_load_fonts w _ _ _ Lf),
      (nothing_create_directories w _ _ _ D). reflexivity.
Qed.

(** The same run on a standard output that cannot encode the first line
    of the generation pass: the background is written, and no more. *)
Lemma try_main_stops_at_first_line (w : world) (msg : string) :
  obliging w ->
  (forall sz e, truetype_outcome w TryPy.FONT_NAME sz = Some e -> is_OSError e = true) ->
  stdout_rejects w "✓ Background generated" = Some msg ->
  exists p1,
    files p1 = [] /\
    TryPy.main w boot
    = (Ok 1, with_stderr
               {| dirs := dirs p1;
                  files := [("dgus_assets/background/dashboard_bg.png",
                             TryPy.background_image)];
                  stdout := stdout p1; stderr := stderr p1 |}
               (TryPy.generation_report (OtherException "UnicodeEncodeError" msg))).
Proof.
  intros Hw Hf R.
  destruct (completes_create_directories w Hw boot) as ([] & p0 & D).
  destruct (try_load_fonts_returns w p0 Hf) as (G & p1 & Lf).
  assert (N : TryPy.new_AssetGenerator w boot = (Ok G, p1)).
  { unfold TryPy.new_AssetGenerator, bind. rewrite D. exact Lf. }
  assert (F1 : files p1 = []).
  { rewrite (nothing_try_load_fonts w _ _ _ Lf),
      (nothing_create_directories w _ _ _ D). reflexivity. }
  exists p1. split; [exact F1|].
  assert (P : TryPy.generation_pass w G p1
              = (Raise (OtherException "UnicodeEncodeError" msg),
                 {| dirs := dirs p1;
                    files := [("dgus_assets/background/dashboard_bg.png",
                               TryPy.background_image)];
                    stdout := stdout p1; stderr := stderr p1 |})).
  { unfold TryPy.generation_pass, TryPy.create_background, bind at 1 2.
    unfold save, print. rewrite (proj2 Hw).
    change (is_ascii "✓ Background generated") with false. cbv iota.
    rewrite R. cbn [files dirs stdout stderr]. rewrite F1. reflexivity. }
  unfold TryPy.main, try_except2, bind at 1 2. rewrite N.
  rewrite (generate_all_catches w G p1 _ _ P eq_refl). reflexivity.
Qed.

(** ** Canvas sizes of the files written *)

Lemma written_file (p : proc) (path : string) :
  In path (written p) -> exists img, In (path, img) (files p).
Proof.
  unfold written. intros H. apply in_map_iff in H.
  destruct H as ([q img] & E & H). cbn [fst] in E. subst q. eauto.
Qed.

(** Where the frame of index [v] stands in the list of outputs. *)
Local Ltac find_frame v :=
  unfold real2_outputs;
  repeat first
    [ apply in_or_app; left; unfold frame_names; apply in_map_iff; exists v;
      split; [reflexivity | apply in_range; lia]
    | apply in_or_app; right ].

(** C5: every image a script has written has the canvas size declared for
    its class, whatever the machine answers and however the run ends:
    speed and RPM frames are 200 x 200 ([WIDTH] x [HEIGHT]), temperature
    frames 80 x 220, state-of-charge frames 240 x 80, and the background of
    try.py 1024 x 600.  And the images are there: on a machine that lets it
    write, real2.py writes a frame of that size for every speed 0..80,
    every RPM index 0..16, every temperature 0..100 in each of the three
    temperature folders and every state of charge 0..100; try.py, when
    moreover its font loads or is missing and its standard output takes
    every line, writes its background of that size. *)
Theorem generated_images_have_declared_size (L : library) (w : world) :
  (Real2.WIDTH, Real2.HEIGHT) = (200, 200) /\
  (TryPy.CANVAS_WIDTH, TryPy.CANVAS_HEIGHT) = (1024, 600) /\
  (forall path img, In (path, img) (files (snd (Real2.script L w boot))) ->
     (starts_with "dgus_assets/speed/" path = true -> size img = (200, 200)) /\
     (starts_with "dgus_assets/rpm/" path = true -> size img = (200, 200)) /\
     (starts_with "dgus_assets/temp_motor/" path = true -> size img = (80, 220)) /\
     (starts_with "dgus_assets/temp_controller/" path = true -> size img = (80, 220)) /\
     (starts_with "dgus_assets/temp_battery/" path = true -> size img = (80, 220)) /\
     (starts_with "dgus_assets/soc/" path = true -> size img = (240, 80))) /\
  (forall img,
     In ("dgus_assets/background/dashboard_bg.png", img) (files (snd (TryPy.main w boot))) ->
     size img = (1024, 600)) /\
  (obliging w ->
   exists p,
     Real2.script L w boot = (Ok tt, p) /\
     (forall v, 0 <= v <= 80 ->
        exists img,
          In (("dgus_assets/speed/" ++ format0 3 v ++ ".png")%string, img) (files p) /\
          size img = (200, 200)) /\
     (forall i, 0 <= i <= 16 ->
        exists img,
          In (("dgus_assets/rpm/" ++ format0 2 i ++ ".png")%string, img) (files p) /\
          size img = (200, 200)) /\
     (forall t, 0 <= t <= 100 ->
        exists img,
          In (("dgus_assets/temp_motor/" ++ format0 3 t ++ ".png")%string, img) (files p) /\
          size img = (80, 220)) /\
     (forall t, 0 <= t <= 100 ->
        exists img,
          In (("dgus_assets/temp_controller/" ++ format0 3 t ++ ".png")%string, img)
             (files p) /\
          size img = (80, 220)) /\
     (forall t, 0 <= t <= 100 ->
        exists img,
          In (("dgus_assets/temp_battery/" ++ format0 3 t ++ ".png")%string, img)
             (files p) /\
          size img = (80, 220)) /\
     (forall s, 0 <= s <= 100 ->
        exists img,
          In (("dgus_assets/soc/" ++ format0 3 s ++ ".png")%string, img) (files p) /\
          size img = (240, 80))) /\
  (obliging w -> unicode_stdout w ->
   (forall sz e, truetype_outcome w TryPy.FONT_NAME sz = Some e -> is_OSError e = true) ->
   exists q img,
     TryPy.main w boot = (Ok 0, q) /\
     In ("dgus_assets/background/dashboard_bg.png", img) (files q) /\
     size img = (1024, 600)).
Proof.
  assert (S1 : forall path img, In (path, img) (files (snd (Real2.script L w boot))) ->
     (starts_with "dgus_assets/speed/" path = true -> size img = (200, 200)) /\
     (starts_with "dgus_assets/rpm/" path = true -> size img = (200, 200)) /\
     (starts_with "dgus_assets/temp_motor/" path = true -> size img = (80, 220)) /\
     (starts_with "dgus_assets/temp_controller/" path = true -> size img = (80, 220)) /\
     (starts_with "dgus_assets/temp_battery/" path = true -> size img = (80, 220)) /\
     (starts_with "dgus_assets/soc/" path = true -> size img = (240, 80))).
  { intros path img Hin.
    pose proof (sized_after _ (keeps_real2_script L w)) as S.
    unfold sized in S. rewrite Forall_forall in S. specialize (S _ Hin).
    unfold well_sized, declared_size in S. cbn [fst snd] in S.
    refine (conj _ (conj _ (conj _ (conj _ (conj _ _))))); intros P;
      settle_folder S P; exact S. }
  assert (S2 : forall img,
     In ("dgus_assets/background/dashboard_bg.png", img) (files (snd (TryPy.main w boot))) ->
     size img = (1024, 600)).
  { intros img Hin.
    pose proof (sized_after _ (keeps_try_main w)) as S.
    unfold sized in S. rewrite Forall_forall in S. exact (S _ Hin). }
  split; [reflexivity|]. split; [reflexivity|]. split; [exact S1|]. split; [exact S2|].
  split.
  - intros Hw. destruct (script_completes w Hw L boot) as ([] & p & Run).
    exists p. split; [exact Run|].
    pose proof (emits_script L w boot tt p Run) as W.
    rewrite Run in S1. cbn [snd] in S1.
    refine (conj _ (conj _ (conj _ (conj _ (conj _ _))))); intros v Hv;
      match goal with
      | |- exists img, In (?path, img) _ /\ _ =>
          destruct (written_file p path) as [img Hin];
            [rewrite W; find_frame v|];
            exists img; split; [exact Hin|];
            destruct (S1 _ _ Hin) as (A1 & A2 & A3 & A4 & A5 & A6)
      end.
    + apply A1. reflexivity.
    + apply A2. reflexivity.
    + apply A3. reflexivity.
    + apply A4. reflexivity.
    + apply A5. reflexivity.
    + apply A6. reflexivity.
  - intros Hw Hu Hf.
    destruct (try_main_completes w Hw Hu Hf) as (G & p0 & p1 & q & _ & _ & _ & M & W).
    destruct (written_file q "dgus_assets/background/dashboard_bg.png") as [img Hin].
    { rewrite W. left. reflexivity. }
    exists q, img. split; [exact M|]. split; [exact Hin|].
    apply S2. rewrite M. exact Hin.
Qed.

Lemma generated_images_have_declared_size_witness :
  (exists p img,
     Real2.script sample_library quiet_world boot = (Ok tt, p) /\
     In ("dgus_assets/speed/042.png", img) (files p) /\ size img = (200, 200)) /\
  (exists q img,
     TryPy.main quiet_world boot = (Ok 0, q) /\
     In ("dgus_assets/background/dashboard_bg.png", img) (files q) /\
     size img = (1024, 600)).
Proof.
  destruct (generated_images_have_declared_size sample_library quiet_world)
    as (_ & _ & _ & _ & R & T).
  split.
  - destruct (R quiet_world_obliging) as (p & Run & Sp & _).
    destruct (Sp 42 ltac:(lia)) as (img & Hin & Sz).
    exists p, img. split; [exact Run|]. split; [exact Hin|exact Sz].
  - apply T.
    + exact quiet_world_obliging.
    + intros s. reflexivity.
    + intros sz e E. injection E as <-. reflexivity.
Defined.

(** On a machine that lets it write, and whose font file loads or is
    missing (an OSError): when the standard output takes every line,
    try.py exits with status 0 having written its twenty files, each once,
    as many per kind as its summary prints (1 background, 7 labels,
    4 indicators, 2 warning icons, 2 + 2 bars, 2 charging icons); when the
    standard output cannot encode the first line of the generation pass,
    the background is the only file written, the UnicodeEncodeError is
    reported on the standard error and try.py exits with status 1. *)
Theorem try_writes_every_listed_file (w : world) :
  obliging w ->
  (forall sz e, truetype_outcome w TryPy.FONT_NAME sz = Some e -> is_OSError e = true) ->
  (unicode_stdout w ->
   exists p,
     TryPy.main w boot = (Ok 0, p) /\
     written p = try_outputs /\
     NoDup (written p) /\
     List.length (listing p "dgus_assets/background") = 1%nat /\
     List.length (listing p "dgus_assets/labels") = 7%nat /\
     List.length (listing p "dgus_assets/indicators") = 4%nat /\
     List.length (listing p "dgus_assets/warning") = 2%nat /\
     List.length (listing p "dgus_assets/bars") = 4%nat /\
     List.length (listing p "dgus_assets/charging") = 2%nat) /\
  (forall msg, stdout_rejects w "✓ Background generated" = Some msg ->
   exists p,
     TryPy.main w boot = (Ok 1, p) /\
     written p = ["dgus_assets/background/dashboard_bg.png"] /\
     In (TryPy.generation_report (OtherException "UnicodeEncodeError" msg)) (stderr p)).
Proof.
  intros Hw Hf. split.
  - intros Hu.
    destruct (try_main_completes w Hw Hu Hf) as (G & p0 & p1 & p & _ & _ & _ & M & W).
    exists p. split; [exact M|].
    unfold listing. rewrite W.
    split; [reflexivity|].
    split; [apply distinct_NoDup; vm_compute; reflexivity|].
    repeat split; vm_compute; reflexivity.
  - intros msg R.
    destruct (try_main_stops_at_first_line w msg Hw Hf R) as (p1 & F1 & M).
    eexists. split; [exact M|]. split; [reflexivity|].
    cbn [stderr with_stderr]. apply in_or_app. right. left. reflexivity.
Qed.

Lemma try_writes_every_listed_file_witness :
  (exists p, TryPy.main quiet_world boot = (Ok 0, p) /\ written p = try_outputs) /\
  (exists p, TryPy.main ascii_stdout_world boot = (Ok 1, p) /\
             written p = ["dgus_assets/background/dashboard_bg.png"]).
Proof.
  split.
  - destruct (try_writes_every_listed_file quiet_world quiet_world_obliging)
      as [A _].
    + intros sz e E. injection E as <-. reflexivity.
    + destruct A as (p & M & W & _); [intros s; reflexivity|].
      exists p. split; [exact M|exact W].
  - destruct (try_writes_every_listed_file ascii_stdout_world) as [_ B].
    + split; intros; reflexivity.
    + intros sz e E. injection E as <-. reflexivity.
    + destruct (B _ eq_refl) as (p & M & W & _).
      exists p. split; [exact M|exact W].
Defined.

(** ** A run stops at the first failure *)

Section WritesUpto.
Variable w : world.

Lemma upto_nothing {A} (c : M A) : writes_nothing c -> writes_upto c [].
Proof.
  intros H p r p' E. exists [], []. unfold written.
  rewrite (H _ _ _ E), app_nil_r. auto.
Qed.

Lemma upto_bind {A B} (c : M A) (k : A -> M B) l1 l2 :
  writes_upto c l1 -> (forall a, writes_upto (k a) l2) ->
  writes_upto (bind c k) (l1 ++ l2).
Proof.
  intros Hc Hk p r p' E. unfold bind in E.
  destruct (c p) as [[a|e] p1] eqn:Ec.
  - destruct (Hc _ _ _ Ec) as (d1 & r1 & W1 & L1 & O1).
    destruct (Hk a _ _ _ E) as (d2 & r2 & W2 & L2 & O2).
    rewrite (O1 a eq_refl), app_nil_r in L1. subst l1 l2.
    exists (d1 ++ d2)%list, r2. rewrite W2, W1, !app_assoc. auto.
  - assert (p' = p1) by congruence. assert (r = Raise e) by congruence. subst p' r.
    destruct (Hc _ _ _ Ec) as (d1 & r1 & W1 & L1 & O1). subst l1.
    exists d1, (r1 ++ l2)%list. rewrite W1, app_assoc.
    split; [reflexivity|]. split; [reflexivity|]. intros a Ha. discriminate Ha.
Qed.

Lemma upto_as {A} (c : M A) l l' : writes_upto c l' -> l' = l -> writes_upto c l.
Proof. intros H <-. exact H. Qed.

Lemma upto_lift_bind {A B} (r : result A) (k : A -> M B) l :
  (forall a, r = Ok a -> writes_upto (k a) l) -> writes_upto (bind (lift r) k) l.
Proof.
  intros H p r' p' E. unfold bind, lift in E.
  destruct r as [a|e].
  - exact (H a eq_refl _ _ _ E).
  - assert (p' = p) by congruence. assert (r' = Raise e) by congruence. subst p' r'.
    exists [], l. rewrite app_nil_r.
    split; [reflexivity|]. split; [reflexivity|]. intros a Ha. discriminate Ha.
Qed.

Lemma upto_save path img : writes_upto (save w path img) [path].
Proof.
  intros p r p' E. unfold save in E.
  destruct (save_outcome w path).
  - assert (p' = p) by congruence. assert (r = Raise e) by congruence. subst p' r.
    exists [], [path]. rewrite app_nil_r.
    split; [reflexivity|]. split; [reflexivity|]. intros a Ha. discriminate Ha.
  - exists [path], []. split; [|auto].
    apply (f_equal snd) in E. cbn [snd] in E. subst p'.
    unfold written. cbn [files]. apply map_app.
Qed.

Lemma upto_forM_ {A} (xs : list A) (body : A -> M unit) (f : A -> list string) :
  (forall x, writes_upto (body x) (f x)) ->
  writes_upto (forM_ xs body) (List.concat (map f xs)).
Proof.
  intros H. induction xs as [|x xs IH]; cbn [forM_ map List.concat].
  - apply upto_nothing, nothing_ret.
  - apply upto_bind; [apply H|intros _; exact IH].
Qed.

Lemma upto_save_frames {A} (xs : list A) frame target :
  writes_upto (Real2.save_frames w xs frame target) (map target xs).
Proof.
  unfold Real2.save_frames. rewrite <- concat_singletons.
  apply upto_forM_. intros x. apply upto_lift_bind. intros img _. apply upto_save.
Qed.

Lemma nothing_real2_load_fonts : writes_nothing (Real2.load_fonts w).
Proof.
  unfold Real2.load_fonts.
  apply nothing_try_except; [|intros _; apply nothing_bind; [apply nothing_ret|];
                               intros d; apply nothing_ret].
  repeat (apply nothing_bind; [apply nothing_truetype|intros ?]).
  apply nothing_ret.
Qed.

Lemma upto_save_indicator (direction : string) :
  writes_upto (Real2.save_indicator w direction)
    (map (fun i => Real2.path "indicators" (direction ++ "_" ++ str i)) (range 3)).
Proof.
  unfold Real2.save_indicator. apply upto_lift_bind. intros frames E.
  eapply upto_as; [apply upto_save_frames|].
  assert (Len : List.length frames = 3%nat).
  { destruct (mapR_ok (Real2.indicator_frame direction 3) (fun _ => True) (range 3))
      as [ys [Eys [Len _]]].
    - intros x Hx. apply in_range in Hx.
      destruct (brightness_bounds x 3 ltac:(lia) Hx) as [b [Eb _]].
      unfold Real2.indicator_frame. rewrite Eb. cbn [rbind]. eauto.
    - unfold Real2.indicator_animated in E. rewrite Eys in E.
      apply Ok_inj in E. subst ys. exact Len. }
  destruct frames as [|f0 [|f1 [|f2 [|f3 frames]]]]; try discriminate Len.
  reflexivity.
Qed.

End WritesUpto.

Local Ltac upto_step :=
  lazymatch goal with
  | |- writes_upto (print _ _) _ => apply upto_nothing, nothing_print
  | |- writes_upto (makedirs _ _) _ => apply upto_nothing, nothing_makedirs
  | |- writes_upto (Real2.load_fonts _) _ => apply upto_nothing, nothing_real2_load_fonts
  | |- writes_upto (save _ _ _) _ => apply upto_save
  | |- writes_upto (Real2.save_frames _ _ _ _) _ => apply upto_save_frames
  | |- writes_upto (Real2.save_indicator _ _) _ => apply upto_save_indicator
  | |- writes_upto (ret _) _ => apply upto_nothing, nothing_ret
  | |- writes_upto (forM_ _ _) _ => apply upto_forM_; intros ?; upto_step
  | |- writes_upto (bind (lift _) _) _ => apply upto_lift_bind; intros ? _; upto_step
  | |- writes_upto (bind _ _) _ => eapply upto_bind; [upto_step | intros ?; upto_step]
  end.

Lemma upto_real2_script (L : library) (w : world) :
  writes_upto (Real2.script L w) real2_outputs.
Proof.
  unfold Real2.script, Real2.temp_bar_enhanced, Real2.vi_bar_enhanced.
  eapply upto_as; [upto_step|]. vm_compute. reflexivity.
Qed.

Lemma upto_generation_pass (w : world) (G : TryPy.AssetGenerator) :
  writes_upto (TryPy.generation_pass w G) try_outputs.
Proof.
  unfold TryPy.generation_pass,
    TryPy.create_background, TryPy.create_labels, TryPy._create_label,
    TryPy.create_indicators, TryPy.create_warnings, TryPy.create_bars,
    TryPy._create_temp_bars, TryPy._create_soc_bars, TryPy.create_charging_icons,
    TryPy._print_summary.
  eapply upto_as; [upto_step|]. vm_compute. reflexivity.
Qed.

(** Where the files of a run of try.py come from: the generation pass,
    if the generator was built at all. *)
Lemma generate_all_files (w : world) (G : TryPy.AssetGenerator) (p0 : proc) r p :
  TryPy.generate_all w G p0 = (r, p) ->
  exists rr p1, TryPy.generation_pass w G p0 = (rr, p1) /\ files p = files p1 /\
                (r = Ok true -> rr = Ok tt).
Proof.
  unfold TryPy.generate_all, try_except, bind.
  destruct (TryPy.generation_pass w G p0) as [[[]|e] p1].
  - unfold ret. intros E. exists (Ok tt), p1.
    split; [reflexivity|]. split; [congruence|reflexivity].
  - destruct (is_Exception e).
    + unfold print_stderr, ret. intros E. exists (Raise e), p1.
      split; [reflexivity|].
      split; [apply (f_equal snd) in E; cbn [snd] in E; subst p; reflexivity|].
      intros ->. discriminate E.
    + intros E. exists (Raise e), p1.
      split; [reflexivity|]. split; [congruence|]. intros ->. discriminate E.
Qed.

Lemma main_files (w : world) r p :
  TryPy.main w boot = (r, p) ->
  (exists G p0 rr p1,
     TryPy.new_AssetGenerator w boot = (Ok G, p0) /\
     TryPy.generation_pass w G p0 = (rr, p1) /\
     files p = files p1 /\ (r = Ok 0 -> rr = Ok tt)) \/
  (exists e p0, TryPy.new_AssetGenerator w boot = (Raise e, p0) /\
                files p = files p0 /\ r <> Ok 0).
Proof.
  unfold TryPy.main, try_except2.
  match goal with
  | |- context [bind ?c ?k boot] => destruct (bind c k boot) as [[n|e] q] eqn:B
  end.
  - intros E. assert (r = Ok n) by congruence. assert (p = q) by congruence. subst r p.
    unfold bind in B.
    destruct (TryPy.new_AssetGenerator w boot) as [[G|e] p0]; [|discriminate].
    destruct (TryPy.generate_all w G p0) as [[s|e] q1] eqn:GA; [|discriminate].
    destruct (generate_all_files w G p0 _ _ GA) as (rr & p1 & P & Fp & S).
    unfold ret in B. assert (q = q1) by congruence. subst q1.
    left. exists G, p0, rr, p1. repeat (split; [first [reflexivity|assumption]|]).
    intros Hn. apply S. destruct s; [reflexivity|].
    exfalso. assert (n = 1) by congruence. congruence.
  - assert (Fq : files p = files q /\ r <> Ok 0 -> 
                 (exists G p0 rr p1,
                    TryPy.new_AssetGenerator w boot = (Ok G, p0) /\
                    TryPy.generation_pass w G p0 = (rr, p1) /\
                    files p = files p1 /\ (r = Ok 0 -> rr = Ok tt)) \/
                 (exists e p0, TryPy.new_AssetGenerator w boot = (Raise e, p0) /\
                               files p = files p0 /\ r <> Ok 0)).
    { intros [Fq Nr]. unfold bind in B.
      destruct (TryPy.new_AssetGenerator w boot) as [[G|e0] p0].
      - destruct (TryPy.generate_all w G p0) as [[s|e1] q1] eqn:GA; [discriminate|].
        destruct (generate_all_files w G p0 _ _ GA) as (rr & p1 & P & Fp & S).
        assert (q = q1) by congruence. subst q1.
        left. exists G, p0, rr, p1. split; [reflexivity|]. split; [exact P|].
        split; [congruence|]. intros Hr. contradiction.
      - assert (q = p0) by congruence. subst q.
        right. exists e0, p0. auto. }
    intros E. apply Fq. clear Fq B.
    destruct (is_KeyboardInterrupt e); [|destruct (is_Exception e)];
      unfold bind, print, print_stderr, ret in E.
    + destruct (if is_ascii _ then _ else _);
        (split; [apply (f_equal snd) in E; cbn [snd] in E; subst p; reflexivity|]);
        intros ->; discriminate E.
    + split; [apply (f_equal snd) in E; cbn [snd] in E; subst p; reflexivity|].
      intros ->. discriminate E.
    + split; [congruence|]. intros ->. discriminate E.
Qed.

(** Neither script retries, cleans up or skips: however a run ends, the
    files it has written are an initial part of its list of outputs, in
    the order of the list, and the whole list when the run completed. *)
Theorem runs_stop_at_first_failure (L : library) (w : world) :
  (forall r p, Real2.script L w boot = (r, p) ->
     exists rest, real2_outputs = (written p ++ rest)%list /\
                  (r = Ok tt -> rest = [])) /\
  (forall r p, TryPy.main w boot = (r, p) ->
     exists rest, try_outputs = (written p ++ rest)%list /\
                  (r = Ok 0 -> rest = [])).
Proof.
  split.
  - intros r p E.
    destruct (upto_real2_script L w _ _ _ E) as (d & rest & W & Lr & O).
    exists rest. rewrite W. split; [exact Lr|]. intros ->. exact (O tt eq_refl).
  - intros r p E.
    destruct (main_files w r p E)
      as [(G & p0 & rr & p1 & N & P & Fp & S)|(e & p0 & N & Fp & Nr)].
    + destruct (upto_generation_pass w G _ _ _ P) as (d & rest & W & Lr & O).
      pose proof (nothing_new_AssetGenerator w _ _ _ N) as F0.
      exists rest. unfold written in *. rewrite Fp, W, F0.
      split; [exact Lr|]. intros Hr. exact (O tt (S Hr)).
    + pose proof (nothing_new_AssetGenerator w _ _ _ N) as F0.
      exists try_outputs. unfold written. rewrite Fp, F0.
      split; [reflexivity|]. intros Hr. contradiction.
Qed.

(** A run of the flat script on a machine whose disk fills up at the
    charging icons, and the runs of try.py on the failing machines. *)
Lemma runs_stop_at_first_failure_witness :
  (exists rest,
     real2_outputs
     = (written (snd (Real2.script sample_library full_disk_world boot)) ++ rest)%list) /\
  written (snd (TryPy.main full_disk_world boot))
  = firstn 18 try_outputs /\
  written (snd (TryPy.main interrupted_world boot)) = [].
Proof.
  destruct (runs_stop_at_first_failure sample_library full_disk_world) as [R T].
  split; [|split].
  - destruct (R _ _ (surjective_pairing _)) as (rest & E & _).
    exists rest. exact E.
  - vm_compute. reflexivity.
  - vm_compute. reflexivity.
Defined.

(** ** Frame names *)



(** ** The flat script as a whole *)

(** On a machine that lets it make its directories and write its files the
    flat script runs to its end, with or without the font: none of its
    divisions raises and no list is indexed out of range. *)
Theorem flat_script_runs_to_its_end (L : library) (w : world) :
  obliging w -> exists p, Real2.script L w boot = (Ok tt, p).
Proof.
  intros Hw. destruct (script_completes w Hw L boot) as ([] & p & E). eauto.
Qed.

Lemma flat_script_runs_to_its_end_witness :
  exists p, Real2.script sample_library noisy_world boot = (Ok tt, p).
Proof.
  apply (flat_script_runs_to_its_end sample_library noisy_world).
  split; intros; reflexivity.
Defined.

(** The state-of-charge fill width over the whole range: twice the
    percentage, except at 29, 57 and 58 where it is one pixel less. *)
Theorem soc_fill_width_everywhere (s : Z) :
  0 <= s <= 100 ->
  Real2.soc_fill_width s
  = Ok (if (s =? 29) || (s =? 57) || (s =? 58) then 2 * s - 1 else 2 * s).
Proof. intros Hs. exact (soc_fill_width_table s Hs). Qed.

Lemma soc_fill_width_everywhere_witness :
  Real2.soc_fill_width 30 = Ok 60 /\ Real2.soc_fill_width 57 = Ok 113.
Proof.
  split.
  - apply (soc_fill_width_everywhere 30). lia.
  - apply (soc_fill_width_everywhere 57). lia.
Defined.

(** ** Fonts are never mixed *)

(** After font loading the handles are all TrueType, in the sizes asked
    for, or all the default font: one failing size switches every handle,
    in both scripts. *)
Theorem fonts_all_or_nothing (w : world) (p : proc) :
  (exists F, Real2.load_fonts w p = (Ok F, p) /\
     (F = Real2.mkFonts (FreeTypeFont "DejaVuSans-Bold.ttf" 48)
            (FreeTypeFont "DejaVuSans-Bold.ttf" 36)
            (FreeTypeFont "DejaVuSans-Bold.ttf" 24)
      \/ F = default_fonts)) /\
  (forall G p', TryPy._load_fonts w p = (Ok G, p') ->
     G = TryPy.mkGenerator (FreeTypeFont "DejaVuSans-Bold.ttf" 36)
           (FreeTypeFont "DejaVuSans-Bold.ttf" 26)
     \/ G = TryPy.mkGenerator DefaultFont DefaultFont).
Proof.
  split.
  - unfold Real2.load_fonts, try_except, bind, truetype, load_default, ret.
    destruct (truetype_outcome w "DejaVuSans-Bold.ttf" 48);
      [eexists; split; [reflexivity|right; reflexivity]|].
    destruct (truetype_outcome w "DejaVuSans-Bold.ttf" 36);
      [eexists; split; [reflexivity|right; reflexivity]|].
    destruct (truetype_outcome w "DejaVuSans-Bold.ttf" 24);
      eexists; (split; [reflexivity|]); [right|left]; reflexivity.
  - intros G p'.
    unfold TryPy._load_fonts, try_except, bind, truetype, load_default, ret, print.
    destruct (truetype_outcome w TryPy.FONT_NAME TryPy.FONT_SIZE_BIG) as [e|].
    { destruct (is_OSError e); [|discriminate]. intros E.
      apply (f_equal fst) in E. cbn in E. apply Ok_inj in E. subst G.
      right. reflexivity. }
    destruct (truetype_outcome w TryPy.FONT_NAME TryPy.FONT_SIZE_MED) as [e|].
    { destruct (is_OSError e); [|discriminate]. intros E.
      apply (f_equal fst) in E. cbn in E. apply Ok_inj in E. subst G.
      right. reflexivity. }
    intros E. apply (f_equal fst) in E. cbn in E. apply Ok_inj in E. subst G.
    left. reflexivity.
Qed.

Lemma fonts_all_or_nothing_witness :
  exists F, Real2.load_fonts no_freetype_world boot = (Ok F, boot) /\
    (F = Real2.mkFonts (FreeTypeFont "DejaVuSans-Bold.ttf" 48)
           (FreeTypeFont "DejaVuSans-Bold.ttf" 36)
           (FreeTypeFont "DejaVuSans-Bold.ttf" 24)
     \/ F = default_fonts).
Proof. exact (proj1 (fonts_all_or_nothing no_freetype_world boot)). Defined.

(** ** Indicator colours *)




(** ** Directories and printed lines of a completed run *)

Section Appends.
Context {X : Type}.
Variable log : proc -> list X.
Variable on_print : string -> list X.
Variable on_mkdir : string -> list X.
Hypothesis log_print : forall s p, log (with_stdout p s) = (log p ++ on_print s)%list.
Hypothesis log_mkdir : forall p d,
  log {| dirs := dirs p ++ [d]; files := files p; stdout := stdout p; stderr := stderr p |}
  = (log p ++ on_mkdir d)%list.
Hypothesis log_save : forall p f,
  log {| dirs := dirs p; files := files p ++ [f]; stdout := stdout p; stderr := stderr p |}
  = log p.
Variable w : world.

Lemma appends_ret {A} (a : A) : appends log (ret a) [].
Proof.
  intros p a' p' E. unfold ret in E. assert (p' = p) by congruence. subst p'.
  symmetry. apply app_nil_r.
Qed.

Lemma appends_bind {A B} (c : M A) (k : A -> M B) l1 l2 :
  appends log c l1 -> (forall a, appends log (k a) l2) ->
  appends log (bind c k) (l1 ++ l2).
Proof.
  intros Hc Hk p b p' E. unfold bind in E.
  destruct (c p) as [[a|e] p1] eqn:Ec; [|discriminate].
  rewrite (Hk a _ _ _ E), (Hc _ _ _ Ec). symmetry. apply app_assoc.
Qed.

Lemma appends_as {A} (c : M A) l l' : appends log c l' -> l' = l -> appends log c l.
Proof. intros H <-. exact H. Qed.

Lemma appends_lift_bind {A B} (r : result A) (k : A -> M B) l :
  (forall a, r = Ok a -> appends log (k a) l) -> appends log (bind (lift r) k) l.
Proof.
  intros H p b p' E. unfold bind, lift in E.
  destruct r as [a|e]; [|discriminate]. exact (H a eq_refl _ _ _ E).
Qed.

Lemma appends_print s : appends log (print w s) (on_print s).
Proof.
  intros p a p' E. unfold print in E.
  destruct (if is_ascii s then None else stdout_rejects w s); [discriminate|].
  apply (f_equal snd) in E. cbn [snd] in E. subst p'. apply log_print.
Qed.

Lemma appends_makedirs d : appends log (makedirs w d) (on_mkdir d).
Proof.
  intros p a p' E. unfold makedirs in E.
  destruct (mkdir_outcome w d); [discriminate|].
  apply (f_equal snd) in E. cbn [snd] in E. subst p'. apply log_mkdir.
Qed.

Lemma appends_save path img : appends log (save w path img) [].
Proof.
  intros p a p' E. unfold save in E.
  destruct (save_outcome w path); [discriminate|].
  apply (f_equal snd) in E. cbn [snd] in E. subst p'.
  rewrite log_save. symmetry. apply app_nil_r.
Qed.

Lemma appends_forM_ {A} (xs : list A) (body : A -> M unit) (f : A -> list X) :
  (forall x, appends log (body x) (f x)) ->
  appends log (forM_ xs body) (List.concat (map f xs)).
Proof.
  intros H. induction xs as [|x xs IH]; cbn [forM_ map List.concat].
  - apply appends_ret.
  - apply appends_bind; [apply H|intros _; exact IH].
Qed.

Lemma concat_nils {A} (xs : list A) : List.concat (map (fun _ => @nil X) xs) = [].
Proof. induction xs as [|x xs IH]; cbn; [reflexivity|exact IH]. Qed.

Lemma appends_save_frames {A} (xs : list A) frame target :
  appends log (Real2.save_frames w xs frame target) [].
Proof.
  unfold Real2.save_frames. rewrite <- (concat_nils xs).
  apply appends_forM_. intros x. apply appends_lift_bind. intros img _.
  apply appends_save.
Qed.

Lemma appends_real2_load_fonts : appends log (Real2.load_fonts w) [].
Proof.
  intros p F p' E. destruct (real2_load_fonts_returns w p) as [F' E'].
  rewrite E' in E. assert (p' = p) by congruence. subst p'.
  symmetry. apply app_nil_r.
Qed.

Lemma appends_save_indicator direction :
  appends log (Real2.save_indicator w direction) [].
Proof.
  unfold Real2.save_indicator. apply appends_lift_bind. intros frames _.
  apply appends_save_frames.
Qed.

Lemma appends_real2_script (L : library) :
  appends log (Real2.script L w)
    (List.concat (map on_mkdir
                    (map (fun f => Real2.BASE_DIR ++ "/" ++ f)%string Real2.folders))
     ++ List.concat (map on_print real2_stdout)).
Proof.
  unfold Real2.script, Real2.temp_bar_enhanced, Real2.vi_bar_enhanced.
  eapply appends_as.
  - repeat lazymatch goal with
    | |- appends _ (print _ _) _ => apply appends_print
    | |- appends _ (makedirs _ _) _ => apply appends_makedirs
    | |- appends _ (save _ _ _) _ => apply appends_save
    | |- appends _ (Real2.save_frames _ _ _ _) _ => apply appends_save_frames
    | |- appends _ (Real2.save_indicator _ _) _ => apply appends_save_indicator
    | |- appends _ (Real2.load_fonts _) _ => apply appends_real2_load_fonts
    | |- appends _ (forM_ _ _) _ => apply appends_forM_; intros ?
    | |- appends _ (bind (lift _) _) _ => apply appends_lift_bind; intros ? _
    | |- appends _ (bind _ _) _ => eapply appends_bind; [|intros ?]
    end.
  - cbn [map List.concat Real2.folders real2_stdout app].
    rewrite ?app_nil_r, <- ?app_assoc. reflexivity.
Qed.

Lemma appends_generation_pass (G : TryPy.AssetGenerator) :
  appends log (TryPy.generation_pass w G)
    (List.concat (map on_print (try_pass_stdout w))).
Proof.
  unfold TryPy.generation_pass, TryPy.create_background, TryPy.create_labels,
    TryPy._create_label, TryPy.create_indicators, TryPy.create_warnings,
    TryPy.create_bars, TryPy._create_temp_bars, TryPy._create_soc_bars,
    TryPy.create_charging_icons, TryPy._print_summary.
  eapply appends_as.
  - repeat lazymatch goal with
    | |- appends _ (print _ _) _ => apply appends_print
    | |- appends _ (save _ _ _) _ => apply appends_save
    | |- appends _ (forM_ _ _) _ => apply appends_forM_; intros ?
    | |- appends _ (bind _ _) _ => eapply appends_bind; [|intros ?]
    end.
  - cbn [map List.concat try_pass_stdout app].
    rewrite ?app_nil_r, <- ?app_assoc. reflexivity.
Qed.

Lemma appends_create_directories :
  appends log (TryPy._create_directories w)
    (List.concat (map on_mkdir try_dirs)
     ++ on_print "[OK] Created 6 output directories").
Proof.
  unfold TryPy._create_directories.
  eapply appends_as.
  - eapply appends_bind; [|intros ?; apply appends_print].
    apply appends_forM_. intros ?. apply appends_makedirs.
  - cbn [map List.concat TryPy.FOLDERS try_dirs app].
    rewrite ?app_nil_r, <- ?app_assoc. reflexivity.
Qed.

End Appends.

Lemma dirs_print s p : dirs (with_stdout p s) = (dirs p ++ [])%list.
Proof. symmetry. apply app_nil_r. Qed.

Lemma stdout_print s p : stdout (with_stdout p s) = (stdout p ++ [s])%list.
Proof. reflexivity. Qed.

Lemma stdout_quiet (p : proc) (d : string) : stdout p = (stdout p ++ [])%list.
Proof. symmetry. apply app_nil_r. Qed.

Lemma real2_run_dirs (L : library) (w : world) (p : proc) :
  Real2.script L w boot = (Ok tt, p) -> dirs p = real2_dirs.
Proof.
  intros Run.
  rewrite (appends_real2_script dirs (fun _ => []) (fun d => [d])
             dirs_print (fun _ _ => eq_refl) (fun _ _ => eq_refl) w L _ _ _ Run).
  rewrite concat_nils, app_nil_r. reflexivity.
Qed.

Lemma real2_run_stdout (L : library) (w : world) (p : proc) :
  Real2.script L w boot = (Ok tt, p) -> stdout p = real2_stdout.
Proof.
  intros Run.
  rewrite (appends_real2_script stdout (fun s => [s]) (fun _ => [])
             stdout_print (fun p d => stdout_quiet p d) (fun _ _ => eq_refl)
             w L _ _ _ Run).
  rewrite concat_nils. reflexivity.
Qed.

Lemma real2_run_stderr (L : library) (w : world) (p : proc) :
  Real2.script L w boot = (Ok tt, p) -> stderr p = [].
Proof.
  intros Run.
  rewrite (appends_real2_script stderr (fun _ => []) (fun _ => [])
             (fun _ p => eq_sym (app_nil_r (stderr p)))
             (fun p _ => eq_sym (app_nil_r (stderr p))) (fun _ _ => eq_refl)
             w L _ _ _ Run).
  rewrite !concat_nils. reflexivity.
Qed.

(** After a completed run of real2.py the directories made are the eleven
    of its folder list, every file written lies directly in one of them,
    and none of them is left empty. *)
Theorem real2_files_lie_in_made_directories (L : library) (w : world) (p : proc) :
  Real2.script L w boot = (Ok tt, p) ->
  dirs p = real2_dirs /\
  List.length (dirs p) = 11%nat /\
  Forall (fun f => In (dirname f) (dirs p)) (written p) /\
  Forall (fun d => exists f, In f (written p) /\ dirname f = d) (dirs p).
Proof.
  intros Run.
  rewrite (real2_run_dirs L w p Run), (emits_script L w boot tt p Run).
  split; [reflexivity|]. split; [reflexivity|]. split.
  - apply Forall_forall. intros f Hf.
    assert (E : existsb (String.eqb (dirname f)) real2_dirs = true).
    { revert f Hf. apply forallb_forall. vm_compute. reflexivity. }
    apply existsb_exists in E. destruct E as (d & Hd & E).
    apply String.eqb_eq in E. rewrite E. exact Hd.
  - apply Forall_forall. intros d Hd.
    assert (E : existsb (fun f => String.eqb (dirname f) d) real2_outputs = true).
    { revert d Hd. apply forallb_forall. vm_compute. reflexivity. }
    apply existsb_exists in E. destruct E as (f & Hf & E).
    apply String.eqb_eq in E. eauto.
Qed.

Lemma real2_files_lie_in_made_directories_witness :
  exists p, Real2.script sample_library quiet_world boot = (Ok tt, p) /\
            List.length (dirs p) = 11%nat.
Proof.
  destruct (script_completes quiet_world quiet_world_obliging sample_library boot)
    as ([] & p & Run).
  exists p. split; [exact Run|].
  destruct (real2_files_lie_in_made_directories sample_library quiet_world p Run)
    as (_ & N & _).
  exact N.
Defined.

(** The summary real2.py prints at the end of a completed run agrees with
    what the run did: the number of folders made and, kind by kind, the
    number of frames written. *)
Theorem real2_summary_is_accurate (L : library) (w : world) (p : proc) :
  Real2.script L w boot = (Ok tt, p) ->
  let n stem := str (count_in p stem) in
  stdout p = real2_stdout /\
  stderr p = [] /\
  In ("Total folders: " ++ str (Z.of_nat (List.length (dirs p))))%string (stdout p) /\
  In ("  - Speed: " ++ n "dgus_assets/speed/" ++ " frames (0-80 km/h)")%string
     (stdout p) /\
  In ("  - RPM: " ++ n "dgus_assets/rpm/" ++ " frames (0-8000 RPM)")%string
     (stdout p) /\
  In ("  - Temperatures: " ++ n "dgus_assets/temp_motor/"
        ++ " frames each (0-100 C)")%string (stdout p) /\
  n "dgus_assets/temp_controller/" = n "dgus_assets/temp_motor/" /\
  n "dgus_assets/temp_battery/" = n "dgus_assets/temp_motor/" /\
  In ("  - SOC: " ++ n "dgus_assets/soc/" ++ " frames (0-100%)")%string (stdout p) /\
  In ("  - Battery V/I: " ++ n "dgus_assets/battery_vi/" ++ " frames")%string
     (stdout p) /\
  In ("  - Motor V/I: " ++ n "dgus_assets/motor_vi/" ++ " frames")%string
     (stdout p) /\
  In ("  - Charging: " ++ n "dgus_assets/charging/charging_"
        ++ " animated frames + " ++ n "dgus_assets/charging/discharging"
        ++ " static")%string (stdout p) /\
  In ("  - Indicators: "
        ++ str (count_in p "dgus_assets/indicators/left_"
                - count_in p "dgus_assets/indicators/left_off")
        ++ " animated frames each + off states")%string (stdout p) /\
  count_in p "dgus_assets/indicators/right_" = count_in p "dgus_assets/indicators/left_" /\
  count_in p "dgus_assets/indicators/left_off" = 1 /\
  count_in p "dgus_assets/indicators/right_off" = 1 /\
  In ("  - Warnings: " ++ n "dgus_assets/warnings/" ++ " icons")%string (stdout p).
Proof.
  intros Run n. subst n. unfold count_in.
  rewrite (real2_run_stdout L w p Run), (real2_run_dirs L w p Run),
    (emits_script L w boot tt p Run).
  split; [reflexivity|].
  split; [exact (real2_run_stderr L w p Run)|].
  repeat lazymatch goal with
    | |- _ /\ _ => split
    | |- In _ _ => vm_compute; repeat (first [left; reflexivity | right])
    | |- _ = _ => vm_compute; reflexivity
    end.
Qed.

Lemma real2_summary_is_accurate_witness :
  exists p, Real2.script sample_library quiet_world boot = (Ok tt, p) /\
            stdout p = real2_stdout /\ stderr p = [].
Proof.
  destruct (script_completes quiet_world quiet_world_obliging sample_library boot)
    as ([] & p & Run).
  exists p. split; [exact Run|].
  destruct (real2_summary_is_accurate sample_library quiet_world p Run)
    as (O & E & _).
  split; [exact O|exact E].
Defined.

(** Font loading in try.py makes no directory, prints one line on the
    standard output and nothing on the standard error. *)
Lemma try_load_fonts_logs (w : world) (p : proc) G p' :
  TryPy._load_fonts w p = (Ok G, p') ->
  dirs p' = dirs p /\ stderr p' = stderr p /\
  exists line, stdout p' = (stdout p ++ [line])%list.
Proof.
  unfold TryPy._load_fonts, try_except, bind, truetype, load_default, ret, print.
  destruct (truetype_outcome w TryPy.FONT_NAME TryPy.FONT_SIZE_BIG) as [e|].
  { destruct (is_OSError e); [|discriminate].
    intros E. settle_ascii E.
    apply (f_equal snd) in E. cbn [snd] in E. subst p'.
    cbn [dirs stderr stdout]. eauto. }
  destruct (truetype_outcome w TryPy.FONT_NAME TryPy.FONT_SIZE_MED) as [e|].
  { destruct (is_OSError e); [|discriminate].
    intros E. settle_ascii E.
    apply (f_equal snd) in E. cbn [snd] in E. subst p'.
    cbn [dirs stderr stdout]. eauto. }
  intros E. settle_ascii E.
  apply (f_equal snd) in E. cbn [snd] in E. subst p'.
  cbn [dirs stderr stdout]. eauto.
Qed.

(** On a machine that lets it write, whose font file loads or is missing,
    and whose standard output takes every line, try.py makes the six
    directories of its folder list, writes every file directly into one of
    them and leaves none of them empty, prints nothing on the standard
    error, and the summary it prints agrees with what it did: the number of
    folders and, kind by kind, the number of files. *)
Theorem try_summary_is_accurate (w : world) :
  obliging w ->
  unicode_stdout w ->
  (forall sz e, truetype_outcome w TryPy.FONT_NAME sz = Some e -> is_OSError e = true) ->
  exists p,
    TryPy.main w boot = (Ok 0, p) /\
    dirs p = try_dirs /\
    Forall (fun f => In (dirname f) (dirs p)) (written p) /\
    Forall (fun d => exists f, In f (written p) /\ dirname f = d) (dirs p) /\
    stderr p = [] /\
    In ("[OK] Created " ++ str (Z.of_nat (List.length (dirs p)))
          ++ " output directories")%string (stdout p) /\
    In ("📦 Folders: " ++ str (Z.of_nat (List.length (dirs p))))%string (stdout p) /\
    In ("   • Background (" ++ str (count_in p "dgus_assets/background/") ++ ")")%string
       (stdout p) /\
    In ("   • Labels (" ++ str (count_in p "dgus_assets/labels/") ++ ")")%string
       (stdout p) /\
    In ("   • Indicators (" ++ str (count_in p "dgus_assets/indicators/") ++ ")")%string
       (stdout p) /\
    In ("   • Warning icons (" ++ str (count_in p "dgus_assets/warning/") ++ ")")%string
       (stdout p) /\
    In ("   • Temperature bars (" ++ str (count_in p "dgus_assets/bars/temp_bar_")
          ++ ")")%string (stdout p) /\
    In ("   • SOC bars (" ++ str (count_in p "dgus_assets/bars/soc_bar_") ++ ")")%string
       (stdout p) /\
    In ("   • Charging icons (" ++ str (count_in p "dgus_assets/charging/") ++ ")")%string
       (stdout p).
Proof.
  intros Hw Hu Hf.
  destruct (try_main_completes w Hw Hu Hf) as (G & p0 & p1 & p & D & Lf & P & M & W).
  exists p.
  split; [exact M|].
  destruct (try_load_fonts_logs w p0 G p1 Lf) as (Ld & Le & line & Lo).
  assert (Dp : dirs p = try_dirs).
  { rewrite (appends_generation_pass dirs (fun _ => []) dirs_print
               (fun _ _ => eq_refl) w G _ _ _ P), concat_nils, app_nil_r, Ld.
    rewrite (appends_create_directories dirs (fun _ => []) (fun d => [d]) dirs_print
               (fun _ _ => eq_refl) w _ _ _ D).
    reflexivity. }
  assert (Ep : stderr p = []).
  { rewrite (appends_generation_pass stderr (fun _ => [])
               (fun _ q => eq_sym (app_nil_r (stderr q)))
               (fun _ _ => eq_refl) w G _ _ _ P), concat_nils, app_nil_r, Le.
    rewrite (appends_create_directories stderr (fun _ => []) (fun _ => [])
               (fun _ q => eq_sym (app_nil_r (stderr q)))
               (fun q _ => eq_sym (app_nil_r (stderr q))) w _ _ _ D).
    reflexivity. }
  assert (Op : stdout p
               = ("[OK] Created 6 output directories" :: line :: try_pass_stdout w)%list).
  { rewrite (appends_generation_pass stdout (fun s => [s]) stdout_print
               (fun _ _ => eq_refl) w G _ _ _ P), Lo.
    rewrite (appends_create_directories stdout (fun s => [s]) (fun _ => [])
               stdout_print (fun q d => stdout_quiet q d) w _ _ _ D).
    reflexivity. }
  unfold count_in. rewrite Dp, W, Ep, Op.
  split; [reflexivity|]. split.
  { apply Forall_forall. intros f Hin.
    assert (E : existsb (String.eqb (dirname f)) try_dirs = true).
    { revert f Hin. apply forallb_forall. vm_compute. reflexivity. }
    apply existsb_exists in E. destruct E as (d & Hd & E).
    apply String.eqb_eq in E. rewrite E. exact Hd. }
  split.
  { apply Forall_forall. intros d Hd.
    assert (E : existsb (fun f => String.eqb (dirname f) d) try_outputs = true).
    { revert d Hd. apply forallb_forall. vm_compute. reflexivity. }
    apply existsb_exists in E. destruct E as (f & Hin & E).
    apply String.eqb_eq in E. eauto. }
  split; [reflexivity|].
  repeat lazymatch goal with
    | |- _ /\ _ => split
    | |- In _ _ => vm_compute; repeat (first [left; reflexivity | right])
    end.
Qed.

Lemma try_summary_is_accurate_witness :
  exists p, TryPy.main quiet_world boot = (Ok 0, p) /\ dirs p = try_dirs /\
            stderr p = [].
Proof.
  destruct (try_summary_is_accurate quiet_world quiet_world_obliging)
    as (p & M & D & _ & _ & E & _).
  - intros s. reflexivity.
  - intros sz e E. injection E as <-. reflexivity.
  - exists p. split; [exact M|]. split; [exact D|exact E].
Defined.
